(** * ShelfScan: the inference orchestration pipeline, embedded and verified

    A shallow embedding of the Python back end of ShelfScan
    (debate_service.py, voice_service.py, aggregation_service.py, main.py,
    models.py, twilio_service.py) together with the properties its
    specification states about it.

    Conventions of the embedding.
    - A Python [str] is a [string]; each character stands for one code point
      below 256.  Text outside that range is not modelled.
    - A Python value built from JSON (a provider reply, the vision data) is a
      [pyval]; it is untyped, as in the source: a key may be missing or hold
      a value of any shape.
    - A Python [float] is an IEEE 754 binary64 number ([spec_float] with
      precision 53 and maximal exponent 1024), rounded to nearest-even.
    - A call that may raise returns a [result]; [Raise] carries the exception.
    - What an external collaborator (an inference provider, the speech
      synthesizer, the object store, the database) answers in one run is
      given by an environment; every theorem quantifies over it. *)

From Stdlib Require Import ZArith List String Ascii Bool Lia DecimalString.
From Stdlib Require Import Floats.SpecFloat.
Import ListNotations.

Local Open Scope string_scope.
Local Open Scope list_scope.
Local Open Scope Z_scope.

Infix "+++" := String.append (at level 60, right associativity).

(* ================================================================== *)
(** * Part I: the program *)
(* ================================================================== *)

(** ** Python strings *)

Module Str.

(** The newline and the double quote, which a literal cannot hold. *)
Definition nl : string := String "010"%char EmptyString.
Definition dq : string := String "034"%char EmptyString.

Definition is_empty (s : string) : bool :=
  match s with EmptyString => true | _ => false end.

(** [str.isspace] on one character (code points below 256). *)
Definition is_space (c : ascii) : bool :=
  let n := nat_of_ascii c in
  ((9 <=? n) && (n <=? 13) || (28 <=? n) && (n <=? 32)
   || (n =? 133) || (n =? 160))%nat.

(** [\d] of the [re] module (code points below 256). *)
Definition is_digit (c : ascii) : bool :=
  let n := nat_of_ascii c in ((48 <=? n) && (n <=? 57))%nat.

Fixpoint lstrip (s : string) : string :=
  match s with
  | String c s' => if is_space c then lstrip s' else s
  | EmptyString => EmptyString
  end.

Fixpoint rstrip (s : string) : string :=
  match s with
  | String c s' =>
      let r := rstrip s' in
      if is_empty r && is_space c then EmptyString else String c r
  | EmptyString => EmptyString
  end.

(** [s.strip()] *)
Definition strip (s : string) : string := rstrip (lstrip s).

(** [s[:n]] *)
Fixpoint take (n : nat) (s : string) : string :=
  match n, s with
  | S k, String c s' => String c (take k s')
  | _, _ => EmptyString
  end.

(** When [s] starts with [p], what follows [p]. *)
Fixpoint strip_prefix (p s : string) : option string :=
  match p, s with
  | EmptyString, _ => Some s
  | String a p', String b s' =>
      if Ascii.eqb a b then strip_prefix p' s' else None
  | String _ _, EmptyString => None
  end.

Definition starts_with (p s : string) : bool :=
  match strip_prefix p s with Some _ => true | None => false end.


(** [sep.join(l)] *)
Definition join (sep : string) (l : list string) : string :=
  String.concat sep l.



(** [s.replace(old, "")] for a non-empty [old]: [skip] counts the
    characters of the current occurrence still to drop. *)
Fixpoint remove_go (old : string) (skip : nat) (s : string) : string :=
  match s with
  | EmptyString => EmptyString
  | String c s' =>
      match skip with
      | S k => remove_go old k s'
      | O =>
          if starts_with old s
          then remove_go old (String.length old - 1) s'
          else String c (remove_go old O s')
      end
  end.

Definition remove_all (old s : string) : string := remove_go old O s.

(** Length of the match of the pattern [fence\n?] at the start of [s]. *)
Definition fence_match (fence s : string) : option nat :=
  match strip_prefix fence s with
  | Some (String "010"%char _) => Some (S (String.length fence))
  | Some _ => Some (String.length fence)
  | None => None
  end.

(** [re.sub(fence + r"\n?", "", s)] for a literal, non-empty [fence]:
    scan from the left; at a match drop it whole and go on after it,
    otherwise keep the character.  [skip] counts the characters of the
    current match still to drop. *)
Fixpoint re_sub_fence_go (fence : string) (skip : nat) (s : string)
  : string :=
  match s with
  | EmptyString => EmptyString
  | String c s' =>
      match skip with
      | S k => re_sub_fence_go fence k s'
      | O =>
          match fence_match fence s with
          | Some (S k) => re_sub_fence_go fence k s'
          | _ => String c (re_sub_fence_go fence O s')
          end
      end
  end.

Definition re_sub_fence (fence s : string) : string :=
  re_sub_fence_go fence O s.

(** The suffix of [s] that starts at its first ["{"]. *)
Fixpoint from_first_open (s : string) : option string :=
  match s with
  | EmptyString => None
  | String c s' =>
      if Ascii.eqb c "{"%char then Some s else from_first_open s'
  end.

(** The longest prefix of [s] that ends with ["}"]. *)
Fixpoint upto_last_close (s : string) : option string :=
  match s with
  | EmptyString => None
  | String c s' =>
      match upto_last_close s' with
      | Some r => Some (String c r)
      | None =>
          if Ascii.eqb c "}"%char then Some (String c EmptyString)
          else None
      end
  end.

(** [re.search(r'\{.*\}', s, re.DOTALL)]: the leftmost ["{"] and, the
    star being greedy and the dot matching every character, everything up
    to the last ["}"] after it; [None] when there is no such pair. *)
Definition re_search_braces (s : string) : option string :=
  match from_first_open s with
  | Some (String c rest) =>
      match upto_last_close rest with
      | Some r => Some (String c r)
      | None => None
      end
  | _ => None
  end.

End Str.

(** ** Python values and exceptions *)

Module Py.

#[local] Set Warnings "-register-all".

Inductive pyval : Type :=
| PNone
| PBool (b : bool)
| PInt (z : Z)
| PFloat (f : spec_float)
| PStr (s : string)
| PList (l : list pyval)
| PDict (d : list (string * pyval)).

(** A [dict] with string keys, in insertion order. *)
Definition dict : Type := list (string * pyval).

Inductive exn : Type :=
| TypeError
| AttributeError
| KeyError
| IndexError
| ValueError
| ZeroDivisionError
| JSONDecodeError
| HTTPException (status_code : Z) (detail : string)
| ExternalError (what : string).

Inductive result (A : Type) : Type :=
| Ok (a : A)
| Raise (e : exn).
Arguments Ok {A} a.
Arguments Raise {A} e.

Definition bind {A B} (m : result A) (k : A -> result B) : result B :=
  match m with
  | Ok a => k a
  | Raise e => Raise e
  end.

Definition is_ok {A} (m : result A) : bool :=
  match m with Ok _ => true | Raise _ => false end.

(** [d.get(k)] on a dict, as an option. *)
Fixpoint lookup (d : dict) (k : string) : option pyval :=
  match d with
  | [] => None
  | (k', v) :: d' => if String.eqb k' k then Some v else lookup d' k
  end.

(** [d.get(k, default)] *)
Definition dict_get (d : dict) (k : string) (default : pyval) : pyval :=
  match lookup d k with Some v => v | None => default end.

(** [d[k] = v]: an existing key keeps its place. *)
Fixpoint dict_set (d : dict) (k : string) (v : pyval) : dict :=
  match d with
  | [] => [(k, v)]
  | (k', v') :: d' =>
      if String.eqb k' k then (k, v) :: d' else (k', v') :: dict_set d' k v
  end.

(** [x.get(k, default)] on any value: only a dict has the method. *)
Definition get (x : pyval) (k : string) (default : pyval) : result pyval :=
  match x with
  | PDict d => Ok (dict_get d k default)
  | _ => Raise AttributeError
  end.

(** [x[k]] for a string key. *)
Definition getitem_str (x : pyval) (k : string) : result pyval :=
  match x with
  | PDict d =>
      match lookup d k with Some v => Ok v | None => Raise KeyError end
  | _ => Raise TypeError
  end.

(** [x[0]] *)
Definition getitem_0 (x : pyval) : result pyval :=
  match x with
  | PList (v :: _) => Ok v
  | PList [] => Raise IndexError
  | PStr (String c _) => Ok (PStr (String c EmptyString))
  | PStr EmptyString => Raise IndexError
  | PDict _ => Raise KeyError
  | _ => Raise TypeError
  end.

Definition float_is_zero (f : spec_float) : bool :=
  match f with S754_zero _ => true | _ => false end.

(** Truth value of a Python value. *)
Definition truthy (x : pyval) : bool :=
  match x with
  | PNone => false
  | PBool b => b
  | PInt z => negb (z =? 0)
  | PFloat f => negb (float_is_zero f)
  | PStr s => negb (Str.is_empty s)
  | PList l => match l with [] => false | _ => true end
  | PDict d => match d with [] => false | _ => true end
  end.

Definition is_dict (x : pyval) : bool :=
  match x with PDict _ => true | _ => false end.

Definition is_str (x : pyval) : bool :=
  match x with PStr _ => true | _ => false end.

(** [x == s] for a string literal [s]. *)
Definition eq_str (x : pyval) (s : string) : bool :=
  match x with PStr t => String.eqb t s | _ => false end.

(** [x in [s1, ..., sn]] for string literals. *)
Definition in_strs (x : pyval) (l : list string) : bool :=
  existsb (eq_str x) l.

Definition chars (s : string) : list pyval :=
  map (fun c => PStr (String c EmptyString)) (list_ascii_of_string s).

(** [for p in x]: the items the loop visits. *)
Definition iter (x : pyval) : result (list pyval) :=
  match x with
  | PList l => Ok l
  | PDict d => Ok (map (fun kv => PStr (fst kv)) d)
  | PStr s => Ok (chars s)
  | _ => Raise TypeError
  end.

(** [len(x)] *)
Definition len (x : pyval) : result Z :=
  match x with
  | PList l => Ok (Z.of_nat (List.length l))
  | PDict d => Ok (Z.of_nat (List.length d))
  | PStr s => Ok (Z.of_nat (String.length s))
  | _ => Raise TypeError
  end.

(** [x[:n]] *)
Definition slice_to (x : pyval) (n : nat) : result pyval :=
  match x with
  | PList l => Ok (PList (firstn n l))
  | PStr s => Ok (PStr (Str.take n s))
  | _ => Raise TypeError
  end.

(** [sep.join(x)]: [x] must be iterable and hold only strings. *)
Fixpoint all_strs (l : list pyval) : result (list string) :=
  match l with
  | [] => Ok []
  | PStr s :: l' => bind (all_strs l') (fun r => Ok (s :: r))
  | _ :: _ => Raise TypeError
  end.

Definition join (sep : string) (x : pyval) : result string :=
  bind (iter x) (fun items =>
  bind (all_strs items) (fun strs => Ok (Str.join sep strs))).



(** [x + 1] *)
Definition add_one (x : pyval) : result pyval :=
  match x with
  | PInt z => Ok (PInt (z + 1))
  | PBool b => Ok (PInt ((if b then 1 else 0) + 1))
  | PFloat f =>
      Ok (PFloat (SFadd 53 1024 f (binary_normalize 53 1024 1 0 false)))
  | _ => Raise TypeError
  end.

(** [x + y] on two lists. *)
Definition concat_lists (x y : pyval) : result (list pyval) :=
  match x, y with
  | PList a, PList b => Ok (a ++ b)
  | _, _ => Raise TypeError
  end.

(** What [str(e)] shows of an exception. *)
Definition message (e : exn) : string :=
  match e with
  | TypeError => "TypeError"
  | AttributeError => "AttributeError"
  | KeyError => "KeyError"
  | IndexError => "IndexError"
  | ValueError => "ValueError"
  | ZeroDivisionError => "division by zero"
  | JSONDecodeError => "JSONDecodeError"
  | HTTPException _ detail => detail
  | ExternalError what => what
  end.

(** A comprehension [[f(p) for p in items]] whose body may raise. *)
Fixpoint mapM {A B} (f : A -> result B) (l : list A) : result (list B) :=
  match l with
  | [] => Ok []
  | a :: l' =>
      bind (f a) (fun b => bind (mapM f l') (fun r => Ok (b :: r)))
  end.

(** [[p for p in items if c(p)]] whose condition may raise. *)
Fixpoint filterM {A} (c : A -> result bool) (l : list A)
  : result (list A) :=
  match l with
  | [] => Ok []
  | a :: l' =>
      bind (c a) (fun keep =>
      bind (filterM c l') (fun r => Ok (if keep then a :: r else r)))
  end.

End Py.

Import Py.

Notation "x <- m ;; k" := (Py.bind m (fun x => k))
  (at level 61, m at next level, right associativity).

(** ** Python floats: IEEE 754 binary64 *)

Module Float64.

Definition prec : Z := 53.
Definition emax : Z := 1024.

(** [float(n)] for an integer [n], correctly rounded. *)
Definition of_Z (n : Z) : spec_float := binary_normalize prec emax n 0 false.

(** [a / b] on two integers: the correctly rounded quotient, or
    [ZeroDivisionError]. *)
Definition int_truediv (a b : Z) : result spec_float :=
  match a, b with
  | _, Z0 => Raise ZeroDivisionError
  | Z0, _ => Ok (S754_zero (b <? 0))
  | _, _ =>
      let '(q, e, l) := SFdiv_core_binary prec emax (Z.abs a) 0 (Z.abs b) 0 in
      Ok (binary_round_aux prec emax (xorb (a <? 0) (b <? 0)) q e l)
  end.

Definition mul (x y : spec_float) : spec_float := SFmul prec emax x y.
Definition add (x y : spec_float) : spec_float := SFadd prec emax x y.

(** [int(x)]: truncation toward zero; an infinity or a NaN raises. *)
Definition to_int (x : spec_float) : result Z :=
  match x with
  | S754_zero _ => Ok 0
  | S754_finite s m e =>
      let v := match e with
               | Zneg p => Z.shiftr (Zpos m) (Zpos p)
               | _ => Z.shiftl (Zpos m) e
               end in
      Ok (if s then - v else v)
  | S754_infinity _ => Raise ValueError
  | S754_nan => Raise ValueError
  end.

End Float64.

(** ** main.py: the health score *)

Module Health.

(** [sum(1 for p in products if c(p))] *)
Definition count_if (c : pyval -> result bool) (items : list pyval)
  : result Z :=
  l <- filterM c items ;; Ok (Z.of_nat (List.length l)).

(** [int(((ok / total) * 70) + ((facing_ok / total) * 30))] *)
Definition score_of_counts (total ok facing_ok : Z) : result Z :=
  r1 <- Float64.int_truediv ok total ;;
  r2 <- Float64.int_truediv facing_ok total ;;
  Float64.to_int
    (Float64.add (Float64.mul r1 (Float64.of_Z 70))
                 (Float64.mul r2 (Float64.of_Z 30))).

Definition stock_ok (p : pyval) : result bool :=
  v <- get p "stock_level" PNone ;; Ok (in_strs v ["ok"; "overstocked"]).

Definition facing_ok (p : pyval) : result bool :=
  v <- get p "facing_correct" (PBool true) ;; Ok (truthy v).

Definition _calculate_health_score (vision_data : dict) : result Z :=
  let products := dict_get vision_data "products" (PList []) in
  if negb (truthy products) then Ok 0
  else
    total <- len products ;;
    items <- iter products ;;
    ok <- count_if stock_ok items ;;
    facing <- count_if facing_ok items ;;
    score <- score_of_counts total ok facing ;;
    Ok (Z.min 100 (Z.max 0 score)).

(** The formula as the specification writes it, over exact rationals. *)
Definition exact_floor_score (total ok facing_ok : Z) : Z :=
  (70 * ok + 30 * facing_ok) / total.

End Health.

(** ** A reference reading of the [json] library

    The orchestration code is verified for every behaviour of [json.loads],
    [json.dumps] and [str]; they are parameters of the sections below.  The
    concrete examples run them on this reading of the library: RFC 8259
    texts as CPython's decoder accepts them (with [NaN], [Infinity] and
    [-Infinity], duplicate keys keeping the last value).  A [\u] escape of a
    code point above 255 is outside the character range of the embedding and
    is refused. *)

Module Json.

Definition is_ws (c : ascii) : bool :=
  let n := nat_of_ascii c in
  ((n =? 32) || (n =? 9) || (n =? 10) || (n =? 13))%nat.

Fixpoint skip_ws (s : string) : string :=
  match s with
  | String c s' => if is_ws c then skip_ws s' else s
  | EmptyString => EmptyString
  end.

Definition digit_val (c : ascii) : option Z :=
  if Str.is_digit c then Some (Z.of_nat (nat_of_ascii c) - 48) else None.

(** A maximal run of digits: its value, its length and what follows. *)
Fixpoint digits (acc : Z) (n : nat) (s : string) : Z * nat * string :=
  match s with
  | String c s' =>
      match digit_val c with
      | Some d => digits (10 * acc + d) (S n) s'
      | None => (acc, n, s)
      end
  | EmptyString => (acc, n, s)
  end.

(** The binary64 number nearest to [m * 10^e], for [m >= 0]. *)
Definition dec_to_float (neg : bool) (m e : Z) : spec_float :=
  let sgn (x : Z) := if neg then - x else x in
  if m =? 0 then S754_zero neg
  else if 0 <=? e
  then binary_normalize Float64.prec Float64.emax (sgn (m * 10 ^ e)) 0 neg
  else
    let d := 10 ^ (- e) in
    let t := Z.max 0 (60 + Z.log2 d - Z.log2 m) in
    let q := Z.shiftl m t / d in
    let sticky := if Z.shiftl m t mod d =? 0 then 0 else 1 in
    binary_normalize Float64.prec Float64.emax
      (sgn (2 * q + sticky)) (- t - 1) neg.

(** The optional fraction [\.[0-9]+]. *)
Definition scan_frac (s : string) : option (Z * nat * string) :=
  match s with
  | String "."%char r =>
      let '(v, n, r') := digits 0 O r in
      match n with O => None | _ => Some (v, n, r') end
  | _ => None
  end.

(** The optional exponent [[eE][-+]?[0-9]+]. *)
Definition scan_exp (s : string) : option (Z * string) :=
  match s with
  | String c r =>
      if Ascii.eqb c "e"%char || Ascii.eqb c "E"%char then
        let '(neg, r1) :=
          match r with
          | String "-"%char r1 => (true, r1)
          | String "+"%char r1 => (false, r1)
          | _ => (false, r)
          end in
        let '(v, n, r2) := digits 0 O r1 in
        match n with
        | O => None
        | _ => Some (if neg then - v else v, r2)
        end
      else None
  | EmptyString => None
  end.

Definition after_int (neg : bool) (v : Z) (s : string) : pyval * string :=
  match scan_frac s, scan_exp s with
  | None, None => (PInt (if neg then - v else v), s)
  | None, Some (e, r) => (PFloat (dec_to_float neg v e), r)
  | Some (fv, fn, r), _ =>
      let m := v * 10 ^ Z.of_nat fn + fv in
      match scan_exp r with
      | Some (e, r') => (PFloat (dec_to_float neg m (e - Z.of_nat fn)), r')
      | None => (PFloat (dec_to_float neg m (- Z.of_nat fn)), r)
      end
  end.

(** A number: an optional minus, then 0 or a digit run that does not
    start with 0, then the optional fraction and exponent. *)
Definition scan_number (s : string) : option (pyval * string) :=
  let '(neg, s1) :=
    match s with
    | String "-"%char r => (true, r)
    | _ => (false, s)
    end in
  match s1 with
  | String c r =>
      if Ascii.eqb c "0"%char then Some (after_int neg 0 r)
      else if Str.is_digit c then
        let '(v, _, r') := digits 0 O s1 in Some (after_int neg v r')
      else None
  | EmptyString => None
  end.

Definition hex_val (c : ascii) : option nat :=
  let n := nat_of_ascii c in
  if ((48 <=? n) && (n <=? 57))%nat then Some (n - 48)%nat
  else if ((97 <=? n) && (n <=? 102))%nat then Some (n - 87)%nat
  else if ((65 <=? n) && (n <=? 70))%nat then Some (n - 55)%nat
  else None.

Definition hex4 (a b c d : ascii) : option nat :=
  match hex_val a, hex_val b, hex_val c, hex_val d with
  | Some x, Some y, Some z, Some w =>
      Some (((x * 16 + y) * 16 + z) * 16 + w)%nat
  | _, _, _, _ => None
  end.

Definition simple_escape (c : ascii) : option ascii :=
  let n := nat_of_ascii c in
  if (n =? 34)%nat then Some c
  else if (n =? 92)%nat then Some c
  else if (n =? 47)%nat then Some c
  else if (n =? 98)%nat then Some "008"%char
  else if (n =? 102)%nat then Some "012"%char
  else if (n =? 110)%nat then Some "010"%char
  else if (n =? 114)%nat then Some "013"%char
  else if (n =? 116)%nat then Some "009"%char
  else None.

Definition push (c : ascii) (r : option (string * string))
  : option (string * string) :=
  match r with
  | Some (s, rest) => Some (String c s, rest)
  | None => None
  end.

(** The body of a string literal, after its opening quote. *)
Fixpoint scan_string (s : string) : option (string * string) :=
  match s with
  | EmptyString => None
  | String c s' =>
      if (nat_of_ascii c =? 34)%nat then Some (EmptyString, s')
      else if (nat_of_ascii c =? 92)%nat then
        match s' with
        | String e s'' =>
            match simple_escape e with
            | Some ch => push ch (scan_string s'')
            | None =>
                if Ascii.eqb e "u"%char then
                  match s'' with
                  | String h1 (String h2 (String h3 (String h4 s3))) =>
                      match hex4 h1 h2 h3 h4 with
                      | Some n =>
                          if (n <? 256)%nat
                          then push (ascii_of_nat n) (scan_string s3)
                          else None
                      | None => None
                      end
                  | _ => None
                  end
                else None
            end
        | EmptyString => None
        end
      else if (nat_of_ascii c <? 32)%nat then None
      else push c (scan_string s')
  end.

Fixpoint parse_value (fuel : nat) (s : string) : option (pyval * string) :=
  match fuel with
  | O => None
  | S f =>
      match s with
      | String c r =>
          if (nat_of_ascii c =? 34)%nat then
            match scan_string r with
            | Some (str, rest) => Some (PStr str, rest)
            | None => None
            end
          else if Ascii.eqb c "{"%char then
            match skip_ws r with
            | String "}"%char rest => Some (PDict [], rest)
            | r' => parse_members f r' []
            end
          else if Ascii.eqb c "["%char then
            match skip_ws r with
            | String "]"%char rest => Some (PList [], rest)
            | r' => parse_elems f r' []
            end
          else
            match Str.strip_prefix "null" s,
                  Str.strip_prefix "true" s,
                  Str.strip_prefix "false" s with
            | Some rest, _, _ => Some (PNone, rest)
            | _, Some rest, _ => Some (PBool true, rest)
            | _, _, Some rest => Some (PBool false, rest)
            | None, None, None =>
                match scan_number s with
                | Some r => Some r
                | None =>
                    match Str.strip_prefix "NaN" s,
                          Str.strip_prefix "Infinity" s,
                          Str.strip_prefix "-Infinity" s with
                    | Some rest, _, _ => Some (PFloat S754_nan, rest)
                    | _, Some rest, _ =>
                        Some (PFloat (S754_infinity false), rest)
                    | _, _, Some rest =>
                        Some (PFloat (S754_infinity true), rest)
                    | None, None, None => None
                    end
                end
            end
      | EmptyString => None
      end
  end

(** The elements of an array, from the first one on; [acc] holds those
    read so far, last first. *)
with parse_elems (fuel : nat) (s : string) (acc : list pyval)
  : option (pyval * string) :=
  match fuel with
  | O => None
  | S f =>
      match parse_value f s with
      | Some (v, rest) =>
          match skip_ws rest with
          | String ","%char r => parse_elems f (skip_ws r) (v :: acc)
          | String "]"%char r => Some (PList (rev (v :: acc)), r)
          | _ => None
          end
      | None => None
      end
  end

(** The members of an object, from the first key on. *)
with parse_members (fuel : nat) (s : string) (acc : dict)
  : option (pyval * string) :=
  match fuel with
  | O => None
  | S f =>
      match s with
      | String c r =>
          if (nat_of_ascii c =? 34)%nat then
            match scan_string r with
            | Some (k, rest) =>
                match skip_ws rest with
                | String ":"%char r1 =>
                    match parse_value f (skip_ws r1) with
                    | Some (v, rest') =>
                        match skip_ws rest' with
                        | String ","%char r2 =>
                            parse_members f (skip_ws r2) (dict_set acc k v)
                        | String "}"%char r2 =>
                            Some (PDict (dict_set acc k v), r2)
                        | _ => None
                        end
                    | None => None
                    end
                | _ => None
                end
            | None => None
            end
          else None
      | EmptyString => None
      end
  end.

(** [json.loads(s)] *)
Definition loads (s : string) : result pyval :=
  match parse_value (2 * String.length s + 2) (skip_ws s) with
  | Some (v, rest) =>
      if Str.is_empty (skip_ws rest) then Ok v else Raise JSONDecodeError
  | None => Raise JSONDecodeError
  end.

End Json.

(** ** debate_service.py: the three-stage debate *)

Module Debate.

(** The inference providers the debate can call. *)
Inductive provider : Type :=
| GeminiProPresenter
| GPT4oMini
| GroqLlama
| TogetherMixtral
| GeminiFlash
| GeminiProDecider.

(** The credentials of config.py the critic stage reads. *)
Record Settings : Type := {
  OPENAI_API_KEY : string;
  GROQ_API_KEY : string;
  TOGETHER_API_KEY : string
}.

(** What a chat-completions request does: it raises (time-out, connection
    error), or yields a response with its status code and what [r.json()]
    gives. *)
Inductive http_reply : Type :=
| HttpRaises (e : exn)
| HttpResponse (status_code : Z) (json : result pyval).

(** What each provider answers in this run.  For the Gemini calls, the
    text of the reply ([resp.text]), or the exception raised on the way. *)
Record world : Type := {
  settings : Settings;
  presenter_reply : result string;
  gpt4o_reply : http_reply;
  groq_reply : http_reply;
  together_reply : http_reply;
  flash_reply : result string;
  decider_reply : result string
}.

(** The dict a stage function returns; [final_hindi_text] and [error] are
    keys only some stages set. *)
Record stage : Type := {
  agent : string;
  model : string;
  type_ : string;
  output : pyval;
  final_hindi_text : option pyval;
  confidence : pyval;
  error : option exn
}.

(** One entry of [rounds]. *)
Record round : Type := {
  round_agent : string;
  round_model : string;
  round_type : string;
  round_output : string;
  reasoning : string;
  confidence_score : pyval
}.

(** The dict [run_ai_debate] returns. *)
Record debate : Type := {
  rounds : list round;
  final_recommendation : pyval;
  presenter : pyval;
  critic : pyval;
  decider : pyval;
  agents_used : list string;
  critic_model_used : string
}.

Section WithLibrary.

(** [json.loads], [json.dumps] and [str]. *)
Variable json_loads : string -> result pyval.
Variable json_dumps : pyval -> string.
Variable py_str : pyval -> string.

(** The marker [_parse_json] returns when nothing parses. *)
Definition parse_error_marker (text : string) : pyval :=
  PDict [("raw", PStr (Str.take 500 text)); ("parse_error", PBool true)].

(** The text [_parse_json] hands to [json.loads]: fences removed,
    stripped. *)
Definition clean (text : string) : string :=
  let text := Str.re_sub_fence "```json" (Str.strip text) in
  Str.strip (Str.re_sub_fence "```" text).

Definition _parse_json (text : string) : pyval :=
  let text := clean text in
  match json_loads text with
  | Ok v => v
  | Raise _ =>
      match Str.re_search_braces text with
      | Some m =>
          match json_loads m with
          | Ok v => v
          | Raise _ => parse_error_marker text
          end
      | None => parse_error_marker text
      end
  end.

Definition is_urgent (p : pyval) : result bool :=
  v <- get p "stock_level" PNone ;; Ok (in_strs v ["critical"; "low"]).

Definition restock_entry (p : pyval) : result pyval :=
  product_name <- get p "product_name" (PStr "Unknown") ;;
  name <- get p "name" product_name ;;
  stock_level <- get p "stock_level" PNone ;;
  Ok (PDict [("product", name); ("current_stock", stock_level);
             ("units_to_order", PInt 6); ("reason", PStr "Low stock");
             ("estimated_cost_inr", PInt 150)]).

Definition _fallback_presenter (vision_data : dict) : result pyval :=
  let products := dict_get vision_data "products" (PList []) in
  items <- iter products ;;
  urgents <- filterM is_urgent items ;;
  restocks <- mapM restock_entry (firstn 5 urgents) ;;
  Ok (PDict [("priority_restocks", PList restocks);
             ("confidence_score", PInt 58);
             ("reasoning", PStr "Fallback — check Gemini API key")]).

Definition _fallback_decider (vision_data store_info : dict) : result pyval :=
  let owner := dict_get store_info "owner_name" (PStr "bhai") in
  first3 <- slice_to (dict_get vision_data "top_restock_urgent" (PList [])) 3 ;;
  joined <- join ", " first3 ;;
  let items := if Str.is_empty joined then "kuch zaruri items" else joined in
  Ok (PDict [("final_action_plan", PList []);
             ("total_spend_today_inr", PInt 0);
             ("confidence_score", PInt 60);
             ("final_hindi_text",
               PStr ("Namaskar " +++ py_str owner +++ "! Aapki shelf mein "
                     +++ items
                     +++ " ka stock khatam ho raha hai. Aaj hi mangaiye!"));
             ("summary_english",
               PStr "Restock urgent items identified by vision analysis.")]).

(** The [try] block of [run_presenter]. *)
Definition presenter_try (reply : result string) : result stage :=
  text <- reply ;;
  let parsed := _parse_json text in
  c <- get parsed "confidence_score" (PInt 82) ;;
  Ok {| agent := "Gemini 1.5 Pro"; model := "gemini-1.5-pro";
        type_ := "presenter"; output := parsed; final_hindi_text := None;
        confidence := c; error := None |}.

Definition run_presenter (w : world) (vision_data store_info : dict)
  : result stage :=
  match presenter_try (presenter_reply w) with
  | Ok st => Ok st
  | Raise e =>
      fb <- _fallback_presenter vision_data ;;
      Ok {| agent := "Gemini 1.5 Pro"; model := "gemini-1.5-pro";
            type_ := "presenter"; output := fb; final_hindi_text := None;
            confidence := PInt 60; error := Some e |}
  end.

(** [r.json()["choices"][0]["message"]["content"]] *)
Definition chat_content (body : pyval) : result pyval :=
  choices <- getitem_str body "choices" ;;
  first <- getitem_0 choices ;;
  message <- getitem_str first "message" ;;
  getitem_str message "content".

(** The [try] block the three chat-completions critics share; [Ok None]
    is falling out of it on a status other than 200. *)
Definition chat_critic_try (reply : http_reply) (agent_name model_name : string)
  (default_confidence : Z) : result (option stage) :=
  match reply with
  | HttpRaises e => Raise e
  | HttpResponse status_code body =>
      if status_code =? 200 then
        b <- body ;;
        content <- chat_content b ;;
        match content with
        | PStr text =>
            let parsed := _parse_json text in
            c <- get parsed "confidence_score" (PInt default_confidence) ;;
            Ok (Some {| agent := agent_name; model := model_name;
                        type_ := "critic"; output := parsed;
                        final_hindi_text := None; confidence := c;
                        error := None |})
        | _ => Raise AttributeError
        end
      else Ok None
  end.

(** A chat-completions critic: without a key it returns [None] and calls
    nobody; otherwise it calls [who] and returns [None] on any failure. *)
Definition chat_critic (key : string) (who : provider) (reply : http_reply)
  (agent_name model_name : string) (default_confidence : Z)
  : option stage * list provider :=
  if Str.is_empty key then (None, [])
  else
    (match chat_critic_try reply agent_name model_name default_confidence with
     | Ok r => r
     | Raise _ => None
     end, [who]).

Definition run_critic_gpt4o (w : world) : option stage * list provider :=
  chat_critic (OPENAI_API_KEY (settings w)) GPT4oMini (gpt4o_reply w)
    "GPT-4o Mini" "gpt-4o-mini" 80.

Definition run_critic_groq (w : world) : option stage * list provider :=
  chat_critic (GROQ_API_KEY (settings w)) GroqLlama (groq_reply w)
    "Groq LLaMA-3.1-70B" "llama-3.1-70b-versatile" 76.

Definition run_critic_together (w : world) : option stage * list provider :=
  chat_critic (TOGETHER_API_KEY (settings w)) TogetherMixtral
    (together_reply w) "Together Mixtral-8x7B" "mixtral-8x7b-instruct" 74.

(** The [output] of the synthesized default critic. *)
Definition default_critique : pyval :=
  PDict [("accepted", PList []); ("challenged", PList []);
         ("rejected", PList []); ("minimum_viable_restock", PList []);
         ("risk_level", PStr "medium"); ("confidence_score", PInt 55);
         ("critique_summary", PStr "Fallback critique")].

Definition flash_try (reply : result string) : result stage :=
  text <- reply ;;
  let parsed := _parse_json text in
  c <- get parsed "confidence_score" (PInt 70) ;;
  Ok {| agent := "Gemini Flash (Critic Fallback)";
        model := "gemini-1.5-flash"; type_ := "critic"; output := parsed;
        final_hindi_text := None; confidence := c; error := None |}.

Definition run_critic_gemini_fallback (w : world) : stage * list provider :=
  (match flash_try (flash_reply w) with
   | Ok st => st
   | Raise e =>
       {| agent := "Gemini Flash (Critic Fallback)";
          model := "gemini-1.5-flash"; type_ := "critic";
          output := default_critique; final_hindi_text := None;
          confidence := PInt 55; error := Some e |}
   end, [GeminiFlash]).

(** Round 2 of [run_ai_debate]: the critic chain, with the providers it
    called, in call order. *)
Definition critic_chain (w : world) : stage * list provider :=
  let '(critic, calls) :=
    if negb (Str.is_empty (OPENAI_API_KEY (settings w)))
    then run_critic_gpt4o w else (None, []) in
  let '(critic, calls) :=
    match critic with
    | None =>
        if negb (Str.is_empty (GROQ_API_KEY (settings w)))
        then let '(c, l) := run_critic_groq w in (c, calls ++ l)
        else (None, calls)
    | Some _ => (critic, calls)
    end in
  let '(critic, calls) :=
    match critic with
    | None =>
        if negb (Str.is_empty (TOGETHER_API_KEY (settings w)))
        then let '(c, l) := run_critic_together w in (c, calls ++ l)
        else (None, calls)
    | Some _ => (critic, calls)
    end in
  match critic with
  | None =>
      let '(c, l) := run_critic_gemini_fallback w in (c, calls ++ l)
  | Some c => (c, calls)
  end.

Definition decider_try (reply : result string) : result stage :=
  text <- reply ;;
  let parsed := _parse_json text in
  hindi <- get parsed "final_hindi_text" (PStr EmptyString) ;;
  c <- get parsed "confidence_score" (PInt 90) ;;
  Ok {| agent := "Gemini 1.5 Pro"; model := "gemini-1.5-pro";
        type_ := "decider"; output := parsed;
        final_hindi_text := Some hindi; confidence := c; error := None |}.

Definition run_decider (w : world) (vision_data store_info : dict)
  : result stage :=
  match decider_try (decider_reply w) with
  | Ok st => Ok st
  | Raise e =>
      fb <- _fallback_decider vision_data store_info ;;
      hindi <- get fb "final_hindi_text" (PStr EmptyString) ;;
      Ok {| agent := "Gemini 1.5 Pro"; model := "gemini-1.5-pro";
            type_ := "decider"; output := fb;
            final_hindi_text := Some hindi; confidence := PInt 60;
            error := Some e |}
  end.

(** One entry of [rounds], from a stage's dict. *)
Definition round_of (st : stage) (kind why : string) : round :=
  {| round_agent := agent st; round_model := model st; round_type := kind;
     round_output := if is_dict (output st) then json_dumps (output st)
                     else py_str (output st);
     reasoning := why; confidence_score := confidence st |}.

(** The last-resort sentence of [run_ai_debate]. *)
Definition last_resort (vision_data store_info : dict) : result pyval :=
  let urgent := dict_get vision_data "top_restock_urgent" (PList []) in
  items <- (if truthy urgent
            then first3 <- slice_to urgent 3 ;; join ", " first3
            else Ok "kuch zaruri items") ;;
  let owner := dict_get store_info "owner_name" (PStr "bhai") in
  Ok (PStr ("Namaskar " +++ py_str owner
            +++ "! ShelfScan AI ne aapki shelf check ki. Aaj " +++ items
            +++ " zaroor mangaiye — stock bilkul khatam ho raha hai. Yeh restock karne se aapki daily kamai mein ₹200-500 ka fark padega!")).

Definition run_ai_debate (w : world) (vision_data store_info : dict)
  (pincode : pyval) : result debate :=
  p <- run_presenter w vision_data store_info ;;
  let round1 :=
    round_of p "presenter" "Gemini 1.5 Pro vision-context analysis" in
  let c := fst (critic_chain w) in
  let round2 :=
    round_of c "critic" "Economic stress-test of Presenter's plan" in
  d <- run_decider w vision_data store_info ;;
  let round3 :=
    round_of d "decider" "Final synthesis of Presenter + Critic debate" in
  let final_hindi :=
    match final_hindi_text d with
    | Some v => v
    | None => PStr EmptyString
    end in
  final_hindi <-
    (if negb (truthy final_hindi) && is_dict (output d)
     then get (output d) "final_hindi_text" (PStr EmptyString)
     else Ok final_hindi) ;;
  final_hindi <-
    (if negb (truthy final_hindi) then last_resort vision_data store_info
     else Ok final_hindi) ;;
  Ok {| rounds := [round1; round2; round3];
        final_recommendation := final_hindi;
        presenter := output p; critic := output c; decider := output d;
        agents_used := [agent p; agent c; agent d];
        critic_model_used := model c |}.

End WithLibrary.

End Debate.

(** ** The persisted store

    The Supabase client as the code uses it: tables of rows (dicts),
    [insert], [select] and [update] with exact-match filters.  A call either
    raises (the environment decides, by the position of the call in the run)
    and leaves the tables alone, or takes effect.  [journal] records every
    write that took effect, oldest first. *)

Module Db.

Inductive write : Type :=
| Inserted (table : string) (row : dict)
| Updated (table : string) (row_id : pyval) (changes : dict).

Record state : Type := {
  tables : list (string * list dict);
  next_id : Z;
  calls : nat;
  ticks : nat;
  journal : list write
}.

Record env : Type := {
  fault : nat -> option exn;
  clock : nat -> string
}.

(** A computation that reads the environment, threads the store and may
    raise. *)
Definition M (A : Type) : Type := env -> state -> result A * state.

Definition ret {A} (a : A) : M A := fun _ st => (Ok a, st).

Definition raise {A} (e : exn) : M A := fun _ st => (Raise e, st).

Definition bind {A B} (m : M A) (k : A -> M B) : M B :=
  fun e st =>
    match m e st with
    | (Ok a, st') => k a e st'
    | (Raise x, st') => (Raise x, st')
    end.

(** A pure step that may raise. *)
Definition lift {A} (r : result A) : M A := fun _ st => (r, st).

(** [try: m  except Exception as x: h x] *)
Definition try_except {A} (m : M A) (h : exn -> M A) : M A :=
  fun e st =>
    match m e st with
    | (Ok a, st') => (Ok a, st')
    | (Raise x, st') => h x e st'
    end.

Fixpoint rows_of (ts : list (string * list dict)) (name : string)
  : list dict :=
  match ts with
  | [] => []
  | (n, rows) :: ts' => if String.eqb n name then rows else rows_of ts' name
  end.

Fixpoint set_rows (ts : list (string * list dict)) (name : string)
  (rows : list dict) : list (string * list dict) :=
  match ts with
  | [] => [(name, rows)]
  | (n, r) :: ts' =>
      if String.eqb n name then (n, rows) :: ts'
      else (n, r) :: set_rows ts' name rows
  end.

Definition table (st : state) (name : string) : list dict :=
  rows_of (tables st) name.

(** Equality of two column values; columns hold scalars. *)
Definition scalar_eqb (a b : pyval) : bool :=
  match a, b with
  | PNone, PNone => true
  | PBool x, PBool y => Bool.eqb x y
  | PInt x, PInt y => x =? y
  | PStr x, PStr y => String.eqb x y
  | _, _ => false
  end.

(** A row passes the [.eq(column, value)] filters. *)
Definition matches (filters : dict) (row : dict) : bool :=
  forallb (fun f =>
             match lookup row (fst f) with
             | Some v => scalar_eqb v (snd f)
             | None => false
             end) filters.

Definition apply_changes (changes : dict) (row : dict) : dict :=
  fold_left (fun r kv => dict_set r (fst kv) (snd kv)) changes row.

Definition row_id (row : dict) : pyval := dict_get row "id" PNone.

(** One call to the store: counted, and raising when the environment says
    so. *)
Definition call {A} (f : state -> A * state) : M A :=
  fun e st =>
    let st1 := {| tables := tables st; next_id := next_id st;
                  calls := S (calls st); ticks := ticks st;
                  journal := journal st |} in
    match fault e (calls st) with
    | Some x => (Raise x, st1)
    | None => let '(a, st2) := f st1 in (Ok a, st2)
    end.

(** Rows get their [id] from the store. *)
Fixpoint number_rows (n : Z) (rows : list dict) : list dict :=
  match rows with
  | [] => []
  | r :: rows' => (("id", PInt n) :: r) :: number_rows (n + 1) rows'
  end.

(** [table(name).insert(rows).execute().data] *)
Definition insert_many (name : string) (rows : list dict) : M (list dict) :=
  call (fun st =>
          let new := number_rows (next_id st) rows in
          (new,
           {| tables := set_rows (tables st) name (table st name ++ new);
              next_id := next_id st + Z.of_nat (List.length rows);
              calls := calls st; ticks := ticks st;
              journal := journal st ++ map (Inserted name) new |})).

(** [table(name).insert(row).execute().data[0]] *)
Definition insert (name : string) (row : dict) : M dict :=
  bind (insert_many name [row])
       (fun data => match data with
                    | r :: _ => ret r
                    | [] => raise IndexError
                    end).

(** [table(name).select(...).eq(k1, v1)...execute().data] *)
Definition select (name : string) (filters : dict) : M (list dict) :=
  call (fun st => (filter (matches filters) (table st name), st)).

(** The order of two column values under [ORDER BY]; NULL sorts as the
    greatest value. *)
Definition col_leb (a b : pyval) : bool :=
  match a, b with
  | _, PNone => true
  | PNone, _ => false
  | PStr x, PStr y => String.leb x y
  | PInt x, PInt y => x <=? y
  | _, _ => true
  end.

(** Stable insertion of [r] into rows sorted by [column], greatest
    first. *)
Fixpoint insert_desc (column : string) (r : dict) (sorted : list dict)
  : list dict :=
  match sorted with
  | [] => [r]
  | x :: rest =>
      if col_leb (dict_get r column PNone) (dict_get x column PNone)
      then x :: insert_desc column r rest
      else r :: sorted
  end.

Definition sort_desc (column : string) (rows : list dict) : list dict :=
  fold_left (fun acc r => insert_desc column r acc) rows [].

(** [table(name).select(...).eq(...).order(column, desc=True).limit(n)
    .execute().data] *)
Definition select_latest (name : string) (filters : dict) (column : string)
  (n : nat) : M (list dict) :=
  call (fun st =>
          (firstn n (sort_desc column
                       (filter (matches filters) (table st name))), st)).

(** [table(name).select(...).eq(...).limit(n).execute().data] *)
Definition select_limit (name : string) (filters : dict) (n : nat)
  : M (list dict) :=
  call (fun st => (firstn n (filter (matches filters) (table st name)), st)).

(** [table(name).update(changes).eq(k1, v1)...execute()] *)
Definition update (name : string) (changes : dict) (filters : dict)
  : M unit :=
  call (fun st =>
          let hit := filter (matches filters) (table st name) in
          (tt,
           {| tables :=
                set_rows (tables st) name
                  (map (fun r => if matches filters r
                                 then apply_changes changes r else r)
                       (table st name));
              next_id := next_id st; calls := calls st; ticks := ticks st;
              journal := journal st
                         ++ map (fun r => Updated name (row_id r) changes)
                                hit |})).

(** [datetime.utcnow().isoformat()] *)
Definition utcnow : M string :=
  fun e st =>
    (Ok (clock e (ticks st)),
     {| tables := tables st; next_id := next_id st; calls := calls st;
        ticks := S (ticks st); journal := journal st |}).

(** The values written to [column] of the row [id] of [name], oldest
    first. *)
Definition written (name column : string) (id : pyval) (w : write)
  : option pyval :=
  match w with
  | Inserted t row =>
      if String.eqb t name && scalar_eqb (row_id row) id
      then lookup row column else None
  | Updated t rid changes =>
      if String.eqb t name && scalar_eqb rid id
      then lookup changes column else None
  end.

Fixpoint history (name column : string) (id : pyval) (j : list write)
  : list pyval :=
  match j with
  | [] => []
  | w :: j' =>
      match written name column id w with
      | Some v => v :: history name column id j'
      | None => history name column id j'
      end
  end.

Definition empty : state :=
  {| tables := []; next_id := 1; calls := O; ticks := O; journal := [] |}.

End Db.

Notation "x <-- m ;;; k" := (Db.bind m (fun x => k))
  (at level 61, m at next level, right associativity).
Notation "m ;;; k" := (Db.bind m (fun _ => k))
  (at level 61, right associativity).

(** ** voice_service.py: the voice note *)

Module Voice.

(** What the text-to-speech request does. *)
Inductive tts_reply : Type :=
| TtsRaises (e : exn)
| TtsResponse (status_code : Z) (content : string).

(** What the synthesizer and the audio upload answer in this run. *)
Record world : Type := {
  tts : tts_reply;
  upload_audio : result string
}.

(** [len(s.split())]: the number of maximal runs without white space. *)
Fixpoint count_words (in_word : bool) (s : string) : nat :=
  match s with
  | EmptyString => O
  | String c s' =>
      if Str.is_space c then count_words false s'
      else ((if in_word then 0 else 1) + count_words true s')%nat
  end.

Definition word_count (s : string) : Z := Z.of_nat (count_words false s).

(** [max(5, int((word_count / 150) * 60))] *)
Definition estimate_seconds (words : Z) : result Z :=
  r <- Float64.int_truediv words 150 ;;
  n <- Float64.to_int (Float64.mul r (Float64.of_Z 60)) ;;
  Ok (Z.max 5 n).

(** The [try] block of [generate_hindi_voice]. *)
Definition voice_try (w : world) (hindi_text : pyval) : result (string * Z) :=
  match tts w with
  | TtsRaises e => Raise e
  | TtsResponse status_code audio_bytes =>
      if negb (status_code =? 200)
      then Raise (ExternalError "ElevenLabs API error")
      else
        match hindi_text with
        | PStr text =>
            estimated_seconds <- estimate_seconds (word_count text) ;;
            audio_url <- upload_audio w ;;
            Ok (audio_url, estimated_seconds)
        | _ => Raise AttributeError
        end
  end.

Definition generate_hindi_voice (w : world) (hindi_text : pyval)
  : string * Z :=
  match voice_try w hindi_text with
  | Ok r => r
  | Raise _ => (EmptyString, 0)
  end.

End Voice.

(** ** main.py: the scan pipeline *)

Module Main.

(** What the external collaborators of one scan answer in this run. *)
Record services : Type := {
  upload_image : result string;
  analyze_shelf_image : result dict;
  debate_world : Debate.world;
  voice_world : Voice.world
}.

(** The payload of a successful [scan_shelf]. *)
Record scan_response : Type := {
  success : bool;
  scan_id : pyval;
  image_url : string;
  vision_analysis : dict;
  debate_rounds : list Debate.round;
  final_recommendation : pyval;
  voice_note_url : string;
  shelf_health_score : Z;
  products_detected : Z
}.

Section WithLibrary.

(** [json.loads], [json.dumps], [str], and [list(set(x))] (which raises on
    an unhashable item and fixes the order of the others). *)
Variable json_loads : string -> result pyval.
Variable json_dumps : pyval -> string.
Variable py_str : pyval -> string.
Variable set_list : list pyval -> result (list pyval).

(** [for x in l: body(x)] *)
Fixpoint for_each {A} (body : A -> Db.M unit) (l : list A) : Db.M unit :=
  match l with
  | [] => Db.ret tt
  | x :: l' => body x ;;; for_each body l'
  end.

(** [[f(x) for x in l]] in the store monad. *)
Fixpoint map_db {A B} (f : A -> Db.M B) (l : list A) : Db.M (list B) :=
  match l with
  | [] => Db.ret []
  | x :: l' => y <-- f x ;;; ys <-- map_db f l' ;;; Db.ret (y :: ys)
  end.

(** One row of [products_to_insert]. *)
Definition product_row (scan : pyval) (store_id : string) (p : pyval)
  : Db.M dict :=
  name <-- Db.lift (get p "name" (PStr "Unknown")) ;;;
  brand <-- Db.lift (get p "brand" (PStr EmptyString)) ;;;
  category <-- Db.lift (get p "category" (PStr "General")) ;;;
  stock_level <-- Db.lift (get p "stock_level" (PStr "ok")) ;;;
  quantity <-- Db.lift (get p "quantity" (PInt 0)) ;;;
  facing <-- Db.lift (get p "facing_correct" (PBool true)) ;;;
  position <-- Db.lift (get p "shelf_position" (PStr EmptyString)) ;;;
  now <-- Db.utcnow ;;;
  Db.ret [("scan_id", scan); ("store_id", PStr store_id);
          ("product_name", name); ("brand", brand); ("category", category);
          ("stock_level", stock_level); ("quantity_estimate", quantity);
          ("facing_correct", facing); ("shelf_position", position);
          ("detected_at", PStr now)].

(** "Save detected products" *)
Definition save_products (scan : pyval) (store_id : string)
  (vision_data : dict) : Db.M unit :=
  if truthy (dict_get vision_data "products" PNone) then
    products <-- Db.lift (getitem_str (PDict vision_data) "products") ;;;
    items <-- Db.lift (iter products) ;;;
    rows <-- map_db (product_row scan store_id) items ;;;
    Db.insert_many "detected_products" rows ;;;
    Db.ret tt
  else Db.ret tt.

(** "Save debate rounds" *)
Definition save_round (scan : pyval) (r : Debate.round) : Db.M unit :=
  now <-- Db.utcnow ;;;
  Db.insert "debate_rounds"
    [("scan_id", scan); ("agent_name", PStr (Debate.round_agent r));
     ("agent_type", PStr (Debate.round_type r));
     ("recommendation", PStr (Debate.round_output r));
     ("reasoning", PStr (Debate.reasoning r));
     ("created_at", PStr now)] ;;;
  Db.ret tt.

(** Step 6 of [scan_shelf]: the voice note, inside its own [try]. *)
Definition voice_stage (sv : services) (final_recommendation : pyval)
  : Db.M (string * Z) :=
  Db.try_except
    (Db.ret (Voice.generate_hindi_voice (voice_world sv) final_recommendation))
    (fun _ => Db.ret (EmptyString, 0)).

(** [_update_neighborhood]: best effort, every exception swallowed. *)
Definition _update_neighborhood (store_id : string) (pincode : pyval)
  (vision_data : dict) : Db.M unit :=
  Db.try_except
    (if negb (truthy pincode) then Db.ret tt
     else
       products <-- Db.lift
         (iter (dict_get vision_data "products" (PList []))) ;;;
       critical <-- Db.lift
         (filterM (fun p => v <- get p "stock_level" PNone ;;
                            Ok (eq_str v "critical")) products) ;;;
       stockouts <-- Db.lift
         (mapM (fun p => getitem_str p "name") critical) ;;;
       with_category <-- Db.lift
         (filterM (fun p => v <- get p "category" PNone ;; Ok (truthy v))
                  products) ;;;
       category_values <-- Db.lift
         (mapM (fun p => get p "category" (PStr EmptyString))
               with_category) ;;;
       categories <-- Db.lift (set_list category_values) ;;;
       existing <-- Db.select_latest "neighborhood_demand"
                      [("pincode", pincode)] "week_start" 1 ;;;
       match existing with
       | row :: _ =>
           current_stockouts <-- Db.lift
             (match dict_get row "stockout_products" (PStr "[]") with
              | PStr s => json_loads s
              | _ => Raise TypeError
              end) ;;;
           both <-- Db.lift
             (concat_lists current_stockouts (PList stockouts)) ;;;
           all_stockouts <-- Db.lift (set_list both) ;;;
           scanned <-- Db.lift
             (add_one (dict_get row "total_stores_scanned" (PInt 0))) ;;;
           now <-- Db.utcnow ;;;
           id <-- Db.lift (getitem_str (PDict row) "id") ;;;
           Db.update "neighborhood_demand"
             [("stockout_products", PStr (json_dumps (PList all_stockouts)));
              ("top_categories", PStr (json_dumps (PList categories)));
              ("total_stores_scanned", scanned);
              ("updated_at", PStr now)]
             [("id", id)]
       | [] => Db.ret tt
       end)
    (fun _ => Db.ret tt).

(** Steps 1 to 3 of [scan_shelf]: verify the store, upload the image,
    create the scan row.  After them [scan_id] is bound. *)
Definition open_scan (sv : services) (store_id : string)
  : Db.M (dict * string * pyval) :=
  store_result <-- Db.select "stores" [("id", PStr store_id)] ;;;
  match store_result with
  | [] => Db.raise (HTTPException 404 "Store not found")
  | store :: _ =>
      url <-- Db.lift (upload_image sv) ;;;
      now <-- Db.utcnow ;;;
      scan <-- Db.insert "scans"
                 [("store_id", PStr store_id); ("image_url", PStr url);
                  ("status", PStr "processing"); ("created_at", PStr now)] ;;;
      id <-- Db.lift (getitem_str (PDict scan) "id") ;;;
      Db.ret (store, url, id)
  end.

(** Steps 4 to 9 of [scan_shelf], from the vision analysis to the
    response. *)
Definition run_scan (sv : services) (store_id : string) (store : dict)
  (url : string) (scan : pyval) : Db.M scan_response :=
  vision_data <-- Db.lift (analyze_shelf_image sv) ;;;
  save_products scan store_id vision_data ;;;
  debate_result <-- Db.lift
    (Debate.run_ai_debate json_loads json_dumps py_str (debate_world sv)
       vision_data store (dict_get store "pincode" (PStr EmptyString))) ;;;
  for_each (save_round scan) (Debate.rounds debate_result) ;;;
  let final := Debate.final_recommendation debate_result in
  voice <-- voice_stage sv final ;;;
  let '(voice_url, voice_duration) := voice in
  now <-- Db.utcnow ;;;
  Db.insert "voice_notes"
    [("scan_id", scan); ("store_id", PStr store_id);
     ("audio_url", PStr voice_url); ("duration_seconds", PInt voice_duration);
     ("language", PStr "hindi"); ("text_content", final);
     ("created_at", PStr now)] ;;;
  health_score <-- Db.lift (Health._calculate_health_score vision_data) ;;;
  detected <-- Db.lift (len (dict_get vision_data "products" (PList []))) ;;;
  now <-- Db.utcnow ;;;
  Db.update "scans"
    [("status", PStr "completed"); ("shelf_health_score", PInt health_score);
     ("products_detected", PInt detected);
     ("critical_items", dict_get vision_data "critical_count" (PInt 0));
     ("vision_summary",
       PStr (json_dumps (dict_get vision_data "summary" (PDict []))));
     ("final_recommendation", final); ("voice_note_url", PStr voice_url);
     ("completed_at", PStr now)]
    [("id", scan)] ;;;
  total_scans <-- Db.lift (add_one (dict_get store "total_scans" (PInt 0))) ;;;
  now <-- Db.utcnow ;;;
  Db.update "stores"
    [("total_scans", total_scans); ("shelf_health_score", PInt health_score);
     ("last_scan_at", PStr now)]
    [("id", PStr store_id)] ;;;
  _update_neighborhood store_id (dict_get store "pincode" PNone)
    vision_data ;;;
  Db.ret {| success := true; scan_id := scan; image_url := url;
            vision_analysis := vision_data;
            debate_rounds := Debate.rounds debate_result;
            final_recommendation := final; voice_note_url := voice_url;
            shelf_health_score := health_score;
            products_detected := detected |}.

(** The handler of [scan_shelf] for an exception raised once [scan_id] is
    bound: mark the scan failed, swallowing a failure of that write, and
    answer 500. *)
Definition mark_failed (scan : pyval) (x : exn) : Db.M scan_response :=
  Db.try_except
    (Db.update "scans"
       [("status", PStr "failed"); ("error_message", PStr (message x))]
       [("id", scan)])
    (fun _ => Db.ret tt) ;;;
  Db.raise (HTTPException 500 ("Scan pipeline failed: " +++ message x)).

(** [except HTTPException: raise], then [except Exception as e: ...] *)
Definition on_error (scan : option pyval) (x : exn) : Db.M scan_response :=
  match x with
  | HTTPException _ _ => Db.raise x
  | _ =>
      match scan with
      | Some id => mark_failed id x
      | None =>
          Db.raise
            (HTTPException 500 ("Scan pipeline failed: " +++ message x))
      end
  end.

(** [scan_shelf]: an exception of steps 1 to 3 finds [scan_id] unbound,
    a later one finds it bound. *)
Definition scan_shelf (sv : services) (store_id : string)
  : Db.M scan_response :=
  fun e st =>
    match open_scan sv store_id e st with
    | (Raise x, st1) => on_error None x e st1
    | (Ok (store, url, scan), st1) =>
        Db.try_except (run_scan sv store_id store url scan)
                      (on_error (Some scan)) e st1
    end.

End WithLibrary.

End Main.

(** ** twilio_service.py and the webhook of main.py *)

Module Webhook.


(** A [Response]. *)
Record response : Type := {
  content : string;
  media_type : string
}.









End Webhook.

(** ** models.py and the registration endpoint of main.py *)

Module Models.

Record StoreRegister : Type := {
  owner_name : string;
  whatsapp_number : string;
  store_name : string;
  city : string;
  pincode : string;
  address : option string;
  store_type : string;
  monthly_sales_volume : option string;
  num_shelves : option Z;
  primary_language : string;
  product_categories : option string;
  gst_number : option string;
  referral_code : option string
}.

(** Where [$] matches: at the end, or before a newline that ends the
    string. *)
Definition at_dollar (s : string) : bool :=
  Str.is_empty s || String.eqb s Str.nl.

(** [re.match(r"^\d{n}$", s)] *)
Fixpoint match_digits_dollar (n : nat) (s : string) : bool :=
  match n with
  | O => at_dollar s
  | S k =>
      match s with
      | String c s' => Str.is_digit c && match_digits_dollar k s'
      | EmptyString => false
      end
  end.

Definition validate_pincode (v : string) : result string :=
  if match_digits_dollar 6 v then Ok v else Raise ValueError.

Fixpoint filter_chars (keep : ascii -> bool) (s : string) : string :=
  match s with
  | String c s' =>
      if keep c then String c (filter_chars keep s') else filter_chars keep s'
  | EmptyString => EmptyString
  end.

(** The class of white space, minus sign and parentheses. *)
Definition is_separator (c : ascii) : bool :=
  Str.is_space c || Ascii.eqb c "-"%char || Ascii.eqb c "("%char
  || Ascii.eqb c ")"%char.

(** [[6-9]\d{9}$] *)
Definition match_mobile (s : string) : bool :=
  match s with
  | String c s' =>
      let n := nat_of_ascii c in
      ((54 <=? n) && (n <=? 57))%nat && match_digits_dollar 9 s'
  | EmptyString => false
  end.

(** [re.match(r"^(\+91|91)?[6-9]\d{9}$", s)], the optional prefix tried
    first, then left out. *)
Definition match_phone (s : string) : bool :=
  match Str.strip_prefix "+91" s with
  | Some r => match_mobile r
  | None => false
  end
  || match Str.strip_prefix "91" s with
     | Some r => match_mobile r
     | None => false
     end
  || match_mobile s.

Definition validate_phone (v : string) : result string :=
  let clean := filter_chars (fun c => negb (is_separator c)) v in
  if negb (match_phone clean) then Raise ValueError
  else
    let digits := filter_chars Str.is_digit clean in
    if (String.length digits =? 10)%nat then Ok ("+91" +++ digits)
    else if (String.length digits =? 12)%nat && Str.starts_with "91" digits
         then Ok ("+" +++ digits)
         else Ok v.

(** Building a [StoreRegister] from the request body: the validators run
    and any failure refuses the body. *)
Definition validate (body : StoreRegister) : result StoreRegister :=
  phone <- validate_phone (whatsapp_number body) ;;
  pin <- validate_pincode (pincode body) ;;
  Ok {| owner_name := owner_name body; whatsapp_number := phone;
        store_name := store_name body; city := city body; pincode := pin;
        address := address body; store_type := store_type body;
        monthly_sales_volume := monthly_sales_volume body;
        num_shelves := num_shelves body;
        primary_language := primary_language body;
        product_categories := product_categories body;
        gst_number := gst_number body;
        referral_code := referral_code body |}.

Definition opt_str (o : option string) : pyval :=
  match o with Some s => PStr s | None => PNone end.

(** [data.dict()] *)
Definition to_dict (data : StoreRegister) : dict :=
  [("owner_name", PStr (owner_name data));
   ("whatsapp_number", PStr (whatsapp_number data));
   ("store_name", PStr (store_name data));
   ("city", PStr (city data));
   ("pincode", PStr (pincode data));
   ("address", opt_str (address data));
   ("store_type", PStr (store_type data));
   ("monthly_sales_volume", opt_str (monthly_sales_volume data));
   ("num_shelves",
     match num_shelves data with Some n => PInt n | None => PNone end);
   ("primary_language", PStr (primary_language data));
   ("product_categories", opt_str (product_categories data));
   ("gst_number", opt_str (gst_number data));
   ("referral_code", opt_str (referral_code data))].

Record register_response : Type := {
  success : bool;
  store_id : pyval;
  message : string;
  store : dict
}.

(** [_init_neighborhood]: best effort, every exception swallowed. *)
Definition _init_neighborhood (store_id : pyval) (pincode city : string)
  : Db.M unit :=
  Db.try_except
    (existing <-- Db.select_limit "neighborhood_demand"
                    [("pincode", PStr pincode)] 1 ;;;
     match existing with
     | [] =>
         now <-- Db.utcnow ;;;
         Db.insert "neighborhood_demand"
           [("pincode", PStr pincode); ("city", PStr city);
            ("week_start", PStr (Str.take 10 now));
            ("total_stores_scanned", PInt 1);
            ("top_categories", PStr "[]");
            ("stockout_products", PStr "[]");
            ("demand_signals", PStr "{}")] ;;;
         Db.ret tt
     | _ :: _ => Db.ret tt
     end)
    (fun _ => Db.ret tt).

(** The body of [register_store], inside its [try]. *)
Definition register_try (data : StoreRegister) : Db.M register_response :=
  existing <-- Db.select "stores"
                 [("whatsapp_number", PStr (whatsapp_number data))] ;;;
  match existing with
  | _ :: _ =>
      Db.raise (HTTPException 409 "WhatsApp number already registered")
  | [] =>
      now <-- Db.utcnow ;;;
      new_store <-- Db.insert "stores"
        (to_dict data
         ++ [("registered_at", PStr now); ("status", PStr "active");
             ("total_scans", PInt 0); ("shelf_health_score", PInt 0)]) ;;;
      id <-- Db.lift (getitem_str (PDict new_store) "id") ;;;
      _init_neighborhood id (pincode data) (city data) ;;;
      Db.ret {| success := true; store_id := id;
                message := "Store registered successfully! WhatsApp activation incoming.";
                store := new_store |}
  end.

Definition register_store (data : StoreRegister) : Db.M register_response :=
  Db.try_except (register_try data)
    (fun x =>
       match x with
       | HTTPException _ _ => Db.raise x
       | _ => Db.raise (HTTPException 500 (Py.message x))
       end).

(** [POST /api/stores/register]: the body is validated, and the handler
    runs only on a valid one; an invalid one is answered 422. *)
Definition post_register (body : StoreRegister) : Db.M register_response :=
  match validate body with
  | Ok data => register_store data
  | Raise _ => Db.raise (HTTPException 422 "validation error")
  end.

End Models.

(** ** Equality and hashing of the values a [set] or a [Counter] holds *)

Module Hashable.

(** The integer a float is equal to, if any. *)
Definition float_as_Z (f : spec_float) : option Z :=
  match f with
  | S754_zero _ => Some 0
  | S754_finite s m e =>
      match
        match e with
        | Zneg p =>
            if Zpos m mod 2 ^ Zpos p =? 0 then Some (Zpos m / 2 ^ Zpos p)
            else None
        | _ => Some (Zpos m * 2 ^ e)
        end
      with
      | Some z => Some (if s then - z else z)
      | None => None
      end
  | _ => None
  end.

(** A bool or an int, as the integer it is equal to. *)
Definition as_int (x : pyval) : option Z :=
  match x with
  | PBool b => Some (if b then 1 else 0)
  | PInt z => Some z
  | _ => None
  end.

Definition same_int (a b : option Z) : bool :=
  match a, b with
  | Some x, Some y => x =? y
  | _, _ => false
  end.

(** [x == y] on hashable values: numbers compare by value across [bool],
    [int] and [float]; a NaN equals nothing (two of them are never the
    same object here). *)
Definition eqb (x y : pyval) : bool :=
  match x, y with
  | PNone, PNone => true
  | PStr a, PStr b => String.eqb a b
  | PFloat f, PFloat g => SFeqb f g
  | PFloat f, _ => same_int (float_as_Z f) (as_int y)
  | _, PFloat g => same_int (as_int x) (float_as_Z g)
  | _, _ => same_int (as_int x) (as_int y)
  end.

(** [hash(x)]: a list or a dict is unhashable. *)
Definition check (x : pyval) : result unit :=
  match x with
  | PList _ => Raise TypeError
  | PDict _ => Raise TypeError
  | _ => Ok tt
  end.

(** [x in seen] for a set [seen], given by its elements. *)
Definition mem (x : pyval) (seen : list pyval) : result bool :=
  _ <- check x ;; Ok (existsb (eqb x) seen).

(** [Counter]: the keys in the order they first occur, with their
    counts. *)
Fixpoint bump (k : pyval) (c : list (pyval * Z)) : list (pyval * Z) :=
  match c with
  | [] => [(k, 1)]
  | (k', n) :: c' =>
      if eqb k' k then (k', n + 1) :: c' else (k', n) :: bump k c'
  end.

End Hashable.

(** ** aggregation_service.py: the neighborhood rollup *)

Module Aggregation.

(** A row of the select on [detected_products]: the columns asked for,
    with the values the store returns for them. *)
Record product : Type := {
  product_name : pyval;
  brand : pyval;
  category : pyval;
  stock_level : pyval;
  store_id : pyval
}.

(** [Counter(items)]: the keys in the order they first occur, with their
    counts.  Each item is hashed as it is counted, so a list or a dict
    among them raises; keys compare as Python's [==] does. *)
Fixpoint count_items (c : list (pyval * Z)) (items : list pyval)
  : result (list (pyval * Z)) :=
  match items with
  | [] => Ok c
  | k :: rest =>
      _ <- Hashable.check k ;;
      count_items (Hashable.bump k c) rest
  end.

Definition Counter (items : list pyval) : result (list (pyval * Z)) :=
  count_items [] items.

(** [len(set(items))]: the number of distinct items, each of them
    hashed. *)
Definition distinct (items : list pyval) : result Z :=
  keys <- Counter items ;;
  Ok (Z.of_nat (List.length keys)).

(** Stable insertion by count, greatest first. *)
Fixpoint insert_by_count (x : pyval * Z) (sorted : list (pyval * Z))
  : list (pyval * Z) :=
  match sorted with
  | [] => [x]
  | y :: rest =>
      if snd x <=? snd y then y :: insert_by_count x rest else x :: sorted
  end.

(** [c.most_common(n)] *)
Definition most_common (n : nat) (c : list (pyval * Z)) : list (pyval * Z) :=
  firstn n (fold_left (fun acc x => insert_by_count x acc) c []).

Section WithLibrary.

(** [json.dumps] and [round(x, ndigits)]. *)
Variable json_dumps : pyval -> string.
Variable py_round : spec_float -> Z -> spec_float.

(** [round(part / total * 100, 1)] *)
Definition rate (part total : Z) : result pyval :=
  r <- Float64.int_truediv part total ;;
  Ok (PFloat (py_round (Float64.mul r (Float64.of_Z 100)) 1)).

Definition count {A : Type} (l : list A) : Z := Z.of_nat (List.length l).

(** The aggregates of [_aggregate_pincode], as the three columns it
    writes. *)
Definition aggregates (all_products : list product)
  : result (pyval * pyval * pyval) :=
  let stockout_items :=
    map product_name
        (filter (fun p => eq_str (stock_level p) "critical") all_products) in
  let low_items :=
    map product_name
        (filter (fun p => eq_str (stock_level p) "low") all_products) in
  let categories :=
    map category (filter (fun p => truthy (category p)) all_products) in
  stockout_counter <- Counter stockout_items ;;
  let stockout_counts := most_common 10 stockout_counter in
  category_counter <- Counter categories ;;
  let category_counts := most_common 8 category_counter in
  let top_categories :=
    PList (map (fun kv => PDict [("category", fst kv); ("count", PInt (snd kv))])
               category_counts) in
  let stockout_products :=
    PList (map (fun kv => PDict [("product", fst kv);
                                 ("times_critical", PInt (snd kv))])
               stockout_counts) in
  unique_products <- distinct (map product_name all_products) ;;
  stockout_rate <- rate (count stockout_items) (count all_products) ;;
  low_stock_rate <- rate (count low_items) (count all_products) ;;
  let demand_signals :=
    PDict [("total_products_scanned", PInt (count all_products));
           ("unique_products", PInt unique_products);
           ("stockout_rate", stockout_rate);
           ("low_stock_rate", low_stock_rate);
           ("top_stockouts", PList (map fst (firstn 5 stockout_counts)))] in
  Ok (top_categories, stockout_products, demand_signals).

(** The [record] that [_aggregate_pincode] writes. *)
Definition record (pincode city week_start : string) (stores : Z)
  (agg : pyval * pyval * pyval) (now : string) : dict :=
  let '(top_categories, stockout_products, demand_signals) := agg in
  [("pincode", PStr pincode); ("city", PStr city);
   ("week_start", PStr week_start);
   ("total_stores_scanned", PInt stores);
   ("top_categories", PStr (json_dumps top_categories));
   ("stockout_products", PStr (json_dumps stockout_products));
   ("demand_signals", PStr (json_dumps demand_signals));
   ("updated_at", PStr now)].

(** The body of [_aggregate_pincode], inside its [try].  [window_rows] is
    what the select on [detected_products] returns for these stores and the
    last seven days. *)
Definition aggregate_try (window_rows : list product) (pincode city : string)
  (store_ids : list string) (week_start : string) : Db.M unit :=
  Db.utcnow ;;;
  all_products <-- Db.call (fun st => (window_rows, st)) ;;;
  match all_products with
  | [] => Db.ret tt
  | _ :: _ =>
      agg <-- Db.lift (aggregates all_products) ;;;
      existing <-- Db.select "neighborhood_demand"
                     [("pincode", PStr pincode);
                      ("week_start", PStr week_start)] ;;;
      now <-- Db.utcnow ;;;
      let record :=
        record pincode city week_start (count store_ids) agg now in
      match existing with
      | row :: _ =>
          id <-- Db.lift (getitem_str (PDict row) "id") ;;;
          Db.update "neighborhood_demand" record [("id", id)]
      | [] =>
          created <-- Db.utcnow ;;;
          Db.insert "neighborhood_demand"
            (record ++ [("created_at", PStr created)]) ;;;
          Db.ret tt
      end
  end.

Definition _aggregate_pincode (window_rows : list product)
  (pincode city : string) (store_ids : list string) (week_start : string)
  : Db.M unit :=
  Db.try_except
    (aggregate_try window_rows pincode city store_ids week_start)
    (fun _ => Db.ret tt).

End WithLibrary.

(** The rows of [neighborhood_demand] for one (pincode, week) key. *)
Definition rows_for (st : Db.state) (pincode week_start : string)
  : list dict :=
  filter (Db.matches [("pincode", PStr pincode);
                      ("week_start", PStr week_start)])
         (Db.table st "neighborhood_demand").

End Aggregation.

(** ** main.py: the read endpoints and the alerts of the dashboard *)

Module Endpoints.

(** [except HTTPException: raise], then
    [except Exception as e: raise HTTPException(500, str(e))] *)
Definition http_errors {A} (m : Db.M A) : Db.M A :=
  Db.try_except m
    (fun x =>
       match x with
       | HTTPException _ _ => Db.raise x
       | _ => Db.raise (HTTPException 500 (message x))
       end).

Definition login_store (whatsapp : string) : Db.M dict :=
  http_errors
    (let clean := Str.remove_all "-" (Str.remove_all " " whatsapp) in
     result <-- Db.select "stores" [("whatsapp_number", PStr clean)] ;;;
     match result with
     | [] => Db.raise (HTTPException 404 "Store not found")
     | store :: _ =>
         Db.ret [("success", PBool true); ("store", PDict store)]
     end).

Definition get_store (store_id : string) : Db.M dict :=
  http_errors
    (result <-- Db.select "stores" [("id", PStr store_id)] ;;;
     match result with
     | [] => Db.raise (HTTPException 404 "Store not found")
     | store :: _ =>
         Db.ret [("success", PBool true); ("store", PDict store)]
     end).

Definition get_voice_note (scan_id : string) : Db.M dict :=
  http_errors
    (result <-- Db.select "voice_notes" [("scan_id", PStr scan_id)] ;;;
     match result with
     | [] => Db.raise (HTTPException 404 "Voice note not found")
     | note :: _ => Db.ret [("voice_note", PDict note)]
     end).

Section WithLibrary.

(** [str], for the names and quantities the messages show. *)
Variable py_str : pyval -> string.

Definition alert (kind message : string) (name : pyval) : pyval :=
  PDict [("type", PStr kind); ("message", PStr message); ("product", name)].

(** The alert one product raises, if any: the [if]/[elif] chain of the
    loop. *)
Definition alert_of (p name : pyval) : result (list pyval) :=
  level <- get p "stock_level" (PStr "ok") ;;
  if eq_str level "critical" then
    Ok [alert "critical" (py_str name +++ " — OUT OF STOCK") name]
  else if eq_str level "low" then
    quantity <- get p "quantity_estimate" (PStr "?") ;;
    Ok [alert "warning"
          (py_str name +++ " — Low stock (" +++ py_str quantity +++ " units)")
          name]
  else
    facing <- get p "facing_correct" (PBool true) ;;
    if negb (truthy facing)
    then Ok [alert "info" (py_str name +++ " — Incorrect shelf facing") name]
    else Ok [].

(** The loop of [_build_alerts], from the names [seen] so far. *)
Fixpoint alerts_from (seen : list pyval) (products : list pyval)
  : result (list pyval) :=
  match products with
  | [] => Ok []
  | p :: rest =>
      name <- get p "product_name" (PStr "Unknown") ;;
      known <- Hashable.mem name seen ;;
      if known then alerts_from seen rest
      else
        here <- alert_of p name ;;
        later <- alerts_from (name :: seen) rest ;;
        Ok (here ++ later)
  end.

Definition _build_alerts (products : list pyval) : result (list pyval) :=
  alerts <- alerts_from [] products ;;
  Ok (firstn 15 alerts).

End WithLibrary.

End Endpoints.

(** ** vision_service.py: the shelf analysis *)

Module Vision.

Definition _fallback_vision_data (image_url : string) : dict :=
  [("products", PList []);
   ("shelf_health_score", PInt 0);
   ("critical_count", PInt 0);
   ("low_count", PInt 0);
   ("ok_count", PInt 0);
   ("overstocked_count", PInt 0);
   ("empty_sections", PInt 0);
   ("facing_issues", PInt 0);
   ("organization_quality", PStr "unknown");
   ("top_restock_urgent", PList []);
   ("summary",
     PDict [("total_products", PInt 0); ("total_skus", PInt 0);
            ("shelf_coverage", PInt 0); ("categories_detected", PList [])]);
   ("raw_observations", PStr "Image analysis failed - please retry");
   ("image_url", PStr image_url)].

(** [raise Exception(f"Gemini Vision analysis failed: {str(e)}")] *)
Definition failed (e : exn) : exn :=
  ExternalError ("Gemini Vision analysis failed: " +++ message e).

Section WithLibrary.

Variable json_loads : string -> result pyval.

(** The handler of [json.JSONDecodeError] once [raw_text] is bound: what
    the braces hold if that parses, else the fallback structure. *)
Definition rescue (raw_text image_url : string) : pyval :=
  match Str.re_search_braces raw_text with
  | Some m =>
      match json_loads m with
      | Ok v => v
      | Raise _ => PDict (_fallback_vision_data image_url)
      end
  | None => PDict (_fallback_vision_data image_url)
  end.

(** [analyze_shelf_image]; [reply] is the text of the model's response, or
    the exception raised on the way to it.  A [JSONDecodeError] raised
    before [raw_text] is bound reaches the same handler, whose inner [try]
    then fails on the unbound name and falls through to the fallback. *)
Definition analyze_shelf_image (reply : result string) (image_url : string)
  : result pyval :=
  match reply with
  | Raise JSONDecodeError => Ok (PDict (_fallback_vision_data image_url))
  | Raise e => Raise (failed e)
  | Ok text =>
      let raw_text := Debate.clean text in
      match json_loads raw_text with
      | Ok (PDict vision_data) =>
          Ok (PDict (dict_set vision_data "image_url" (PStr image_url)))
      | Ok _ => Raise (failed TypeError)
      | Raise JSONDecodeError => Ok (rescue raw_text image_url)
      | Raise e => Raise (failed e)
      end
  end.

End WithLibrary.

End Vision.

(** ** neighborhood_service.py: the demand of a neighborhood *)

Module Neighborhood.

(** The [Counter] of [_aggregate_products], fed by its generator: the
    truthy [product_name]s, each hashed as it is counted. *)
Fixpoint count_names (c : list (pyval * Z)) (products : list pyval)
  : result (list (pyval * Z)) :=
  match products with
  | [] => Ok c
  | p :: rest =>
      name <- get p "product_name" PNone ;;
      if truthy name then
        _ <- Hashable.check name ;;
        count_names (Hashable.bump name c) rest
      else count_names c rest
  end.

Definition _aggregate_products (products : list pyval)
  : result (list pyval) :=
  counts <- count_names [] products ;;
  Ok (map (fun kv => PDict [("product", fst kv); ("scan_count", PInt (snd kv))])
          (Aggregation.most_common 10 counts)).

(** The columns a select names, of one row. *)
Definition columns (names : list string) (row : dict) : dict :=
  filter (fun kv => existsb (String.eqb (fst kv)) names) row.

Definition get_neighborhood_data (pincode : string) : Db.M dict :=
  Db.try_except
    (demand <-- Db.select_latest "neighborhood_demand"
                  [("pincode", PStr pincode)] "week_start" 4 ;;;
     stores <-- Db.select "stores" [("pincode", PStr pincode)] ;;;
     products <-- Db.select "detected_products" [] ;;;
     popular <-- Db.lift
       (_aggregate_products
          (map (fun row =>
                  PDict (columns ["product_name"; "category"; "stock_level"]
                           row))
               products)) ;;;
     Db.ret [("pincode", PStr pincode);
             ("demand_trends", PList (map PDict demand));
             ("stores",
               PList (map (fun row =>
                             PDict (columns ["store_name"; "store_type";
                                             "shelf_health_score";
                                             "last_scan_at"; "total_scans"]
                                      row))
                          stores));
             ("popular_products", PList popular)])
    (fun e => Db.ret [("pincode", PStr pincode); ("error", PStr (message e))]).

End Neighborhood.

(** ** main.py and twilio_service.py: the pipeline behind the webhook *)

Module Pipeline.

(** The form Twilio's message API is posted. *)
Record message : Type := {
  From : string;
  To : string;
  Body : string;
  MediaUrl : option string
}.

(** The Twilio settings of config.py. *)
Record Twilio : Type := {
  TWILIO_ACCOUNT_SID : string;
  TWILIO_AUTH_TOKEN : string;
  TWILIO_WHATSAPP_NUMBER : string
}.

(** What the collaborators of one run answer: the download of the media
    from Twilio, and those of a scan. *)
Record world : Type := {
  twilio : Twilio;
  download_media : result string;
  services : Main.services
}.

(** The environment of a run: that of the store, and which of the
    requests to the message API raise, by their position in the run. *)
Record env : Type := {
  store_env : Db.env;
  send_fault : nat -> option exn
}.

(** The store, and [sent]: the requests made to the message API, oldest
    first. *)
Record state : Type := {
  store : Db.state;
  sent : list message
}.

Definition M (A : Type) : Type := env -> state -> result A * state.

Definition ret {A} (a : A) : M A := fun _ st => (Ok a, st).

Definition bind {A B} (m : M A) (k : A -> M B) : M B :=
  fun e st =>
    match m e st with
    | (Ok a, st') => k a e st'
    | (Raise x, st') => (Raise x, st')
    end.

(** A pure step that may raise. *)
Definition lift {A} (r : result A) : M A := fun _ st => (r, st).

(** A step on the store. *)
Definition db {A} (m : Db.M A) : M A :=
  fun e st =>
    let '(r, s) := m (store_env e) (store st) in
    (r, {| store := s; sent := sent st |}).

(** [try: m  except Exception as x: h x] *)
Definition try_except {A} (m : M A) (h : exn -> M A) : M A :=
  fun e st =>
    match m e st with
    | (Ok a, st') => (Ok a, st')
    | (Raise x, st') => h x e st'
    end.

(** One request to the message API: made, then raising when the
    environment says so. *)
Definition post (msg : message) : M unit :=
  fun e st =>
    (match send_fault e (List.length (sent st)) with
     | Some x => Raise x
     | None => Ok tt
     end,
     {| store := store st; sent := sent st ++ [msg] |}).

Definition send_whatsapp_text (to body from_number : string) : M unit :=
  post {| From := "whatsapp:" +++ from_number; To := "whatsapp:" +++ to;
          Body := body; MediaUrl := None |}.

Definition send_whatsapp_media (to body media_url from_number : string)
  : M unit :=
  post {| From := "whatsapp:" +++ from_number; To := "whatsapp:" +++ to;
          Body := body; MediaUrl := Some media_url |}.

(** [s.lstrip("+")] *)
Fixpoint lstrip_plus (s : string) : string :=
  match s with
  | String "+"%char s' => lstrip_plus s'
  | _ => s
  end.

(** A row passes [.or_("whatsapp_number.eq.A,whatsapp_number.eq.B")]:
    its number is one of the two. *)
Definition or_ (a b : string) (row : dict) : bool :=
  Db.matches [("whatsapp_number", PStr a)] row
  || Db.matches [("whatsapp_number", PStr b)] row.

(** [table("stores").select("*").or_(...).execute().data] *)
Definition select_by_number (a b : string) : Db.M (list dict) :=
  Db.call (fun st => (filter (or_ a b) (Db.table st "stores"), st)).

Definition registration_prompt : string :=
  "Aapka number register nahi hai ShelfScan AI mein." +++ Str.nl +++ Str.nl
  +++ "Register karein yahan:" +++ Str.nl +++ "🔗 shelfscan.ai"
  +++ Str.nl +++ Str.nl
  +++ "Register ke baad apni shelf ki photo bhejiye!".

Definition apology : string :=
  "Maafi karein, kuch technical problem aayi. Thodi der baad dobara try karein. 🙏".

End Pipeline.

Notation "x <== m ;;; k" := (Pipeline.bind m (fun x => k))
  (at level 61, m at next level, right associativity).
Notation "m >>> k" := (Pipeline.bind m (fun _ => k))
  (at level 61, right associativity).

Module WhatsApp.

Import Pipeline.

Section WithLibrary.

Variable json_loads : string -> result pyval.
Variable json_dumps : pyval -> string.
Variable py_str : pyval -> string.
Variable set_list : list pyval -> result (list pyval).

(** One row of [products_to_insert]. *)
Definition product_row (scan store_id : pyval) (p : pyval) : Db.M dict :=
  product_name <-- Db.lift (get p "product_name" (PStr "Unknown")) ;;;
  name <-- Db.lift (get p "name" product_name) ;;;
  brand <-- Db.lift (get p "brand" (PStr EmptyString)) ;;;
  category <-- Db.lift (get p "category" (PStr "General")) ;;;
  stock_level <-- Db.lift (get p "stock_level" (PStr "ok")) ;;;
  quantity <-- Db.lift (get p "quantity" (PInt 0)) ;;;
  facing <-- Db.lift (get p "facing_correct" (PBool true)) ;;;
  position <-- Db.lift (get p "shelf_position" (PStr EmptyString)) ;;;
  now <-- Db.utcnow ;;;
  Db.ret [("scan_id", scan); ("store_id", store_id);
          ("product_name", name); ("brand", brand); ("category", category);
          ("stock_level", stock_level); ("quantity_estimate", quantity);
          ("facing_correct", facing); ("shelf_position", position);
          ("detected_at", PStr now)].

(** "Save detected products" *)
Definition save_products (scan store_id : pyval) (vision_data : dict)
  : Db.M unit :=
  if truthy (dict_get vision_data "products" PNone) then
    products <-- Db.lift (getitem_str (PDict vision_data) "products") ;;;
    items <-- Db.lift (iter products) ;;;
    rows <-- Main.map_db (product_row scan store_id) items ;;;
    Db.insert_many "detected_products" rows ;;;
    Db.ret tt
  else Db.ret tt.

(** The caption of the report. *)
Definition caption (health_score : Z) (critical_count low_count : pyval)
  : string :=
  "📊 ShelfScan AI Report" +++ Str.nl
  +++ "Health Score: " +++ py_str (PInt health_score) +++ "% | Critical: "
  +++ py_str critical_count +++ " | Low: " +++ py_str low_count
  +++ Str.nl +++ Str.nl
  +++ "🎙️ Hindi voice note neeche hai:".

(** [x[:1000] if len(x) > 1000 else x] *)
Definition short_rec (final_recommendation : pyval) : result pyval :=
  n <- len final_recommendation ;;
  if 1000 <? n then slice_to final_recommendation 1000
  else Ok final_recommendation.

(** The body of [_run_whatsapp_pipeline], inside its [try]. *)
Definition pipeline_try (w : world) (from_number media_url media_type : string)
  : M unit :=
  let from_wa := TWILIO_WHATSAPP_NUMBER (twilio w) in
  let sv := services w in
  let clean_number := lstrip_plus from_number in
  store_res <== db (select_by_number from_number ("+" +++ clean_number)) ;;;
  match store_res with
  | [] => send_whatsapp_text from_number registration_prompt from_wa
  | store :: _ =>
      store_id <== lift (getitem_str (PDict store) "id") ;;;
      image_bytes <== lift (download_media w) ;;;
      image_url <== lift (Main.upload_image sv) ;;;
      now <== db Db.utcnow ;;;
      scan_row <== db (Db.insert "scans"
                         [("store_id", store_id);
                          ("image_url", PStr image_url);
                          ("status", PStr "processing");
                          ("created_at", PStr now)]) ;;;
      scan_id <== lift (getitem_str (PDict scan_row) "id") ;;;
      now <== db Db.utcnow ;;;
      db (Db.insert "whatsapp_messages"
            [("store_id", store_id);
             ("whatsapp_number", PStr from_number);
             ("direction", PStr "inbound");
             ("message_type", PStr "image");
             ("media_url", PStr image_url);
             ("status", PStr "processing");
             ("created_at", PStr now)]) >>>
      vision_data <== lift (Main.analyze_shelf_image sv) ;;;
      db (save_products scan_id store_id vision_data) >>>
      debate_result <== lift
        (Debate.run_ai_debate json_loads json_dumps py_str
           (Main.debate_world sv) vision_data store
           (dict_get store "pincode" (PStr EmptyString))) ;;;
      db (Main.for_each (Main.save_round scan_id)
            (Debate.rounds debate_result)) >>>
      let final_recommendation := Debate.final_recommendation debate_result in
      let '(voice_url, voice_duration) :=
        Voice.generate_hindi_voice (Main.voice_world sv)
          final_recommendation in
      now <== db Db.utcnow ;;;
      db (Db.insert "voice_notes"
            [("scan_id", scan_id); ("store_id", store_id);
             ("audio_url", PStr voice_url);
             ("duration_seconds", PInt voice_duration);
             ("language", PStr "hindi");
             ("text_content", final_recommendation);
             ("delivered_via", PStr "whatsapp");
             ("created_at", PStr now)]) >>>
      health_score <== lift (Health._calculate_health_score vision_data) ;;;
      detected <== lift (len (dict_get vision_data "products" (PList []))) ;;;
      now <== db Db.utcnow ;;;
      db (Db.update "scans"
            [("status", PStr "completed");
             ("shelf_health_score", PInt health_score);
             ("products_detected", PInt detected);
             ("critical_items",
               dict_get vision_data "critical_count" (PInt 0));
             ("vision_summary",
               PStr (json_dumps (dict_get vision_data "summary" (PDict []))));
             ("final_recommendation", final_recommendation);
             ("voice_note_url", PStr voice_url);
             ("completed_at", PStr now)]
            [("id", scan_id)]) >>>
      total_scans <== lift
        (add_one (dict_get store "total_scans" (PInt 0))) ;;;
      now <== db Db.utcnow ;;;
      db (Db.update "stores"
            [("total_scans", total_scans);
             ("shelf_health_score", PInt health_score);
             ("last_scan_at", PStr now)]
            [("id", store_id)]) >>>
      (* [_update_neighborhood] makes no use of the store id it is
         given *)
      db (Main._update_neighborhood json_loads json_dumps set_list
            (py_str store_id) (dict_get store "pincode" PNone)
            vision_data) >>>
      let caption :=
        caption health_score
          (dict_get vision_data "critical_count" (PInt 0))
          (dict_get vision_data "low_count" (PInt 0)) in
      (if negb (Str.is_empty voice_url) then
         send_whatsapp_media from_number caption voice_url from_wa
       else
         short <== lift (short_rec final_recommendation) ;;;
         send_whatsapp_text from_number
           (caption +++ Str.nl +++ Str.nl +++ py_str short) from_wa) >>>
      content <== lift (slice_to final_recommendation 500) ;;;
      now <== db Db.utcnow ;;;
      db (Db.insert "whatsapp_messages"
            [("store_id", store_id);
             ("whatsapp_number", PStr from_number);
             ("direction", PStr "outbound");
             ("message_type", PStr "audio");
             ("message_content", content);
             ("media_url", PStr voice_url);
             ("status", PStr "delivered");
             ("created_at", PStr now)]) >>>
      ret tt
  end.

(** [_run_whatsapp_pipeline]: without credentials it returns at once;
    otherwise any exception of the body is answered with an apology, a
    failure of which is swallowed. *)
Definition _run_whatsapp_pipeline (w : world)
  (from_number media_url media_type : string) : M unit :=
  let account_sid := TWILIO_ACCOUNT_SID (twilio w) in
  let auth_token := TWILIO_AUTH_TOKEN (twilio w) in
  let from_wa := TWILIO_WHATSAPP_NUMBER (twilio w) in
  if Str.is_empty account_sid || Str.is_empty auth_token then ret tt
  else
    try_except (pipeline_try w from_number media_url media_type)
      (fun _ =>
         try_except (send_whatsapp_text from_number apology from_wa)
                    (fun _ => ret tt)).

End WithLibrary.

End WhatsApp.

(** ** A reference reading of the other library functions

    Used, with [Json.loads], to run the concrete examples.  Each is exact on
    the values the examples hold and says where it stops. *)

Module Reference.

Definition dec (z : Z) : string := NilZero.string_of_int (Z.to_int z).

(** The integer a finite float is equal to, if any. *)
Definition whole (m : positive) (e : Z) : option Z :=
  match e with
  | Zneg p =>
      if Zpos m mod 2 ^ Zpos p =? 0 then Some (Zpos m / 2 ^ Zpos p) else None
  | _ => Some (Zpos m * 2 ^ e)
  end.

(** A float, as far as the examples need it: the special values and the
    whole numbers below 10^16.  The shortest decimal form of another float
    is not modelled. *)
Definition float_text (f : spec_float) : string :=
  match f with
  | S754_zero false => "0.0"
  | S754_zero true => "-0.0"
  | S754_infinity false => "Infinity"
  | S754_infinity true => "-Infinity"
  | S754_nan => "NaN"
  | S754_finite s m e =>
      match whole m e with
      | Some z =>
          if z <? 10 ^ 16
          then (if s then "-" else EmptyString) +++ dec z +++ ".0"
          else "<float>"
      | None => "<float>"
      end
  end.

(** A string literal of [json.dumps], for a string without a quote, a
    backslash, a control character or a character above 127. *)
Definition quoted (s : string) : string := Str.dq +++ s +++ Str.dq.

(** [json.dumps(v)] with the default separators. *)
Fixpoint dumps (v : pyval) : string :=
  match v with
  | PNone => "null"
  | PBool true => "true"
  | PBool false => "false"
  | PInt z => dec z
  | PFloat f => float_text f
  | PStr s => quoted s
  | PList l =>
      "["
      +++ (fix items (l : list pyval) : string :=
             match l with
             | [] => EmptyString
             | x :: [] => dumps x
             | x :: rest => dumps x +++ ", " +++ items rest
             end) l
      +++ "]"
  | PDict d =>
      "{"
      +++ (fix members (d : list (string * pyval)) : string :=
             match d with
             | [] => EmptyString
             | (k, x) :: [] => quoted k +++ ": " +++ dumps x
             | (k, x) :: rest =>
                 quoted k +++ ": " +++ dumps x +++ ", " +++ members rest
             end) d
      +++ "}"
  end.

(** [str(v)] of a string, [None], a bool or an int; a float or a container
    is not rendered. *)
Definition str_of (v : pyval) : string :=
  match v with
  | PStr s => s
  | PNone => "None"
  | PBool true => "True"
  | PBool false => "False"
  | PInt z => dec z
  | _ => "<object>"
  end.

(** [list(set(l))] in one of the orders a set may take: first occurrences,
    in order.  A list or a dict is unhashable. *)
Fixpoint set_list (l : list pyval) : result (list pyval) :=
  match l with
  | [] => Ok []
  | PList _ :: _ => Raise TypeError
  | PDict _ :: _ => Raise TypeError
  | x :: l' =>
      rest <- set_list l' ;;
      Ok (x :: filter (fun y => negb (Db.scalar_eqb x y)) rest)
  end.

(** [round(x, 1)] on a float that is a whole number: itself. *)
Definition round_whole (x : spec_float) (ndigits : Z) : spec_float := x.

End Reference.

(** ** The words of the specification, and the data of its examples *)

Module Spec.

(** A product counts as stocked when its stock level is [ok] or
    [overstocked]. *)
Definition is_ok_or_overstocked (p : dict) : bool :=
  in_strs (dict_get p "stock_level" PNone) ["ok"; "overstocked"].

(** A product counts as facing correctly unless it says otherwise. *)
Definition is_facing_correct (p : dict) : bool :=
  truthy (dict_get p "facing_correct" (PBool true)).

Definition result_is (r : result Z) (z : Z) : bool :=
  match r with Ok x => x =? z | Raise _ => false end.

(** The code and the exact formula agree on [total], [ok], [facing]. *)
Definition exact_at (total ok facing : nat) : bool :=
  result_is
    (Health.score_of_counts (Z.of_nat total) (Z.of_nat ok) (Z.of_nat facing))
    (Health.exact_floor_score (Z.of_nat total) (Z.of_nat ok)
       (Z.of_nat facing)).

(** ... on every pair of counts up to [total]. *)
Definition exact_upto (total : nat) : bool :=
  forallb (fun ok => forallb (exact_at total ok) (seq 0 (S total)))
          (seq 0 (S total)).

Definition shelf_item (stock_level : string) (facing : bool) : dict :=
  [("name", PStr "item"); ("stock_level", PStr stock_level);
   ("facing_correct", PBool facing)].

Definition shelf (items : list dict) : dict :=
  [("products", PList (map PDict items))].

(** 10 products, 7 of them stocked, 9 facing correctly. *)
Definition ten_products : dict :=
  shelf (repeat (shelf_item "ok" true) 7 ++ repeat (shelf_item "low" true) 2
         ++ [shelf_item "critical" false]).

(** 19 products, 5 of them stocked, 1 facing correctly. *)
Definition nineteen_products : dict :=
  shelf (shelf_item "ok" true :: repeat (shelf_item "ok" false) 4
         ++ repeat (shelf_item "low" false) 14).

(** The list behind [l] when every item of it is an object. *)
Fixpoint as_dicts (l : list pyval) : option (list dict) :=
  match l with
  | [] => Some []
  | PDict d :: l' =>
      match as_dicts l' with
      | Some ds => Some (d :: ds)
      | None => None
      end
  | _ :: _ => None
  end.

(** The detected products of a vision result of the documented shape:
    [products] is missing, or holds a list of objects. *)
Definition detected_products (vision_data : dict) : option (list dict) :=
  match lookup vision_data "products" with
  | None => Some []
  | Some (PList l) => as_dicts l
  | Some _ => None
  end.

(** [c in s] for one character. *)
Fixpoint has_char (c : ascii) (s : string) : bool :=
  match s with
  | String x s' => Ascii.eqb x c || has_char c s'
  | EmptyString => false
  end.

(** The fenced reply of the specification: [{"a":1}] between a
    [```json] line and a [```] line. *)
Definition fenced_reply : string :=
  "```json" +++ Str.nl +++ "{" +++ Str.dq +++ "a" +++ Str.dq +++ ":1}"
  +++ Str.nl +++ "```".

(** A text between two fence lines: the opening fence with its tag, the
    body, the closing fence. *)
Definition fenced (tag body : string) : string :=
  "```" +++ tag +++ Str.nl +++ body +++ Str.nl +++ "```".

(** [s] does not start with white space. *)
Definition starts_clean (s : string) : bool :=
  match s with
  | String c _ => negb (Str.is_space c)
  | EmptyString => true
  end.

(** [s] does not end with white space. *)
Fixpoint ends_clean (s : string) : bool :=
  match s with
  | EmptyString => true
  | String c EmptyString => negb (Str.is_space c)
  | String _ s' => ends_clean s'
  end.

(** [s] has no white space at either end. *)
Definition trimmed (s : string) : bool := starts_clean s && ends_clean s.

(** *** The fallback chain, in the words of the specification *)

(** A candidate of a chain: who it is, whether its credential is
    configured, and what invoking it gives ([None] on any failure). *)
Record candidate : Type := {
  who : Debate.provider;
  configured : bool;
  attempt : option Debate.stage
}.

(** "Invoke each candidate in order; the first to return a result is
    accepted; candidates that are unconfigured are skipped."  The second
    component lists the candidates invoked, in order. *)
Fixpoint fallback_chain (cs : list candidate)
  : option Debate.stage * list Debate.provider :=
  match cs with
  | [] => (None, [])
  | c :: cs' =>
      if configured c then
        match attempt c with
        | Some st => (Some st, [who c])
        | None =>
            let '(r, calls) := fallback_chain cs' in (r, who c :: calls)
        end
      else fallback_chain cs'
  end.

Definition ok_or_none {A} (r : result (option A)) : option A :=
  match r with Ok x => x | Raise _ => None end.

Definition ok_some {A} (r : result A) : option A :=
  match r with Ok x => Some x | Raise _ => None end.

Definition raised {A} (r : result A) : option exn :=
  match r with Ok _ => None | Raise e => Some e end.

(** [json.loads] takes the cleaned text, or the largest substring of it
    between braces: the text is successfully normalized. *)
Definition parses (json_loads : string -> result pyval) (text : string)
  : bool :=
  let cleaned := Debate.clean text in
  is_ok (json_loads cleaned)
  || match Str.re_search_braces cleaned with
     | Some m => is_ok (json_loads m)
     | None => false
     end.

(** The mapping the normalizer makes of a text, when it makes one. *)
Definition normalized (json_loads : string -> result pyval) (text : string)
  : option dict :=
  match Debate._parse_json json_loads text with
  | PDict d => Some d
  | _ => None
  end.

(** The content of the message of the first choice of a chat-completions
    body. *)
Definition message_content (body : pyval) : option pyval :=
  match body with
  | PDict d =>
      match lookup d "choices" with
      | Some (PList (PDict first :: _)) =>
          match lookup first "message" with
          | Some (PDict message) => lookup message "content"
          | _ => None
          end
      | _ => None
      end
  | _ => None
  end.

(** The text a chat-completions request came back with: the status is 200,
    the body is JSON, and the message of its first choice holds a text. *)
Definition reply_text (reply : Debate.http_reply) : option string :=
  match reply with
  | Debate.HttpResponse status_code (Ok body) =>
      if status_code =? 200 then
        match message_content body with
        | Some (PStr text) => Some text
        | _ => None
        end
      else None
  | _ => None
  end.

(** The result of a critic whose reply was normalized to the mapping [d]:
    its confidence is the [confidence_score] of [d], or the critic's
    default. *)
Definition critic_stage (agent_name model_name : string)
  (default_confidence : Z) (d : dict) : Debate.stage :=
  {| Debate.agent := agent_name;
     Debate.model := model_name;
     Debate.type_ := "critic";
     Debate.output := PDict d;
     Debate.final_hindi_text := None;
     Debate.confidence :=
       dict_get d "confidence_score" (PInt default_confidence);
     Debate.error := None |}.

(** What invoking a chat-completions critic gives: a result when the
    request came back with a text that the normalizer turns into a mapping,
    nothing otherwise. *)
Definition chat_attempt (json_loads : string -> result pyval)
  (reply : Debate.http_reply) (agent_name model_name : string)
  (default_confidence : Z) : option Debate.stage :=
  match reply_text reply with
  | Some text =>
      option_map (critic_stage agent_name model_name default_confidence)
        (normalized json_loads text)
  | None => None
  end.

Definition gpt4o_attempt (json_loads : string -> result pyval)
  (w : Debate.world) : option Debate.stage :=
  chat_attempt json_loads (Debate.gpt4o_reply w)
    "GPT-4o Mini" "gpt-4o-mini" 80.

Definition groq_attempt (json_loads : string -> result pyval)
  (w : Debate.world) : option Debate.stage :=
  chat_attempt json_loads (Debate.groq_reply w)
    "Groq LLaMA-3.1-70B" "llama-3.1-70b-versatile" 76.

Definition together_attempt (json_loads : string -> result pyval)
  (w : Debate.world) : option Debate.stage :=
  chat_attempt json_loads (Debate.together_reply w)
    "Together Mixtral-8x7B" "mixtral-8x7b-instruct" 74.

(** What invoking Gemini Flash gives: a result when the call returns a
    text that the normalizer turns into a mapping. *)
Definition flash_attempt (json_loads : string -> result pyval)
  (w : Debate.world) : option Debate.stage :=
  match Debate.flash_reply w with
  | Ok text =>
      option_map
        (critic_stage "Gemini Flash (Critic Fallback)" "gemini-1.5-flash" 70)
        (normalized json_loads text)
  | Raise _ => None
  end.

(** The exception Gemini Flash fails with, when it fails. *)
Definition flash_failure (json_loads : string -> result pyval)
  (w : Debate.world) : option exn :=
  match Debate.flash_reply w with
  | Ok text =>
      match normalized json_loads text with
      | Some _ => None
      | None => Some AttributeError
      end
  | Raise e => Some e
  end.

Definition has_key (k : string) : bool := negb (Str.is_empty k).

(** The fixed priority list of the critic stage: GPT-4o Mini, Groq LLaMA,
    Together Mixtral, Gemini Flash; the last needs no credential of its
    own. *)
Definition critic_candidates (json_loads : string -> result pyval)
  (w : Debate.world) : list candidate :=
  let s := Debate.settings w in
  [ {| who := Debate.GPT4oMini;
       configured := has_key (Debate.OPENAI_API_KEY s);
       attempt := gpt4o_attempt json_loads w |};
    {| who := Debate.GroqLlama;
       configured := has_key (Debate.GROQ_API_KEY s);
       attempt := groq_attempt json_loads w |};
    {| who := Debate.TogetherMixtral;
       configured := has_key (Debate.TOGETHER_API_KEY s);
       attempt := together_attempt json_loads w |};
    {| who := Debate.GeminiFlash;
       configured := true;
       attempt := flash_attempt json_loads w |} ].

(** "A synthesized default result, tagged with a fixed low confidence value
    and a fallback identity." *)
Definition synthesized_default (err : option exn) : Debate.stage :=
  {| Debate.agent := "Gemini Flash (Critic Fallback)";
     Debate.model := "gemini-1.5-flash";
     Debate.type_ := "critic";
     Debate.output := Debate.default_critique;
     Debate.final_hindi_text := None;
     Debate.confidence := PInt 55;
     Debate.error := err |}.

(** A candidate that is unconfigured, or configured and failing. *)
Definition unavailable (c : candidate) : Prop :=
  configured c = false \/ attempt c = None.

(** *** Worlds of the examples *)

(** The body of a chat-completions response whose message is [content]. *)
Definition chat_body (content : string) : pyval :=
  PDict [("choices",
          PList [PDict [("message", PDict [("content", PStr content)])]])].

Definition all_keys : Debate.Settings :=
  {| Debate.OPENAI_API_KEY := "sk-openai";
     Debate.GROQ_API_KEY := "gsk-groq";
     Debate.TOGETHER_API_KEY := "tg-together" |}.

Definition no_keys : Debate.Settings :=
  {| Debate.OPENAI_API_KEY := EmptyString;
     Debate.GROQ_API_KEY := EmptyString;
     Debate.TOGETHER_API_KEY := EmptyString |}.

Definition timeout : exn := ExternalError "timeout".

(** Every credential is configured; GPT-4o Mini answers a text that is
    not JSON, Groq answers an object. *)
Definition world_unparsed_first : Debate.world :=
  {| Debate.settings := all_keys;
     Debate.presenter_reply := Ok "{}";
     Debate.gpt4o_reply :=
       Debate.HttpResponse 200 (Ok (chat_body "no json here"));
     Debate.groq_reply :=
       Debate.HttpResponse 200
         (Ok (chat_body ("{" +++ Str.dq +++ "risk_level" +++ Str.dq +++ ":"
                         +++ Str.dq +++ "low" +++ Str.dq +++ "}")));
     Debate.together_reply := Debate.HttpRaises timeout;
     Debate.flash_reply := Ok "{}";
     Debate.decider_reply := Ok "{}" |}.

(** No credential is configured and Gemini Flash answers a text that is
    not JSON. *)
Definition world_unparsed_flash : Debate.world :=
  {| Debate.settings := no_keys;
     Debate.presenter_reply := Ok "{}";
     Debate.gpt4o_reply := Debate.HttpRaises timeout;
     Debate.groq_reply := Debate.HttpRaises timeout;
     Debate.together_reply := Debate.HttpRaises timeout;
     Debate.flash_reply := Ok "no json here";
     Debate.decider_reply := Ok "{}" |}.

(** A (fails), B (fails), C (succeeds), D (unused): GPT-4o Mini times out,
    Groq answers 500, Together answers an empty object. *)
Definition world_third_succeeds : Debate.world :=
  {| Debate.settings := all_keys;
     Debate.presenter_reply := Ok "{}";
     Debate.gpt4o_reply := Debate.HttpRaises timeout;
     Debate.groq_reply := Debate.HttpResponse 500 (Ok (PDict []));
     Debate.together_reply := Debate.HttpResponse 200 (Ok (chat_body "{}"));
     Debate.flash_reply := Ok "{}";
     Debate.decider_reply := Ok "{}" |}.

(** No credential is configured and every Gemini call raises. *)
Definition world_all_down : Debate.world :=
  {| Debate.settings := no_keys;
     Debate.presenter_reply := Raise timeout;
     Debate.gpt4o_reply := Debate.HttpRaises timeout;
     Debate.groq_reply := Debate.HttpRaises timeout;
     Debate.together_reply := Debate.HttpRaises timeout;
     Debate.flash_reply := Raise timeout;
     Debate.decider_reply := Raise timeout |}.


(** The strings behind [l] when every item of it is a string. *)
Fixpoint as_strs (l : list pyval) : option (list string) :=
  match l with
  | [] => Some []
  | PStr s :: l' =>
      match as_strs l' with
      | Some ss => Some (s :: ss)
      | None => None
      end
  | _ :: _ => None
  end.

(** The urgent items of a vision result of the documented shape:
    [top_restock_urgent] is missing, or holds a list of strings. *)
Definition urgent_items (vision_data : dict) : option (list string) :=
  match lookup vision_data "top_restock_urgent" with
  | None => Some []
  | Some (PList l) => as_strs l
  | Some _ => None
  end.




Definition ramesh : dict :=
  [("owner_name", PStr "Ramesh"); ("store_name", PStr "Ramesh Kirana");
   ("pincode", PStr "110001"); ("total_scans", PInt 4)].


(** *** The store of the examples *)

(** No call to the store fails; the clock shows a new instant at each
    reading. *)
Definition quiet : Db.env :=
  {| Db.fault := fun _ => None;
     Db.clock := fun n => "2026-03-02T10:00:00." +++ Reference.dec (Z.of_nat n)
  |}.

(** Only the [k]-th call to the store fails. *)
Definition failing_at (k : nat) : Db.env :=
  {| Db.fault := fun n => if (n =? k)%nat then Some timeout else None;
     Db.clock := Db.clock quiet |}.

(** A registration body with the given postal code. *)
Definition registration (pin : string) : Models.StoreRegister :=
  {| Models.owner_name := "Ramesh";
     Models.whatsapp_number := "98765 43210";
     Models.store_name := "Ramesh Kirana";
     Models.city := "Delhi";
     Models.pincode := pin;
     Models.address := None;
     Models.store_type := "kirana";
     Models.monthly_sales_volume := None;
     Models.num_shelves := None;
     Models.primary_language := "hindi";
     Models.product_categories := None;
     Models.gst_number := None;
     Models.referral_code := None |}.

(** Exactly six digits. *)
Definition six_digits (v : string) : bool :=
  (String.length v =? 6)%nat
  && forallb Str.is_digit (list_ascii_of_string v).


(** *** Frames of the store *)

Definition write_table (w : Db.write) : string :=
  match w with
  | Db.Inserted t _ => t
  | Db.Updated t _ _ => t
  end.

(** From [st] to [st'] the table [name] is left as it was and only writes
    to other tables were recorded. *)
Definition leaves (name : string) (st st' : Db.state) : Prop :=
  Db.table st' name = Db.table st name
  /\ exists j,
       Db.journal st' = Db.journal st ++ j
       /\ Forall (fun w => write_table w <> name) j.

(** A computation that, however it ends, leaves the table [name]. *)
Definition frames (name : string) {A} (m : Db.M A) : Prop :=
  forall e st r st', m e st = (r, st') -> leaves name st st'.

(** No call to the store fails. *)
Definition never_fails (e : Db.env) : Prop :=
  forall n, Db.fault e n = None.

(** *** Speech synthesis *)

(** The speech-synthesis stage fails: the provider raises, or answers
    with a status other than 200, or the upload of the audio raises. *)
Definition synthesis_fails (w : Voice.world) : Prop :=
  (exists x, Voice.tts w = Voice.TtsRaises x)
  \/ (exists code content,
         Voice.tts w = Voice.TtsResponse code content /\ code <> 200)
  \/ (exists x, Voice.upload_audio w = Raise x).

Definition voice_up : Voice.world :=
  {| Voice.tts := Voice.TtsResponse 200 "ID3-audio";
     Voice.upload_audio := Ok "https://res.cloudinary.com/voice.mp3" |}.

(** The synthesizer answers 503. *)
Definition voice_down : Voice.world :=
  {| Voice.tts := Voice.TtsResponse 503 "Service Unavailable";
     Voice.upload_audio := Ok "https://res.cloudinary.com/voice.mp3" |}.

(** *** A scan *)

Definition ramesh_row : dict := ("id", PStr "store-1") :: ramesh.

(** A store holding one registered shop and no scan. *)
Definition one_store : Db.state :=
  {| Db.tables := [("stores", [ramesh_row])];
     Db.next_id := 1; Db.calls := O; Db.ticks := O; Db.journal := [] |}.

(** Image upload and vision succeed (ten products); the debate providers
    are all down, so the debate runs on its fallbacks. *)
Definition services_with (voice : Voice.world) : Main.services :=
  {| Main.upload_image := Ok "https://res.cloudinary.com/shelf.jpg";
     Main.analyze_shelf_image := Ok ten_products;
     Main.debate_world := world_all_down;
     Main.voice_world := voice |}.

(** The vision analysis raises. *)
Definition services_blind : Main.services :=
  {| Main.upload_image := Ok "https://res.cloudinary.com/shelf.jpg";
     Main.analyze_shelf_image := Raise (ExternalError "vision failed");
     Main.debate_world := world_all_down;
     Main.voice_world := voice_up |}.

(** [scan_shelf] on the reference reading of the library. *)
Definition scan_shelf_ref (sv : Main.services) (store_id : string)
  : Db.M Main.scan_response :=
  Main.scan_shelf Json.loads Reference.dumps Reference.str_of
    Reference.set_list sv store_id.

(** *** The rollup *)


Definition detected (name category stock_level : string)
  : Aggregation.product :=
  {| Aggregation.product_name := PStr name;
     Aggregation.brand := PNone;
     Aggregation.category := PStr category;
     Aggregation.stock_level := PStr stock_level;
     Aggregation.store_id := PStr "store-1" |}.

(** Two products of the week, both low on stock. *)
Definition week_of_products : list Aggregation.product :=
  [detected "Tata Salt" "Staples" "low"; detected "Maggi" "Snacks" "low"].

(** [_aggregate_pincode] on the reference reading of the library. *)
Definition aggregate_ref (window_rows : list Aggregation.product)
  : Db.M unit :=
  Aggregation._aggregate_pincode Reference.dumps Reference.round_whole
    window_rows "110001" "Delhi" ["store-1"] "2026-03-02".





End Spec.

(** ** Shapes of the data the further properties speak about *)

Module Shapes.

(** Every character of [s] passes [p]. *)
Definition all_chars (p : ascii -> bool) (s : string) : bool :=
  forallb p (list_ascii_of_string s).

(** A ten-digit mobile number: ten digits, the first of them 6 to 9. *)
Definition is_mobile (d : string) : bool :=
  (String.length d =? 10)%nat
  && all_chars Str.is_digit d
  && match d with
     | String c _ => ((54 <=? nat_of_ascii c) && (nat_of_ascii c <=? 57))%nat
     | EmptyString => false
     end.

(** The row of [stores] a registration writes: the body, the defaults of
    a new store, and the id the store gives it. *)
Definition new_store (data : Models.StoreRegister) (id : Z) (now : string)
  : dict :=
  ("id", PInt id)
  :: Models.to_dict data
     ++ [("registered_at", PStr now); ("status", PStr "active");
         ("total_scans", PInt 0); ("shelf_health_score", PInt 0)].

(** Ramesh's registration once validated, and a store that holds it. *)
Definition ramesh_validated : Models.StoreRegister :=
  {| Models.owner_name := "Ramesh";
     Models.whatsapp_number := "+919876543210";
     Models.store_name := "Ramesh Kirana";
     Models.city := "Delhi";
     Models.pincode := "110001";
     Models.address := None;
     Models.store_type := "kirana";
     Models.monthly_sales_volume := None;
     Models.num_shelves := None;
     Models.primary_language := "hindi";
     Models.product_categories := None;
     Models.gst_number := None;
     Models.referral_code := None |}.

Definition ramesh_on_file : Db.state :=
  {| Db.tables :=
       [("stores", [new_store ramesh_validated 1 "2026-03-01T09:00:00"])];
     Db.next_id := 2; Db.calls := O; Db.ticks := O; Db.journal := [] |}.

(** *** Rows of [detected_products] *)

(** The name [_build_alerts] reads off a row. *)
Definition name_of (row : dict) : pyval :=
  dict_get row "product_name" (PStr "Unknown").

(** Every row is named by a text, or not named. *)
Definition text_names (rows : list dict) : Prop :=
  Forall (fun row => exists s, name_of row = PStr s) rows.

(** The product an alert is about. *)
Definition alert_product (a : pyval) : pyval :=
  match a with
  | PDict d => dict_get d "product" PNone
  | _ => PNone
  end.

Definition alert_type (a : pyval) : pyval :=
  match a with
  | PDict d => dict_get d "type" PNone
  | _ => PNone
  end.

Definition detected_row (name stock_level : string) (facing : bool) : dict :=
  [("product_name", PStr name); ("stock_level", PStr stock_level);
   ("quantity_estimate", PInt 2); ("facing_correct", PBool facing)].

(** Four rows: salt out of stock, then salt again in stock, noodles
    facing the wrong way, biscuits in order. *)
Definition four_rows : list dict :=
  [detected_row "Tata Salt" "critical" true;
   detected_row "Tata Salt" "ok" true;
   detected_row "Maggi" "ok" false;
   detected_row "Parle-G" "ok" true].

(** *** Counts *)

(** A column that holds a text or NULL. *)
Definition is_text_or_null (v : pyval) : bool :=
  match v with
  | PNone => true
  | PStr _ => true
  | _ => false
  end.

Definition is_text (v : pyval) : bool :=
  match v with PStr _ => true | _ => false end.

(** The count a [Counter] holds for the key [k]; 0 when it has none. *)
Fixpoint count_of (eqb : pyval -> pyval -> bool) (k : pyval)
  (c : list (pyval * Z)) : Z :=
  match c with
  | [] => 0
  | (k', n) :: c' => if eqb k' k then n else count_of eqb k c'
  end.

(** Counts in descending order: each entry counts at least as much as
    every entry after it. *)
Fixpoint ranked (l : list (pyval * Z)) : Prop :=
  match l with
  | [] => True
  | x :: rest => (forall y, In y rest -> snd y <= snd x) /\ ranked rest
  end.

(** [c] tallies the non-empty texts: its keys are distinct non-empty
    texts, its counts are positive, and the count of [s] is [occ s]. *)
Definition tallies (eqb : pyval -> pyval -> bool) (c : list (pyval * Z))
  (occ : string -> Z) : Prop :=
  Forall (fun kv => (exists s, fst kv = PStr s /\ s <> EmptyString)
                    /\ 1 <= snd kv) c
  /\ NoDup (map fst c)
  /\ forall s, s <> EmptyString -> count_of eqb (PStr s) c = occ s.

(** How many of [items] are the text [s]. *)
Definition count_text (s : string) (items : list pyval) : Z :=
  Z.of_nat (List.length (filter (fun v => eq_str v s) items)).

(** Every item is a non-empty text. *)
Definition texts (items : list pyval) : Prop :=
  Forall (fun v => exists s, v = PStr s /\ s <> EmptyString) items.

(** The rows of [detected_products] named [s]. *)
Definition occurrences (s : string) (rows : list dict) : Z :=
  Z.of_nat
    (List.length
       (filter (fun row => eq_str (dict_get row "product_name" PNone) s)
               rows)).

(** The entry of [popular_products] for [s] with the count [n]. *)
Definition popular (s : string) (n : Z) : pyval :=
  PDict [("product", PStr s); ("scan_count", PInt n)].

(** The value under the first key of an entry. *)
Definition first_value (entry : pyval) : pyval :=
  match entry with
  | PDict ((_, v) :: _) => v
  | _ => PNone
  end.

Definition popular_product (entry : pyval) : pyval :=
  match entry with
  | PDict d => dict_get d "product" PNone
  | _ => PNone
  end.

(** Every row is named by a text, or by NULL, or not named. *)
Definition optional_names (rows : list dict) : bool :=
  forallb (fun row => is_text_or_null (dict_get row "product_name" PNone))
          rows.

Definition scan_count (entry : pyval) : Z :=
  match entry with
  | PDict d => match dict_get d "scan_count" PNone with
               | PInt n => n
               | _ => 0
               end
  | _ => 0
  end.

(** [l] goes down: each number is at most the one before it. *)
Fixpoint descending (l : list Z) : bool :=
  match l with
  | a :: (b :: _) as rest => (b <=? a) && descending rest
  | _ => true
  end.

(** Three rows of salt, one of noodles, one without a name. *)
Definition five_rows : list dict :=
  [detected_row "Tata Salt" "critical" true;
   detected_row "Maggi" "ok" false;
   detected_row "Tata Salt" "ok" true;
   [("stock_level", PStr "ok")];
   detected_row "Tata Salt" "low" true].

(** *** The shelf analysis *)

(** A reply that wraps the object in prose. *)
Definition noisy_reply : string :=
  "Here is the analysis: {" +++ Str.dq +++ "products" +++ Str.dq
  +++ ": []} I hope this helps.".

(** Four rows of the window: salt out of stock twice, noodles low,
    biscuits in stock. *)
Definition window_with_stockouts : list Aggregation.product :=
  [Spec.detected "Tata Salt" "Staples" "critical";
   Spec.detected "Maggi" "Snacks" "low";
   Spec.detected "Tata Salt" "Staples" "critical";
   Spec.detected "Parle-G" "Biscuits" "ok"].

(** *** Inbound events *)


(** *** Steps of the store *)

(** However it ends, a computation takes the store from a state to one
    that [R] relates to it. *)
Definition steps (R : Db.state -> Db.state -> Prop) {A} (m : Db.M A)
  : Prop :=
  forall e st r st', m e st = (r, st') -> R st st'.

Definition is_update (w : Db.write) : Prop :=
  match w with
  | Db.Updated _ _ _ => True
  | Db.Inserted _ _ => False
  end.

(** From [st] to [st'] rows were updated in place only: every table has
    as many rows as before, and every write recorded is an update. *)
Definition updates_only (st st' : Db.state) : Prop :=
  (forall name,
      List.length (Db.table st' name) = List.length (Db.table st name))
  /\ exists j,
       Db.journal st' = Db.journal st ++ j /\ Forall is_update j.

(** From [st] to [st'] nothing was written. *)
Definition untouched (st st' : Db.state) : Prop :=
  Db.tables st' = Db.tables st /\ Db.journal st' = Db.journal st.

(** *** The pipeline behind the webhook *)

(** The step hands no message to the message API. *)
Definition silent {A} (m : Pipeline.M A) : Prop :=
  forall e st r st',
    m e st = (r, st') -> Pipeline.sent st' = Pipeline.sent st.

(** The step raises before any message, or hands over exactly one, and
    that one passes [P]. *)
Definition one_message (P : Pipeline.message -> Prop) {A}
  (m : Pipeline.M A) : Prop :=
  forall e st r st',
    m e st = (r, st') ->
    (Pipeline.sent st' = Pipeline.sent st /\ exists x, r = Raise x)
    \/ exists msg,
         Pipeline.sent st' = Pipeline.sent st ++ [msg] /\ P msg.




(** Both credentials of the message API are set. *)
Definition configured (w : Pipeline.world) : Prop :=
  Str.is_empty (Pipeline.TWILIO_ACCOUNT_SID (Pipeline.twilio w)) = false
  /\ Str.is_empty (Pipeline.TWILIO_AUTH_TOKEN (Pipeline.twilio w)) = false.

(** A message from the service's number to the sender. *)
Definition text_to (w : Pipeline.world) (from_number body : string)
  : Pipeline.message :=
  {| Pipeline.From :=
       "whatsapp:" +++ Pipeline.TWILIO_WHATSAPP_NUMBER (Pipeline.twilio w);
     Pipeline.To := "whatsapp:" +++ from_number;
     Pipeline.Body := body;
     Pipeline.MediaUrl := None |}.

Definition between (w : Pipeline.world) (from_number : string)
  (msg : Pipeline.message) : Prop :=
  Pipeline.From msg
  = "whatsapp:" +++ Pipeline.TWILIO_WHATSAPP_NUMBER (Pipeline.twilio w)
  /\ Pipeline.To msg = "whatsapp:" +++ from_number.

(** The rows of [stores] the pipeline finds for a sender. *)
Definition stores_of (from_number : string) (st : Db.state) : list dict :=
  filter (Pipeline.or_ from_number
            ("+" +++ Pipeline.lstrip_plus from_number))
         (Db.table st "stores").

(** No row of [stores] carries the number, as it came or with one plus
    in front. *)
Definition unregistered (from_number : string) (st : Db.state) : Prop :=
  Forall (fun row =>
            lookup row "whatsapp_number" <> Some (PStr from_number)
            /\ lookup row "whatsapp_number"
               <> Some (PStr ("+" +++ Pipeline.lstrip_plus from_number)))
         (Db.table st "stores").

(** The sandbox of the message API, with the collaborators of a scan. *)
Definition sandbox (sv : Main.services) : Pipeline.world :=
  {| Pipeline.twilio :=
       {| Pipeline.TWILIO_ACCOUNT_SID := "AC0123";
          Pipeline.TWILIO_AUTH_TOKEN := "token";
          Pipeline.TWILIO_WHATSAPP_NUMBER := "+14155238886" |};
     Pipeline.download_media := Ok "jpeg";
     Pipeline.services := sv |}.

(** Neither the store nor the message API fails. *)
Definition delivering : Pipeline.env :=
  {| Pipeline.store_env := Spec.quiet;
     Pipeline.send_fault := fun _ => None |}.

(** The store answers; every request to the message API raises. *)
Definition undeliverable : Pipeline.env :=
  {| Pipeline.store_env := Spec.quiet;
     Pipeline.send_fault := fun _ => Some Spec.timeout |}.

(** Nothing sent yet. *)
Definition fresh (s : Db.state) : Pipeline.state :=
  {| Pipeline.store := s; Pipeline.sent := [] |}.

(** The pipeline on the reference reading of the library. *)
Definition pipeline_ref (w : Pipeline.world) (from_number : string)
  : Pipeline.M unit :=
  WhatsApp._run_whatsapp_pipeline Json.loads Reference.dumps
    Reference.str_of Reference.set_list w from_number
    "https://api.twilio.com/media/1" "image/jpeg".

(** *** The fallbacks of the debate and of the voice *)

(** A field of a mapping, or null. *)
Definition field (k : string) (a : pyval) : pyval :=
  match a with
  | PDict d => dict_get d k PNone
  | _ => PNone
  end.

(** The product is out of stock or low. *)
Definition needs_restock (d : dict) : bool :=
  in_strs (dict_get d "stock_level" PNone) ["critical"; "low"].

(** The name the fallbacks show for a product. *)
Definition shown_name (d : dict) : pyval :=
  dict_get d "name" (dict_get d "product_name" (PStr "Unknown")).

(** Six products, all of them low. *)
Definition six_low : dict :=
  [("products",
     PList (map (fun n => PDict [("name", PStr n); ("stock_level", PStr "low")])
                ["Salt"; "Sugar"; "Tea"; "Rice"; "Soap"; "Oil"]))].

(** *** Readers of the store *)

(** The number [login_store] looks up. *)
Definition login_number (whatsapp : string) : string :=
  Str.remove_all "-" (Str.remove_all " " whatsapp).

End Shapes.

(* ================================================================== *)
(** * Part II: the properties *)
(* ================================================================== *)

(** ** The health score *)

Section HealthScore.

Import Health.

Lemma filterM_dicts (c : pyval -> result bool) (c' : dict -> bool) :
  (forall d, c (PDict d) = Ok (c' d)) ->
  forall ps, filterM c (map PDict ps) = Ok (map PDict (filter c' ps)).
Proof.
  intros Hc ps. induction ps as [|p ps IH]; simpl.
  - reflexivity.
  - rewrite Hc, IH. simpl. destruct (c' p); reflexivity.
Qed.

Lemma count_if_dicts (c : pyval -> result bool) (c' : dict -> bool) :
  (forall d, c (PDict d) = Ok (c' d)) ->
  forall ps,
    count_if c (map PDict ps) = Ok (Z.of_nat (List.length (filter c' ps))).
Proof.
  intros Hc ps. unfold count_if. rewrite (filterM_dicts c c' Hc).
  simpl. rewrite length_map. reflexivity.
Qed.

Lemma as_dicts_map (l : list pyval) (ps : list dict) :
  Spec.as_dicts l = Some ps -> l = map PDict ps.
Proof.
  revert ps. induction l as [|x l IH]; intros ps H; simpl in H.
  - injection H as <-. reflexivity.
  - destruct x; try discriminate.
    destruct (Spec.as_dicts l) as [ds|]; [|discriminate].
    injection H as <-. simpl. f_equal. now apply IH.
Qed.

Lemma health_score_of_list (vision_data : dict) (ps : list dict) :
  lookup vision_data "products" = Some (PList (map PDict ps)) ->
  _calculate_health_score vision_data =
    match ps with
    | [] => Ok 0
    | _ :: _ =>
        score <- score_of_counts
                   (Z.of_nat (List.length ps))
                   (Z.of_nat (List.length (filter Spec.is_ok_or_overstocked ps)))
                   (Z.of_nat (List.length (filter Spec.is_facing_correct ps))) ;;
        Ok (Z.min 100 (Z.max 0 score))
    end.
Proof.
  intros H. unfold _calculate_health_score, dict_get. rewrite H.
  destruct ps as [|p ps]; [reflexivity|].
  change (map PDict (p :: ps)) with (PDict p :: map PDict ps) at 1.
  cbn [truthy negb].
  unfold len, iter. cbn [Py.bind].
  rewrite (count_if_dicts stock_ok Spec.is_ok_or_overstocked) by reflexivity.
  rewrite (count_if_dicts facing_ok Spec.is_facing_correct) by reflexivity.
  rewrite length_map. reflexivity.
Qed.

Lemma exact_upto_18 : forallb Spec.exact_upto (seq 1 18) = true.
Proof. vm_compute. reflexivity. Qed.

Lemma score_exact_upto_18 (total ok facing : nat) :
  (1 <= total <= 18)%nat -> (ok <= total)%nat -> (facing <= total)%nat ->
  score_of_counts (Z.of_nat total) (Z.of_nat ok) (Z.of_nat facing)
  = Ok (exact_floor_score (Z.of_nat total) (Z.of_nat ok) (Z.of_nat facing)).
Proof.
  intros Ht Ho Hf.
  pose proof exact_upto_18 as H.
  rewrite forallb_forall in H.
  specialize (H total). 
  assert (Hin : In total (seq 1 18)) by (apply in_seq; lia).
  specialize (H Hin). unfold Spec.exact_upto in H.
  rewrite forallb_forall in H. specialize (H ok).
  assert (Hin2 : In ok (seq 0 (S total))) by (apply in_seq; lia).
  specialize (H Hin2). rewrite forallb_forall in H. specialize (H facing).
  assert (Hin3 : In facing (seq 0 (S total))) by (apply in_seq; lia).
  specialize (H Hin3). unfold Spec.exact_at, Spec.result_is in H.
  destruct (score_of_counts _ _ _) as [s|]; [|discriminate].
  apply Z.eqb_eq in H. now subst.
Qed.

Lemma exact_floor_bounds (total ok facing : Z) :
  0 < total -> 0 <= ok <= total -> 0 <= facing <= total ->
  0 <= exact_floor_score total ok facing <= 100.
Proof.
  intros Ht Ho Hf. unfold exact_floor_score. split.
  - apply Z.div_pos; lia.
  - apply Z.div_le_upper_bound; lia.
Qed.

Lemma health_score_of_products (vision_data : dict) (ps : list dict) :
  Spec.detected_products vision_data = Some ps ->
  _calculate_health_score vision_data =
    match ps with
    | [] => Ok 0
    | _ :: _ =>
        score <- score_of_counts
                   (Z.of_nat (List.length ps))
                   (Z.of_nat (List.length (filter Spec.is_ok_or_overstocked ps)))
                   (Z.of_nat (List.length (filter Spec.is_facing_correct ps))) ;;
        Ok (Z.min 100 (Z.max 0 score))
    end.
Proof.
  unfold Spec.detected_products. intros H.
  destruct (lookup vision_data "products") as [v|] eqn:E.
  - destruct v; try discriminate.
    apply as_dicts_map in H. subst l. now apply health_score_of_list.
  - injection H as <-. unfold _calculate_health_score, dict_get.
    rewrite E. reflexivity.
Qed.

(** The score on a vision result of the documented shape with N detected
    products: 0 when N = 0; the exact floor of 70*ok/N + 30*facing/N
    whenever N <= 18, where the binary64 evaluation of
    (ok/N)*70 + (facing/N)*30 does not fall below it; and, whenever a
    score is returned, a number in [0,100]. *)
Lemma health_score_small_shelves (vision_data : dict) (ps : list dict)
  (Hshape : Spec.detected_products vision_data = Some ps) :
  let total := Z.of_nat (List.length ps) in
  let ok := Z.of_nat (List.length (filter Spec.is_ok_or_overstocked ps)) in
  let facing := Z.of_nat (List.length (filter Spec.is_facing_correct ps)) in
  (total = 0 -> _calculate_health_score vision_data = Ok 0)
  /\ (0 < total ->
      _calculate_health_score vision_data =
        (score <- score_of_counts total ok facing ;;
         Ok (Z.min 100 (Z.max 0 score))))
  /\ (0 < total <= 18 ->
      _calculate_health_score vision_data
      = Ok (exact_floor_score total ok facing))
  /\ (forall score, _calculate_health_score vision_data = Ok score ->
      0 <= score <= 100).
Proof.
  intros total ok facing.
  pose proof (health_score_of_products _ _ Hshape) as E.
  assert (Hok : (List.length (filter Spec.is_ok_or_overstocked ps)
                 <= List.length ps)%nat) by apply filter_length_le.
  assert (Hfc : (List.length (filter Spec.is_facing_correct ps)
                 <= List.length ps)%nat) by apply filter_length_le.
  split; [|split; [|split]].
  - intros H0. destruct ps; [exact E|]. subst total. simpl in H0. lia.
  - intros Hpos. destruct ps; [subst total; simpl in Hpos; lia|exact E].
  - intros [Hpos H18].
    assert (E' : _calculate_health_score vision_data =
                 (score <- score_of_counts total ok facing ;;
                  Ok (Z.min 100 (Z.max 0 score)))).
    { destruct ps; [subst total; simpl in Hpos; lia|exact E]. }
    rewrite E'. subst total ok facing.
    rewrite score_exact_upto_18 by lia.
    cbn [Py.bind]. f_equal.
    pose proof (exact_floor_bounds
                  (Z.of_nat (List.length ps))
                  (Z.of_nat (List.length (filter Spec.is_ok_or_overstocked ps)))
                  (Z.of_nat (List.length (filter Spec.is_facing_correct ps))))
      as B.
    lia.
  - intros score H. destruct ps; rewrite E in H.
    + injection H as <-. lia.
    + destruct (score_of_counts _ _ _); [|discriminate].
      injection H as <-. lia.
Qed.

(** The example of the specification: 10 products, 7 stocked, 9 facing
    correctly, give 76. *)
Lemma health_score_of_ten_products :
  Spec.detected_products Spec.ten_products <> None
  /\ _calculate_health_score Spec.ten_products = Ok 76.
Proof.
  split; [vm_compute; discriminate|].
  destruct (Spec.detected_products Spec.ten_products) as [ps|] eqn:E;
    [|vm_compute in E; discriminate].
  pose proof (health_score_small_shelves Spec.ten_products ps E) as H.
  vm_compute in E. injection E as <-.
  destruct H as (_ & _ & H & _).
  rewrite H; [reflexivity | vm_compute; split; [reflexivity | discriminate]].
Defined.

(** C6.  The code departs from the formula.  On 19 products, 5 of them
    stocked and 1 facing correctly, [_calculate_health_score] returns 19,
    while floor(70*5/19 + 30*1/19) = floor(380/19) is 20: the quotients
    5/19 and 1/19 are rounded before they are weighted, and the sum of the
    rounded terms lies just below 20. *)
Theorem health_score_below_exact_floor :
  (exists ps,
      Spec.detected_products Spec.nineteen_products = Some ps
      /\ List.length ps = 19%nat
      /\ List.length (filter Spec.is_ok_or_overstocked ps) = 5%nat
      /\ List.length (filter Spec.is_facing_correct ps) = 1%nat)
  /\ _calculate_health_score Spec.nineteen_products = Ok 19
  /\ exact_floor_score 19 5 1 = 20.
Proof.
  split.
  - eexists. split; [vm_compute; reflexivity|]. vm_compute. auto.
  - split; vm_compute; reflexivity.
Qed.

End HealthScore.

(** ** The response normalizer *)

Section Normalizer.

Import Debate.

Lemma from_first_open_split (s t : string) :
  Str.from_first_open s = Some t ->
  exists pre rest,
    s = pre +++ t /\ t = String "{"%char rest
    /\ Spec.has_char "{"%char pre = false.
Proof.
  revert t. induction s as [|c s IH]; intros t H; simpl in H.
  - discriminate.
  - destruct (Ascii.eqb c "{"%char) eqn:E.
    + injection H as <-. apply Ascii.eqb_eq in E. subst c.
      exists EmptyString, s. auto.
    + destruct (IH t H) as (pre & rest & -> & -> & Hpre).
      exists (String c pre), rest. simpl. rewrite E. auto.
Qed.

Lemma upto_last_close_split (s r : string) :
  Str.upto_last_close s = Some r ->
  exists body post,
    s = r +++ post /\ r = body +++ "}"
    /\ Spec.has_char "}"%char post = false.
Proof.
  revert r. induction s as [|c s IH]; intros r H; simpl in H.
  - discriminate.
  - destruct (Str.upto_last_close s) as [r'|] eqn:E.
    + injection H as <-.
      destruct (IH r' eq_refl) as (body & post & -> & -> & Hpost).
      exists (String c body), post. auto.
    + destruct (Ascii.eqb c "}"%char) eqn:Ec; [|discriminate].
      injection H as <-. apply Ascii.eqb_eq in Ec. subst c.
      exists EmptyString, s. repeat split.
      clear IH. induction s as [|x s IHs]; [reflexivity|].
      simpl in E. destruct (Str.upto_last_close s); [discriminate|].
      destruct (Ascii.eqb x "}"%char) eqn:Ex; [discriminate|].
      simpl. rewrite Ex. now apply IHs.
Qed.

(** The match of [\{.*\}] runs from the first opening brace to the last
    closing brace: nothing larger is brace-delimited. *)
Lemma re_search_braces_largest (s m : string) :
  Str.re_search_braces s = Some m ->
  exists pre body post,
    s = pre +++ m +++ post
    /\ m = String "{"%char (body +++ "}")
    /\ Spec.has_char "{"%char pre = false
    /\ Spec.has_char "}"%char post = false.
Proof.
  unfold Str.re_search_braces. intros H.
  destruct (Str.from_first_open s) as [t|] eqn:E; [|discriminate].
  destruct (from_first_open_split _ _ E) as (pre & rest & -> & -> & Hpre).
  destruct (Str.upto_last_close rest) as [r|] eqn:Er; [|discriminate].
  injection H as <-.
  destruct (upto_last_close_split _ _ Er) as (body & post & -> & -> & Hpost).
  exists pre, body, post. auto.
Qed.

Lemma take_length (n : nat) (s : string) :
  (String.length (Str.take n s) <= n)%nat.
Proof.
  revert s. induction n as [|n IH]; intros [|c s]; simpl; try lia.
  specialize (IH s). lia.
Qed.

Lemma take_empty (n : nat) (s : string) :
  Str.take (S n) s = EmptyString <-> s = EmptyString.
Proof. destruct s; simpl; split; intros H; try reflexivity; discriminate. Qed.

(** *** Stripping *)

Lemma lstrip_starts_clean (s : string) :
  Spec.starts_clean (Str.lstrip s) = true.
Proof.
  induction s as [|c s IH]; [reflexivity|]. cbn [Str.lstrip].
  destruct (Str.is_space c) eqn:E; [exact IH|].
  cbn [Spec.starts_clean]. now rewrite E.
Qed.

Lemma rstrip_ends_clean (s : string) :
  Spec.ends_clean (Str.rstrip s) = true.
Proof.
  induction s as [|c s IH]; [reflexivity|]. cbn [Str.rstrip].
  destruct (Str.rstrip s) as [|d r] eqn:E.
  - cbn [Str.is_empty andb]. destruct (Str.is_space c) eqn:Ec;
      [reflexivity|]. cbn [Spec.ends_clean]. now rewrite Ec.
  - cbn [Str.is_empty andb]. exact IH.
Qed.

Lemma rstrip_starts_clean (s : string) :
  Spec.starts_clean s = true -> Spec.starts_clean (Str.rstrip s) = true.
Proof.
  destruct s as [|c s]; [reflexivity|]. cbn [Spec.starts_clean Str.rstrip].
  intros H. destruct (Str.is_space c) eqn:E; [discriminate|].
  rewrite andb_false_r. cbn [Spec.starts_clean]. now rewrite E.
Qed.

Lemma lstrip_clean (s : string) :
  Spec.starts_clean s = true -> Str.lstrip s = s.
Proof.
  destruct s as [|c s]; [reflexivity|]. cbn [Spec.starts_clean Str.lstrip].
  destruct (Str.is_space c); [discriminate|reflexivity].
Qed.

Lemma rstrip_clean (s : string) :
  Spec.ends_clean s = true -> Str.rstrip s = s.
Proof.
  induction s as [|c s IH]; [reflexivity|]. intros H. cbn [Str.rstrip].
  destruct s as [|d s'].
  - cbn [Spec.ends_clean] in H. cbn [Str.rstrip Str.is_empty andb].
    destruct (Str.is_space c); [discriminate|reflexivity].
  - rewrite IH by exact H. reflexivity.
Qed.

Lemma strip_trimmed (s : string) :
  Spec.trimmed s = true -> Str.strip s = s.
Proof.
  unfold Spec.trimmed, Str.strip. intros H. apply andb_prop in H.
  destruct H as [H1 H2]. rewrite lstrip_clean by exact H1.
  now apply rstrip_clean.
Qed.

Lemma strip_is_trimmed (s : string) : Spec.trimmed (Str.strip s) = true.
Proof.
  unfold Spec.trimmed, Str.strip. apply andb_true_intro. split.
  - apply rstrip_starts_clean, lstrip_starts_clean.
  - apply rstrip_ends_clean.
Qed.

(** A trimmed text followed by a newline strips to the text. *)
Lemma rstrip_newline (s : string) :
  Spec.ends_clean s = true -> Str.rstrip (s +++ Str.nl) = s.
Proof.
  induction s as [|c s IH]; [reflexivity|]. intros H.
  change (String c s +++ Str.nl) with (String c (s +++ Str.nl)).
  cbn [Str.rstrip]. destruct s as [|d s'].
  - cbn [Spec.ends_clean] in H. cbn.
    destruct (Str.is_space c); [discriminate|reflexivity].
  - rewrite IH by exact H. reflexivity.
Qed.

Lemma strip_newline (s : string) :
  Spec.trimmed s = true -> Str.strip (s +++ Str.nl) = s.
Proof.
  unfold Spec.trimmed, Str.strip. intros H. apply andb_prop in H.
  destruct H as [H1 H2]. destruct s as [|c s]; [reflexivity|].
  change (String c s +++ Str.nl) with (String c (s +++ Str.nl)).
  rewrite lstrip_clean by exact H1.
  now apply (rstrip_newline (String c s)).
Qed.

Lemma lstrip_keeps (c : ascii) (s : string) :
  Spec.has_char c s = false -> Spec.has_char c (Str.lstrip s) = false.
Proof.
  induction s as [|d s IH]; [reflexivity|]. cbn [Spec.has_char Str.lstrip].
  intros H. apply orb_false_elim in H. destruct H as [H1 H2].
  destruct (Str.is_space d); [now apply IH|].
  cbn [Spec.has_char]. now rewrite H1, H2.
Qed.

Lemma rstrip_keeps (c : ascii) (s : string) :
  Spec.has_char c s = false -> Spec.has_char c (Str.rstrip s) = false.
Proof.
  induction s as [|d s IH]; [reflexivity|]. cbn [Spec.has_char Str.rstrip].
  intros H. apply orb_false_elim in H. destruct H as [H1 H2].
  destruct (Str.is_empty (Str.rstrip s) && Str.is_space d); [reflexivity|].
  cbn [Spec.has_char]. now rewrite H1, IH.
Qed.

(** *** Removing the fences *)

(** Where there is no backquote no fence matches, and the text is
    copied. *)
Lemma re_sub_fence_copies (f pre rest : string) :
  Spec.has_char "`"%char pre = false ->
  Str.re_sub_fence_go (String "`"%char f) O (pre +++ rest)
  = pre +++ Str.re_sub_fence_go (String "`"%char f) O rest.
Proof.
  induction pre as [|c pre IH]; [reflexivity|].
  cbn [Spec.has_char]. intros H. apply orb_false_elim in H.
  destruct H as [Hc Hpre].
  change (String c pre +++ rest) with (String c (pre +++ rest)).
  cbn [Str.re_sub_fence_go]. unfold Str.fence_match.
  cbn [Str.strip_prefix]. rewrite Ascii.eqb_sym in Hc. rewrite Hc.
  rewrite IH by exact Hpre. reflexivity.
Qed.

Lemma re_sub_fence_plain (f s : string) :
  Spec.has_char "`"%char s = false ->
  Str.re_sub_fence (String "`"%char f) s = s.
Proof.
  intros H. unfold Str.re_sub_fence.
  assert (E : s = s +++ EmptyString).
  { clear. induction s as [|c s IH]; [reflexivity|].
    cbn. now rewrite <- IH. }
  rewrite E at 1. rewrite re_sub_fence_copies by exact H.
  cbn [Str.re_sub_fence_go]. now rewrite <- E.
Qed.

(** C5 (amended).  For every reply text and every behaviour of
    [json.loads], [_parse_json] returns a value and raises nothing.  The
    text is cleaned first, stripped and rid of its fences: a text without
    a backquote is only stripped, and a body between a [```json] line (or
    a [```] line) and a [```] line is what is left of the fenced text, so
    that a fenced JSON body is parsed as it stands.  The result is the
    mapping [json.loads] gives for the cleaned text, else the mapping it
    gives for the largest brace-delimited substring of the cleaned text,
    else the marker, whose [parse_error] is true and whose [raw] is the
    first 500 characters of the cleaned text, empty only when the cleaned
    text is; and it is a mapping whenever what [json.loads] returns on
    either text is one. *)
Theorem parse_json_amended (json_loads : string -> result pyval)
  (text : string) :
  let cleaned := clean text in
  let r := _parse_json json_loads text in
  (* the cleaning *)
  (Spec.has_char "`"%char text = false -> cleaned = Str.strip text)
  /\ (forall body,
        Str.strip text = Spec.fenced "json" body
        \/ Str.strip text = Spec.fenced EmptyString body ->
        Spec.has_char "`"%char body = false ->
        Spec.trimmed body = true ->
        cleaned = body)
  (* the three ways out *)
  /\ (forall d, json_loads cleaned = Ok (PDict d) -> r = PDict d)
  /\ (forall e m d,
        json_loads cleaned = Raise e ->
        Str.re_search_braces cleaned = Some m ->
        json_loads m = Ok (PDict d) ->
        r = PDict d)
  /\ (forall e,
        json_loads cleaned = Raise e ->
        (forall m, Str.re_search_braces cleaned = Some m ->
                   exists e', json_loads m = Raise e') ->
        r = PDict [("raw", PStr (Str.take 500 cleaned));
                   ("parse_error", PBool true)])
  (* the excerpt *)
  /\ (String.length (Str.take 500 cleaned) <= 500)%nat
  /\ (Str.take 500 cleaned = EmptyString <-> cleaned = EmptyString)
  (* the substring tried is the largest one between braces *)
  /\ (forall m, Str.re_search_braces cleaned = Some m ->
        exists pre body post,
          cleaned = pre +++ m +++ post
          /\ m = String "{"%char (body +++ "}")
          /\ Spec.has_char "{"%char pre = false
          /\ Spec.has_char "}"%char post = false)
  (* a mapping, whenever what was parsed is one *)
  /\ ((forall v, json_loads cleaned = Ok v -> is_dict v = true) ->
      (forall m v, Str.re_search_braces cleaned = Some m ->
                   json_loads m = Ok v -> is_dict v = true) ->
      is_dict r = true).
Proof.
  intros cleaned r.
  split.
  { intros H. subst cleaned. unfold clean.
    assert (H1 : Spec.has_char "`"%char (Str.strip text) = false)
      by (unfold Str.strip; apply rstrip_keeps, lstrip_keeps, H).
    rewrite !re_sub_fence_plain by (rewrite ?re_sub_fence_plain; exact H1).
    apply strip_trimmed, strip_is_trimmed. }
  split.
  { intros body Hfence Hbody Htrim. subst cleaned. unfold clean.
    unfold Str.re_sub_fence.
    destruct Hfence as [-> | ->].
    - change (Str.re_sub_fence_go "```json" 0 (Spec.fenced "json" body))
        with (Str.re_sub_fence_go "```json" 0
                (body +++ (Str.nl +++ "```"))).
      rewrite (re_sub_fence_copies "``json" body (Str.nl +++ "```") Hbody).
      change (Str.re_sub_fence_go "```json" 0 (Str.nl +++ "```"))
        with (Str.nl +++ "```").
      rewrite (re_sub_fence_copies "``" body (Str.nl +++ "```") Hbody).
      change (Str.re_sub_fence_go "```" 0 (Str.nl +++ "```")) with Str.nl.
      now apply strip_newline.
    - change (Str.re_sub_fence_go "```json" 0
                (Spec.fenced EmptyString body))
        with ("```" +++ Str.nl
              +++ Str.re_sub_fence_go "```json" 0
                    (body +++ (Str.nl +++ "```"))).
      rewrite (re_sub_fence_copies "``json" body (Str.nl +++ "```") Hbody).
      change (Str.re_sub_fence_go "```json" 0 (Str.nl +++ "```"))
        with (Str.nl +++ "```").
      change (Str.re_sub_fence_go "```" 0
                ("```" +++ Str.nl +++ (body +++ (Str.nl +++ "```"))))
        with (Str.re_sub_fence_go "```" 0 (body +++ (Str.nl +++ "```"))).
      rewrite (re_sub_fence_copies "``" body (Str.nl +++ "```") Hbody).
      change (Str.re_sub_fence_go "```" 0 (Str.nl +++ "```")) with Str.nl.
      now apply strip_newline. }
  assert (Hcases :
            r = PDict [("raw", PStr (Str.take 500 cleaned));
                       ("parse_error", PBool true)]
                /\ (exists e, json_loads cleaned = Raise e)
                /\ (forall m, Str.re_search_braces cleaned = Some m ->
                              exists e', json_loads m = Raise e')
            \/ json_loads cleaned = Ok r
            \/ exists e m,
                 json_loads cleaned = Raise e
                 /\ Str.re_search_braces cleaned = Some m
                 /\ json_loads m = Ok r).
  { subst r. unfold _parse_json. fold cleaned.
    destruct (json_loads cleaned) as [v|e] eqn:E1; [now right; left|].
    destruct (Str.re_search_braces cleaned) as [m|] eqn:E2.
    - destruct (json_loads m) as [v|e'] eqn:E3.
      + right. right. exists e, m. auto.
      + left. split; [reflexivity|]. split; [eauto|].
        intros m' Hm'. injection Hm' as <-. eauto.
    - left. split; [reflexivity|]. split; [eauto|]. discriminate. }
  split.
  { intros d Hd.
    destruct Hcases as [(_ & (e & He) & _)|[H|(e & m & He & _)]];
      congruence. }
  split.
  { intros e m d He Hm Hd.
    destruct Hcases as [(_ & _ & Hno)|[H|(e' & m' & _ & Hm' & Hr)]].
    - destruct (Hno m Hm) as (e' & He'). congruence.
    - congruence.
    - congruence. }
  split.
  { intros e He Hno.
    destruct Hcases as [(Hr & _)|[H|(e' & m' & _ & Hm' & Hr)]].
    - exact Hr.
    - congruence.
    - destruct (Hno m' Hm') as (e'' & He''). congruence. }
  split; [apply take_length|]. split; [apply take_empty|].
  split; [intros m; apply re_search_braces_largest|].
  intros H1 H2.
  destruct Hcases as [(-> & _)|[H|(e & m & _ & Hm & Hr)]].
  - reflexivity.
  - now apply H1.
  - now apply (H2 m).
Qed.

(** The fenced reply of the specification: cleaned, it is the object
    between the fences, and that is parsed as it stands. *)
Lemma parse_json_amended_witness :
  clean Spec.fenced_reply = "{" +++ Str.dq +++ "a" +++ Str.dq +++ ":1}"
  /\ Json.loads (clean Spec.fenced_reply) = Ok (PDict [("a", PInt 1)])
  /\ _parse_json Json.loads Spec.fenced_reply = PDict [("a", PInt 1)].
Proof.
  destruct (parse_json_amended Json.loads Spec.fenced_reply)
    as (_ & Hfence & Hdirect & _).
  assert (E : clean Spec.fenced_reply
              = "{" +++ Str.dq +++ "a" +++ Str.dq +++ ":1}").
  { apply Hfence; [left|..]; reflexivity. }
  split; [exact E|].
  assert (L : Json.loads (clean Spec.fenced_reply)
              = Ok (PDict [("a", PInt 1)]))
    by (rewrite E; vm_compute; reflexivity).
  split; [exact L|]. now apply Hdirect.
Defined.

(** C5 as stated fails twice: a reply that is a JSON array comes back as
    a list, not a mapping; and on an empty reply the excerpt of the marker
    is empty. *)
Lemma parse_json_list_and_empty_excerpt :
  _parse_json Json.loads "[1]" = PList [PInt 1]
  /\ _parse_json Json.loads EmptyString
     = PDict [("raw", PStr EmptyString); ("parse_error", PBool true)].
Proof. split; vm_compute; reflexivity. Qed.

End Normalizer.

(** ** The critic fallback chain *)

Section CriticChain.

Import Debate.

Variable json_loads : string -> result pyval.

Lemma chat_critic_unfold (key : string) (p : provider) (reply : http_reply)
  (a m : string) (c : Z) :
  chat_critic json_loads key p reply a m c =
    if Spec.has_key key
    then (Spec.ok_or_none (chat_critic_try json_loads reply a m c), [p])
    else (None, []).
Proof.
  unfold chat_critic, Spec.has_key, Spec.ok_or_none.
  destruct (Str.is_empty key); reflexivity.
Qed.

(** Reading the message of the first choice off a body. *)
Lemma chat_content_reads (body : pyval) :
  Spec.ok_some (chat_content body) = Spec.message_content body.
Proof.
  unfold chat_content, Spec.message_content, getitem_str.
  destruct body as [| | | | |l|d]; try reflexivity.
  destruct (lookup d "choices") as [choices|]; [|reflexivity].
  cbn [bind].
  destruct choices as [| | | |[|c s]|[|first rest]|d']; try reflexivity.
  cbn [getitem_0 bind].
  destruct first as [| | | | |l|f]; try reflexivity.
  destruct (lookup f "message") as [message|]; [|reflexivity].
  cbn [bind].
  destruct message as [| | | | |l|m]; try reflexivity.
  destruct (lookup m "content"); reflexivity.
Qed.

(** What the [try] block of a chat-completions critic returns is decided
    by the reply alone: a result when the reply carries a text that the
    normalizer turns into a mapping. *)
Lemma chat_critic_try_accepts (reply : http_reply) (a m : string) (c : Z) :
  Spec.ok_or_none (chat_critic_try json_loads reply a m c)
  = Spec.chat_attempt json_loads reply a m c.
Proof.
  unfold chat_critic_try, Spec.chat_attempt, Spec.reply_text.
  destruct reply as [e|status_code [body|e]]; [reflexivity| |].
  - destruct (status_code =? 200); [|reflexivity]. cbn [bind].
    rewrite <- chat_content_reads.
    destruct (chat_content body) as [content|e]; [|reflexivity].
    cbn [bind Spec.ok_some].
    destruct content; try reflexivity.
    unfold Spec.normalized, Spec.critic_stage, get.
    destruct (_parse_json json_loads s); reflexivity.
  - destruct (status_code =? 200); reflexivity.
Qed.

Lemma flash_try_accepts (w : world) :
  Spec.ok_some (flash_try json_loads (flash_reply w))
  = Spec.flash_attempt json_loads w.
Proof.
  unfold flash_try, Spec.flash_attempt, Spec.normalized, Spec.critic_stage,
    get.
  destruct (flash_reply w) as [text|e]; [|reflexivity]. cbn [bind].
  destruct (_parse_json json_loads text); reflexivity.
Qed.

Lemma flash_try_fails (w : world) :
  Spec.raised (flash_try json_loads (flash_reply w))
  = Spec.flash_failure json_loads w.
Proof.
  unfold flash_try, Spec.flash_failure, Spec.normalized, get.
  destruct (flash_reply w) as [text|e]; [|reflexivity]. cbn [bind].
  destruct (_parse_json json_loads text); reflexivity.
Qed.

(** A text [json.loads] takes neither whole nor between its braces comes
    out of the normalizer as the marker. *)
Lemma parse_json_unparsed (text : string) :
  Spec.parses json_loads text = false ->
  _parse_json json_loads text = parse_error_marker (clean text).
Proof.
  unfold Spec.parses, _parse_json. intros H.
  apply orb_false_elim in H. destruct H as [H1 H2].
  destruct (json_loads (clean text)); [discriminate|].
  destruct (Str.re_search_braces (clean text)) as [m|]; [|reflexivity].
  destruct (json_loads m); [discriminate|reflexivity].
Qed.

(** The code of round 2 is the chain of the specification over the fixed
    priority list, followed by the synthesized default when the list is
    exhausted. *)
Lemma critic_chain_refines (w : world) :
  critic_chain json_loads w =
    let '(r, calls) :=
      Spec.fallback_chain (Spec.critic_candidates json_loads w) in
    (match r with
     | Some st => st
     | None =>
         Spec.synthesized_default (Spec.flash_failure json_loads w)
     end, calls).
Proof.
  unfold critic_chain, run_critic_gpt4o, run_critic_groq, run_critic_together,
    run_critic_gemini_fallback, Spec.critic_candidates.
  rewrite !chat_critic_unfold, !chat_critic_try_accepts.
  cbn [Spec.fallback_chain Spec.configured Spec.attempt Spec.who].
  rewrite <- flash_try_accepts, <- flash_try_fails.
  unfold Spec.gpt4o_attempt, Spec.groq_attempt, Spec.together_attempt,
    Spec.has_key.
  destruct (Str.is_empty (OPENAI_API_KEY (settings w)));
    destruct (Str.is_empty (GROQ_API_KEY (settings w)));
    destruct (Str.is_empty (TOGETHER_API_KEY (settings w)));
    cbn [negb];
    repeat match goal with
      | |- context [Spec.chat_attempt ?j ?r ?a ?m ?c] =>
          destruct (Spec.chat_attempt j r a m c)
      end;
    destruct (flash_try json_loads (flash_reply w));
    reflexivity.
Qed.

(** The providers a chain invokes are candidates of its list, in the order
    of the list. *)
Lemma fallback_chain_in_order (cs : list Spec.candidate) :
  exists keep : list bool,
    List.length keep = List.length cs
    /\ snd (Spec.fallback_chain cs)
       = map (fun kc => Spec.who (snd kc))
             (filter fst (combine keep cs)).
Proof.
  induction cs as [|c cs (keep & Hlen & IH)]; simpl.
  - exists []. auto.
  - destruct (Spec.configured c).
    + destruct (Spec.attempt c).
      * exists (true :: repeat false (List.length cs)). simpl.
        rewrite repeat_length. split; [reflexivity|]. f_equal.
        clear. induction cs; simpl; auto.
      * destruct (Spec.fallback_chain cs) as [r calls]. simpl in *.
        exists (true :: keep). simpl. split; [lia|]. now f_equal.
    + exists (false :: keep). simpl. split; [lia|]. exact IH.
Qed.

(** An unconfigured candidate is never invoked. *)
Lemma fallback_chain_skips (cs : list Spec.candidate) (p : provider) :
  In p (snd (Spec.fallback_chain cs)) ->
  exists c, In c cs /\ Spec.who c = p /\ Spec.configured c = true.
Proof.
  induction cs as [|c cs IH]; simpl; [tauto|].
  destruct (Spec.configured c) eqn:Ec.
  - destruct (Spec.attempt c).
    + simpl. intros [<-|[]]. exists c. auto.
    + destruct (Spec.fallback_chain cs) as [r calls]. simpl in *.
      intros [<-|H]; [exists c; auto|].
      destruct (IH H) as (c' & ? & ? & ?). exists c'. auto.
  - intros H. destruct (IH H) as (c' & ? & ? & ?). exists c'. auto.
Qed.

(** Once a candidate succeeds, the rest of the list is not looked at. *)
Lemma fallback_chain_stops (before after : list Spec.candidate)
  (c : Spec.candidate) (st : stage) :
  Forall Spec.unavailable before ->
  Spec.configured c = true -> Spec.attempt c = Some st ->
  Spec.fallback_chain (before ++ c :: after)
  = (Some st,
     map Spec.who (filter Spec.configured before) ++ [Spec.who c]).
Proof.
  intros Hb Hc Ha. induction Hb as [|b before Hu Hb IH]; simpl.
  - rewrite Hc, Ha. reflexivity.
  - rewrite IH. destruct (Spec.configured b) eqn:Eb; [|reflexivity].
    destruct Hu as [Hu|Hu]; [congruence|]. rewrite Hu. reflexivity.
Qed.

(** C3 (amended).  The critic stage invokes its candidates in the fixed
    order GPT-4o Mini, Groq LLaMA, Together Mixtral, Gemini Flash; a
    candidate without a credential is skipped and not invoked; the first
    candidate that is accepted ends the chain, and no later one is invoked.
    A chat-completions candidate is accepted when its request comes back
    with status 200 and a message text that the normalizer turns into a
    mapping, be that mapping what [json.loads] read or the parse-failure
    marker; its confidence is the [confidence_score] of the mapping, or
    the candidate's default.  A request that raises, a status other than
    200 and a body that is not JSON are failures.  In particular, when
    GPT-4o Mini and Groq fail and Together is accepted, the chain returns
    Together's result and Gemini Flash is never invoked. *)
Theorem critic_chain_order (w : world) :
  (* the code is the chain of the specification on the fixed list *)
  (map Spec.who (Spec.critic_candidates json_loads w)
   = [GPT4oMini; GroqLlama; TogetherMixtral; GeminiFlash]
   /\ critic_chain json_loads w =
        let '(r, calls) :=
          Spec.fallback_chain (Spec.critic_candidates json_loads w) in
        (match r with
         | Some st => st
         | None =>
             Spec.synthesized_default (Spec.flash_failure json_loads w)
         end, calls))
  (* the calls follow the order of the list *)
  /\ (exists keep : list bool,
        List.length keep = 4%nat
        /\ snd (critic_chain json_loads w)
           = map (fun kc => snd kc)
               (filter fst
                  (combine keep
                     [GPT4oMini; GroqLlama; TogetherMixtral; GeminiFlash])))
  (* a candidate without a credential is not invoked *)
  /\ (forall c,
        In c (Spec.critic_candidates json_loads w) ->
        Spec.configured c = false ->
        ~ In (Spec.who c) (snd (critic_chain json_loads w)))
  (* the first candidate accepted ends the chain *)
  /\ (forall before c after st,
        Spec.critic_candidates json_loads w = before ++ c :: after ->
        Forall Spec.unavailable before ->
        Spec.configured c = true ->
        Spec.attempt c = Some st ->
        critic_chain json_loads w
        = (st, map Spec.who (filter Spec.configured before) ++ [Spec.who c]))
  (* what is accepted: a text the normalizer turns into a mapping *)
  /\ (forall reply a m c text d,
        Spec.reply_text reply = Some text ->
        _parse_json json_loads text = PDict d ->
        Spec.chat_attempt json_loads reply a m c
        = Some (Spec.critic_stage a m c d))
  (* the marker of a text that does not parse is accepted too *)
  /\ (forall reply a m c text,
        Spec.reply_text reply = Some text ->
        Spec.parses json_loads text = false ->
        Spec.chat_attempt json_loads reply a m c
        = Some (Spec.critic_stage a m c
                  [("raw", PStr (Str.take 500 (clean text)));
                   ("parse_error", PBool true)]))
  (* what fails *)
  /\ (forall a m c,
        (forall e, Spec.chat_attempt json_loads (HttpRaises e) a m c = None)
        /\ (forall status_code body,
              status_code <> 200 ->
              Spec.chat_attempt json_loads (HttpResponse status_code body)
                a m c = None)
        /\ (forall status_code e,
              Spec.chat_attempt json_loads
                (HttpResponse status_code (Raise e)) a m c = None))
  (* A fails, B fails, C succeeds: C's result, D not invoked *)
  /\ (forall st,
        Spec.has_key (OPENAI_API_KEY (settings w)) = true ->
        Spec.has_key (GROQ_API_KEY (settings w)) = true ->
        Spec.has_key (TOGETHER_API_KEY (settings w)) = true ->
        Spec.gpt4o_attempt json_loads w = None ->
        Spec.groq_attempt json_loads w = None ->
        Spec.together_attempt json_loads w = Some st ->
        critic_chain json_loads w
        = (st, [GPT4oMini; GroqLlama; TogetherMixtral])
        /\ ~ In GeminiFlash (snd (critic_chain json_loads w))).
Proof.
  split; [split; [reflexivity | apply critic_chain_refines]|].
  assert (Hsnd : snd (critic_chain json_loads w)
                 = snd (Spec.fallback_chain
                          (Spec.critic_candidates json_loads w))).
  { rewrite critic_chain_refines.
    destruct (Spec.fallback_chain _) as [r calls]. reflexivity. }
  split; [|split; [|split; [|split; [|split; [|split]]]]].
  - rewrite Hsnd.
    destruct (fallback_chain_in_order (Spec.critic_candidates json_loads w))
      as (keep & Hlen & E).
    exists keep. split; [exact Hlen|]. rewrite E.
    destruct keep as [|k1 [|k2 [|k3 [|k4 [|? ?]]]]]; try discriminate.
    destruct k1, k2, k3, k4; reflexivity.
  - intros c Hin Hc Hcall. rewrite Hsnd in Hcall.
    apply fallback_chain_skips in Hcall.
    destruct Hcall as (c' & Hin' & Hwho & Hc').
    assert (c' = c); [|congruence].
    simpl in Hin, Hin'.
    repeat match goal with
      | H : _ \/ _ |- _ => destruct H
      | H : False |- _ => destruct H
      end; subst; try reflexivity; discriminate.
  - intros before c after st Hlist Hb Hc Ha.
    rewrite critic_chain_refines, Hlist.
    rewrite (fallback_chain_stops before after c st Hb Hc Ha). reflexivity.
  - intros reply a m c text d Ht Hd.
    unfold Spec.chat_attempt, Spec.normalized. rewrite Ht, Hd. reflexivity.
  - intros reply a m c text Ht Hp.
    unfold Spec.chat_attempt, Spec.normalized.
    rewrite Ht, (parse_json_unparsed text Hp). reflexivity.
  - intros a m c. split; [reflexivity|]. split.
    + intros status_code body Hs. unfold Spec.chat_attempt, Spec.reply_text.
      destruct body; [|reflexivity].
      apply Z.eqb_neq in Hs. rewrite Hs. reflexivity.
    + reflexivity.
  - intros st K1 K2 K3 A1 A2 A3.
    assert (E : critic_chain json_loads w
                = (st, [GPT4oMini; GroqLlama; TogetherMixtral])).
    { rewrite critic_chain_refines. unfold Spec.critic_candidates.
      cbn [Spec.fallback_chain Spec.configured Spec.attempt Spec.who].
      rewrite K1, K2, K3, A1, A2, A3. reflexivity. }
    split; [exact E|]. rewrite E. simpl.
    intros [H|[H|[H|[]]]]; discriminate.
Qed.

(** Behind unavailable candidates, a configured last candidate decides. *)
Lemma fallback_chain_last (before : list Spec.candidate)
  (c : Spec.candidate) :
  Forall Spec.unavailable before ->
  Spec.configured c = true ->
  Spec.fallback_chain (before ++ [c])
  = (Spec.attempt c,
     map Spec.who (filter Spec.configured before) ++ [Spec.who c]).
Proof.
  intros Hb Hc. induction Hb as [|b before Hu Hb IH]; simpl.
  - rewrite Hc. destruct (Spec.attempt c); reflexivity.
  - rewrite IH. destruct (Spec.configured b) eqn:Eb; [|reflexivity].
    destruct Hu as [Hu|Hu]; [congruence|]. rewrite Hu. reflexivity.
Qed.

(** When the chat-completions candidates are unavailable the chain ends
    with Gemini Flash. *)
Lemma critic_chain_last (w : world) :
  Forall Spec.unavailable (firstn 3 (Spec.critic_candidates json_loads w)) ->
  critic_chain json_loads w
  = (match Spec.flash_attempt json_loads w with
     | Some st => st
     | None => Spec.synthesized_default (Spec.flash_failure json_loads w)
     end,
     map Spec.who
       (filter Spec.configured
          (firstn 3 (Spec.critic_candidates json_loads w)))
     ++ [GeminiFlash]).
Proof.
  intros Hdown. rewrite critic_chain_refines.
  change (Spec.critic_candidates json_loads w)
    with (firstn 3 (Spec.critic_candidates json_loads w)
          ++ [ {| Spec.who := GeminiFlash; Spec.configured := true;
                  Spec.attempt := Spec.flash_attempt json_loads w |} ])
    at 1.
  rewrite (fallback_chain_last _
             {| Spec.who := GeminiFlash; Spec.configured := true;
                Spec.attempt := Spec.flash_attempt json_loads w |}
             Hdown eq_refl).
  reflexivity.
Qed.

End CriticChain.

(** A fails, B fails, C succeeds, D unused, run on the reference reading
    of the library. *)
Lemma critic_chain_order_witness :
  Debate.critic_chain Json.loads Spec.world_third_succeeds
  = ({| Debate.agent := "Together Mixtral-8x7B";
        Debate.model := "mixtral-8x7b-instruct";
        Debate.type_ := "critic";
        Debate.output := PDict [];
        Debate.final_hindi_text := None;
        Debate.confidence := PInt 74;
        Debate.error := None |},
     [Debate.GPT4oMini; Debate.GroqLlama; Debate.TogetherMixtral])
  /\ ~ In Debate.GeminiFlash
       (snd (Debate.critic_chain Json.loads Spec.world_third_succeeds)).
Proof.
  destruct (critic_chain_order Json.loads Spec.world_third_succeeds)
    as (_ & _ & _ & _ & _ & _ & _ & H).
  apply H; vm_compute; reflexivity.
Defined.

(** C3 as stated fails: GPT-4o Mini answers a text that [json.loads] takes
    neither whole nor between braces, so nothing was normalized; Groq,
    next in the list and configured, answers an object.  The chain returns
    GPT-4o Mini's result, the parse-failure marker, and never invokes
    Groq. *)
Lemma critic_chain_accepts_unparsed :
  Spec.reply_text (Debate.gpt4o_reply Spec.world_unparsed_first)
  = Some "no json here"
  /\ Spec.parses Json.loads "no json here" = false
  /\ Spec.has_key
       (Debate.GROQ_API_KEY (Debate.settings Spec.world_unparsed_first))
     = true
  /\ (exists text,
        Spec.reply_text (Debate.groq_reply Spec.world_unparsed_first)
        = Some text
        /\ Spec.parses Json.loads text = true
        /\ Debate._parse_json Json.loads text
           = PDict [("risk_level", PStr "low")])
  /\ Debate.critic_chain Json.loads Spec.world_unparsed_first
     = ({| Debate.agent := "GPT-4o Mini";
           Debate.model := "gpt-4o-mini";
           Debate.type_ := "critic";
           Debate.output :=
             PDict [("raw", PStr "no json here");
                    ("parse_error", PBool true)];
           Debate.final_hindi_text := None;
           Debate.confidence := PInt 80;
           Debate.error := None |},
        [Debate.GPT4oMini]).
Proof.
  split; [reflexivity|]. split; [vm_compute; reflexivity|].
  split; [reflexivity|]. split.
  - eexists. split; [reflexivity|]. split; vm_compute; reflexivity.
  - vm_compute. reflexivity.
Qed.

(** ** The exhausted chain *)

Section ExhaustedChain.

Import Debate.

Variable json_loads : string -> result pyval.

(** C4 (amended).  When every chat-completions candidate of the critic
    chain is unconfigured or fails, the chain returns a result under the
    fixed identity "Gemini Flash (Critic Fallback)", and no exception
    leaves it.  When the Gemini Flash call fails as well, the result is
    the synthesized default: confidence 55, the fixed default critique as
    output, the failure recorded.  When Gemini Flash answers a text that
    the normalizer turns into a mapping, that mapping is the output, be it
    the parse-failure marker, and the confidence is its
    [confidence_score], or 70: on a text that does not parse, the marker
    with confidence 70. *)
Theorem critic_chain_exhausted (w : world)
  (Hdown : Forall Spec.unavailable
             (firstn 3 (Spec.critic_candidates json_loads w))) :
  let c := fst (critic_chain json_loads w) in
  (* the fixed identity *)
  agent c = "Gemini Flash (Critic Fallback)"
  /\ model c = "gemini-1.5-flash"
  /\ type_ c = "critic"
  /\ snd (critic_chain json_loads w)
     = map Spec.who
         (filter Spec.configured
            (firstn 3 (Spec.critic_candidates json_loads w)))
       ++ [GeminiFlash]
  (* Gemini Flash fails as well: the synthesized default *)
  /\ (Spec.flash_attempt json_loads w = None ->
      c = Spec.synthesized_default (Spec.flash_failure json_loads w)
      /\ confidence c = PInt 55
      /\ output c = default_critique
      /\ get (output c) "confidence_score" PNone = Ok (PInt 55)
      /\ error c <> None)
  /\ (forall e, flash_reply w = Raise e ->
      c = Spec.synthesized_default (Some e))
  (* Gemini Flash answers: what the normalizer made of its text *)
  /\ (forall text d,
        flash_reply w = Ok text ->
        _parse_json json_loads text = PDict d ->
        output c = PDict d
        /\ confidence c = dict_get d "confidence_score" (PInt 70)
        /\ error c = None)
  /\ (forall text,
        flash_reply w = Ok text ->
        Spec.parses json_loads text = false ->
        output c = PDict [("raw", PStr (Str.take 500 (clean text)));
                          ("parse_error", PBool true)]
        /\ confidence c = PInt 70
        /\ error c = None).
Proof.
  intros c.
  pose proof (critic_chain_last json_loads w Hdown) as Hlast.
  assert (E : c = match Spec.flash_attempt json_loads w with
                  | Some st => st
                  | None =>
                      Spec.synthesized_default
                        (Spec.flash_failure json_loads w)
                  end)
    by (subst c; rewrite Hlast; reflexivity).
  assert (Hparsed : forall text d,
             flash_reply w = Ok text ->
             _parse_json json_loads text = PDict d ->
             output c = PDict d
             /\ confidence c = dict_get d "confidence_score" (PInt 70)
             /\ error c = None).
  { intros text d Ht Hd. rewrite E.
    unfold Spec.flash_attempt, Spec.normalized. rewrite Ht, Hd.
    repeat split. }
  assert (Hid : agent c = "Gemini Flash (Critic Fallback)"
                /\ model c = "gemini-1.5-flash" /\ type_ c = "critic").
  { rewrite E. unfold Spec.flash_attempt.
    destruct (flash_reply w) as [text|e]; [|repeat split].
    destruct (Spec.normalized json_loads text); repeat split. }
  destruct Hid as (Hagent & Hmodel & Htype).
  split; [exact Hagent|]. split; [exact Hmodel|]. split; [exact Htype|].
  split; [rewrite Hlast; reflexivity|].
  split; [|split; [|split]].
  - intros Hnone. rewrite Hnone in E. rewrite E.
    repeat split.
    unfold Spec.flash_failure. unfold Spec.flash_attempt in Hnone.
    destruct (flash_reply w) as [text|e]; [|discriminate].
    destruct (Spec.normalized json_loads text); discriminate.
  - intros e He. rewrite E. unfold Spec.flash_attempt, Spec.flash_failure.
    rewrite He. reflexivity.
  - exact Hparsed.
  - intros text Ht Hp.
    apply (Hparsed text _ Ht (parse_json_unparsed json_loads text Hp)).
Qed.

End ExhaustedChain.

(** No credential configured and Gemini Flash raising: the synthesized
    default, on the reference reading of the library. *)
Lemma critic_chain_exhausted_witness :
  Forall Spec.unavailable
    (firstn 3 (Spec.critic_candidates Json.loads Spec.world_all_down))
  /\ Spec.flash_attempt Json.loads Spec.world_all_down = None
  /\ Debate.agent (fst (Debate.critic_chain Json.loads Spec.world_all_down))
     = "Gemini Flash (Critic Fallback)"
  /\ Debate.confidence
       (fst (Debate.critic_chain Json.loads Spec.world_all_down))
     = PInt 55.
Proof.
  assert (H : Forall Spec.unavailable
                (firstn 3
                   (Spec.critic_candidates Json.loads Spec.world_all_down))).
  { repeat constructor; left; reflexivity. }
  split; [exact H|]. split; [reflexivity|].
  destruct (critic_chain_exhausted Json.loads Spec.world_all_down H)
    as (Ha & _ & _ & _ & Hd & _).
  split; [exact Ha|]. apply Hd. reflexivity.
Defined.

(** C4 as stated fails: no credential is configured and Gemini Flash
    answers a text that [json.loads] takes neither whole nor between
    braces, so every candidate of the chain is unconfigured or without a
    normalized result; the chain returns the parse-failure marker with
    confidence 70, not the synthesized default with confidence 55. *)
Lemma critic_chain_marker_confidence_70 :
  Forall (fun c => Spec.configured c = false)
    (firstn 3 (Spec.critic_candidates Json.loads Spec.world_unparsed_flash))
  /\ Debate.flash_reply Spec.world_unparsed_flash = Ok "no json here"
  /\ Spec.parses Json.loads "no json here" = false
  /\ Debate.critic_chain Json.loads Spec.world_unparsed_flash
     = ({| Debate.agent := "Gemini Flash (Critic Fallback)";
           Debate.model := "gemini-1.5-flash";
           Debate.type_ := "critic";
           Debate.output :=
             PDict [("raw", PStr "no json here");
                    ("parse_error", PBool true)];
           Debate.final_hindi_text := None;
           Debate.confidence := PInt 70;
           Debate.error := None |},
        [Debate.GeminiFlash])
  /\ Debate.confidence
       (fst (Debate.critic_chain Json.loads Spec.world_unparsed_flash))
     <> PInt 55.
Proof.
  split; [repeat constructor|]. split; [reflexivity|].
  split; [vm_compute; reflexivity|].
  split; [vm_compute; reflexivity|].
  vm_compute. discriminate.
Qed.

(** ** The debate orchestrator *)

Section Orchestrator.

Import Debate.

Variable json_loads : string -> result pyval.
Variable json_dumps : pyval -> string.
Variable py_str : pyval -> string.

Lemma as_strs_map (l : list pyval) (ss : list string) :
  Spec.as_strs l = Some ss -> l = map PStr ss.
Proof.
  revert ss. induction l as [|x l IH]; intros ss H; simpl in H.
  - injection H as <-. reflexivity.
  - destruct x; try discriminate.
    destruct (Spec.as_strs l) as [r|]; [|discriminate].
    injection H as <-. simpl. f_equal. now apply IH.
Qed.

Lemma mapM_dicts {B} (f : pyval -> result B) (g : dict -> B) :
  (forall d, f (PDict d) = Ok (g d)) ->
  forall ps, mapM f (map PDict ps) = Ok (map g ps).
Proof.
  intros Hf ps. induction ps as [|p ps IH]; simpl; [reflexivity|].
  rewrite Hf, IH. reflexivity.
Qed.

Lemma products_value (vision_data : dict) :
  Spec.detected_products vision_data <> None ->
  exists ps,
    dict_get vision_data "products" (PList []) = PList (map PDict ps).
Proof.
  unfold Spec.detected_products, dict_get. intros H.
  destruct (lookup vision_data "products") as [v|].
  - destruct v; try congruence.
    destruct (Spec.as_dicts l) as [ps|] eqn:E; [|congruence].
    exists ps. f_equal. now apply as_dicts_map.
  - exists []. reflexivity.
Qed.

Lemma urgent_value (vision_data : dict) :
  Spec.urgent_items vision_data <> None ->
  exists ss,
    dict_get vision_data "top_restock_urgent" (PList [])
    = PList (map PStr ss).
Proof.
  unfold Spec.urgent_items, dict_get. intros H.
  destruct (lookup vision_data "top_restock_urgent") as [v|].
  - destruct v; try congruence.
    destruct (Spec.as_strs l) as [ss|] eqn:E; [|congruence].
    exists ss. f_equal. now apply as_strs_map.
  - exists []. reflexivity.
Qed.

(** The local summarizer returns on a vision result of the documented
    shape, and what it returns is a mapping. *)
Lemma fallback_presenter_returns (vision_data : dict) :
  Spec.detected_products vision_data <> None ->
  exists d, _fallback_presenter vision_data = Ok (PDict d).
Proof.
  intros H. destruct (products_value _ H) as (ps & E).
  unfold _fallback_presenter. rewrite E. cbn [iter Py.bind].
  rewrite (filterM_dicts is_urgent
             (fun d => in_strs (dict_get d "stock_level" PNone)
                         ["critical"; "low"])) by reflexivity.
  cbn [Py.bind]. rewrite firstn_map.
  rewrite (mapM_dicts restock_entry
             (fun d =>
                PDict [("product",
                         dict_get d "name"
                           (dict_get d "product_name" (PStr "Unknown")));
                       ("current_stock", dict_get d "stock_level" PNone);
                       ("units_to_order", PInt 6);
                       ("reason", PStr "Low stock");
                       ("estimated_cost_inr", PInt 150)])) by reflexivity.
  cbn [Py.bind]. eauto.
Qed.

Lemma join_strs (sep : string) (ss : list string) :
  join sep (PList (map PStr ss)) = Ok (Str.join sep ss).
Proof.
  unfold join. cbn [iter Py.bind].
  assert (E : all_strs (map PStr ss) = Ok ss).
  { induction ss as [|s ss IH]; simpl; [reflexivity|]. now rewrite IH. }
  rewrite E. reflexivity.
Qed.

Lemma first3_joined (vision_data : dict) :
  Spec.urgent_items vision_data <> None ->
  exists joined,
    (first3 <- slice_to
                 (dict_get vision_data "top_restock_urgent" (PList [])) 3 ;;
     join ", " first3) = Ok joined.
Proof.
  intros H. destruct (urgent_value _ H) as (ss & E). rewrite E.
  cbn [slice_to Py.bind]. rewrite firstn_map, join_strs. eauto.
Qed.

(** The template of the decider returns on a vision result of the
    documented shape; its [final_hindi_text] is a non-empty string. *)
Lemma fallback_decider_returns (vision_data store_info : dict) :
  Spec.urgent_items vision_data <> None ->
  exists d s,
    _fallback_decider py_str vision_data store_info = Ok (PDict d)
    /\ dict_get d "final_hindi_text" (PStr EmptyString)
       = PStr (String "N"%char s).
Proof.
  intros H. destruct (first3_joined _ H) as (joined & E).
  unfold _fallback_decider.
  destruct (slice_to _ 3) as [first3|]; [|discriminate].
  cbn [Py.bind] in *. rewrite E. cbn [Py.bind].
  eexists. eexists. split; [reflexivity|]. reflexivity.
Qed.

(** The last-resort sentence is a non-empty string. *)
Lemma last_resort_returns (vision_data store_info : dict) :
  Spec.urgent_items vision_data <> None ->
  exists s,
    last_resort py_str vision_data store_info = Ok (PStr (String "N"%char s)).
Proof.
  intros H. unfold last_resort.
  destruct (truthy (dict_get vision_data "top_restock_urgent" (PList []))).
  - destruct (first3_joined _ H) as (joined & E). rewrite E.
    cbn [Py.bind]. eexists. reflexivity.
  - cbn [Py.bind]. eexists. reflexivity.
Qed.

Lemma run_presenter_returns (w : world) (vision_data store_info : dict) :
  Spec.detected_products vision_data <> None ->
  exists p, run_presenter json_loads w vision_data store_info = Ok p.
Proof.
  intros H. unfold run_presenter.
  destruct (presenter_try json_loads (presenter_reply w)); [eauto|].
  destruct (fallback_presenter_returns _ H) as (d & ->).
  cbn [Py.bind]. eauto.
Qed.

(** The decider stage returns, and the text it reports is the
    [final_hindi_text] entry of its output. *)
Lemma run_decider_returns (w : world) (vision_data store_info : dict) :
  Spec.urgent_items vision_data <> None ->
  exists d hindi,
    run_decider json_loads py_str w vision_data store_info = Ok d
    /\ final_hindi_text d = Some hindi
    /\ get (output d) "final_hindi_text" (PStr EmptyString) = Ok hindi.
Proof.
  intros H. unfold run_decider, decider_try.
  destruct (decider_reply w) as [text|e]; cbn [Py.bind].
  - destruct (get (_parse_json json_loads text) "final_hindi_text" _)
      as [hindi|e] eqn:E1; cbn [Py.bind].
    + destruct (get (_parse_json json_loads text) "confidence_score" _)
        as [c|e] eqn:E2; cbn [Py.bind].
      * eexists. exists hindi. split; [reflexivity|]. split; [reflexivity|].
        exact E1.
      * destruct (_parse_json json_loads text); discriminate.
    + destruct (fallback_decider_returns _ store_info H) as (d & s & -> & Hd).
      cbn [Py.bind get]. rewrite Hd.
      eexists. eexists. split; [reflexivity|]. split; [reflexivity|].
      cbn [output get]. now rewrite Hd.
  - destruct (fallback_decider_returns _ store_info H) as (d & s & -> & Hd).
    cbn [Py.bind get]. rewrite Hd.
    eexists. eexists. split; [reflexivity|]. split; [reflexivity|].
    cbn [output get]. now rewrite Hd.
Qed.

(** What [run_ai_debate] returns on a vision result of the documented
    shape. *)
Lemma run_ai_debate_returns (w : world) (vision_data store_info : dict)
  (pincode : pyval) :
  Spec.detected_products vision_data <> None ->
  Spec.urgent_items vision_data <> None ->
  exists r,
    run_ai_debate json_loads json_dumps py_str w vision_data store_info
      pincode = Ok r
    /\ map round_type (rounds r) = ["presenter"; "critic"; "decider"]
    /\ truthy (final_recommendation r) = true
    /\ ((exists s, final_recommendation r = PStr s /\ s <> EmptyString)
        \/ (is_str (final_recommendation r) = false
            /\ get (decider r) "final_hindi_text" (PStr EmptyString)
               = Ok (final_recommendation r))).
Proof.
  intros Hp Hu. unfold run_ai_debate.
  destruct (run_presenter_returns w _ store_info Hp) as (p & ->).
  destruct (run_decider_returns w _ store_info Hu)
    as (d & hindi & -> & Hh & Hget).
  cbn [Py.bind]. rewrite Hh.
  assert (E : (if negb (truthy hindi) && is_dict (output d)
               then get (output d) "final_hindi_text" (PStr EmptyString)
               else Ok hindi) = Ok hindi).
  { destruct (negb (truthy hindi) && is_dict (output d)); auto. }
  rewrite E. cbn [Py.bind].
  destruct (truthy hindi) eqn:Et; cbn [negb Py.bind].
  - eexists. split; [reflexivity|]. cbn [rounds final_recommendation decider].
    split; [reflexivity|]. split; [exact Et|].
    destruct hindi; try (right; split; [reflexivity|exact Hget]).
    left. exists s. split; [reflexivity|]. destruct s; [discriminate|].
    discriminate.
  - destruct (last_resort_returns _ store_info Hu) as (s & ->).
    cbn [Py.bind]. eexists. split; [reflexivity|].
    cbn [rounds final_recommendation decider].
    split; [reflexivity|]. split; [reflexivity|].
    left. eexists. split; [reflexivity|]. discriminate.
Qed.




End Orchestrator.



(** ** Registration *)

Section Registration.

Import Models.

(** What the validator of the postal code accepts: six digits, or six
    digits and one newline. *)
Lemma validate_pincode_accepts (v : string) :
  validate_pincode v = Ok v
  <-> exists d, Spec.six_digits d = true /\ (v = d \/ v = d +++ Str.nl).
Proof.
  unfold validate_pincode. split.
  - destruct (match_digits_dollar 6 v) eqn:E; [|discriminate]. intros _.
    destruct v as [|c1 [|c2 [|c3 [|c4 [|c5 [|c6 rest]]]]]];
      try (simpl in E; rewrite ?andb_false_r in E; discriminate).
    simpl in E. repeat (apply andb_prop in E; destruct E as [? E]).
    exists (String c1 (String c2 (String c3 (String c4 (String c5
             (String c6 EmptyString)))))).
    split.
    + unfold Spec.six_digits.
      cbn [String.length list_ascii_of_string forallb Nat.eqb andb].
      repeat match goal with
        | H : Str.is_digit _ = true |- _ => rewrite H; clear H
        end.
      reflexivity.
    + unfold at_dollar in E. apply orb_prop in E. destruct E as [E|E].
      * destruct rest; [|discriminate]. now left.
      * apply String.eqb_eq in E. subst rest. now right.
  - intros (d & Hd & Hv). unfold Spec.six_digits in Hd.
    apply andb_prop in Hd. destruct Hd as [Hl Hd].
    apply Nat.eqb_eq in Hl.
    destruct d as [|c1 [|c2 [|c3 [|c4 [|c5 [|c6 [|? ?]]]]]]];
      try (simpl in Hl; discriminate).
    simpl in Hd. repeat (apply andb_prop in Hd; destruct Hd as [? Hd]).
    assert (E : match_digits_dollar 6 v = true).
    { destruct Hv as [->| ->];
        cbn [match_digits_dollar String.append];
        repeat match goal with
          | H : Str.is_digit _ = true |- _ => rewrite H; clear H
          end;
        reflexivity. }
    now rewrite E.
Qed.

(** A body the validator of the postal code refuses is answered 422 and
    the store is not touched: no call, no row. *)
Lemma post_register_refuses (body : StoreRegister) (e : Db.env)
  (st : Db.state) (x : exn) :
  validate_pincode (pincode body) = Raise x ->
  post_register body e st
  = (Raise (HTTPException 422 "validation error"), st).
Proof.
  intros H. unfold post_register, validate.
  destruct (validate_phone (whatsapp_number body)); cbn [Py.bind];
    [rewrite H|]; reflexivity.
Qed.

(** A nine-digit postal code is refused before any row is written. *)
Lemma post_register_nine_digits (e : Db.env) (st : Db.state) :
  post_register (Spec.registration "110001234") e st
  = (Raise (HTTPException 422 "validation error"), st).
Proof. now apply post_register_refuses with (x := ValueError). Qed.

(** C10 fails on the code at the postal code "123456" followed by a
    newline: it is not six digits, yet [validate_pincode] accepts it and
    the registration writes a [stores] row and a [neighborhood_demand] row
    carrying it. *)
Theorem post_register_accepts_trailing_newline :
  Spec.six_digits ("123456" +++ Str.nl) = false
  /\ validate_pincode ("123456" +++ Str.nl) = Ok ("123456" +++ Str.nl)
  /\ exists response st',
       post_register (Spec.registration ("123456" +++ Str.nl))
         Spec.quiet Db.empty = (Ok response, st')
       /\ map (fun row => dict_get row "pincode" PNone) (Db.table st' "stores")
          = [PStr ("123456" +++ Str.nl)]
       /\ map (fun row => dict_get row "pincode" PNone)
              (Db.table st' "neighborhood_demand")
          = [PStr ("123456" +++ Str.nl)].
Proof.
  split; [reflexivity|]. split; [reflexivity|].
  eexists. eexists. split; [vm_compute; reflexivity|].
  split; vm_compute; reflexivity.
Qed.

End Registration.

(** ** The fast-ack dispatcher *)

Section FastAck.

Import Webhook.

Lemma rows_of_set_rows_other (ts : list (string * list dict))
  (name other : string) (rows : list dict) :
  other <> name ->
  Db.rows_of (Db.set_rows ts name rows) other = Db.rows_of ts other.
Proof.
  intros Hne. induction ts as [|[n r] ts IH]; simpl.
  - destruct (String.eqb name other) eqn:E; [|reflexivity].
    apply String.eqb_eq in E. congruence.
  - destruct (String.eqb n name) eqn:E; simpl.
    + apply String.eqb_eq in E. subst n.
      destruct (String.eqb name other) eqn:E'; [|reflexivity].
      apply String.eqb_eq in E'. congruence.
    + destruct (String.eqb n other); [reflexivity|exact IH].
Qed.



End FastAck.



(** ** The status of a scan *)

(** C2 fails on the code.  Every step of [scan_shelf] up to the update that
    marks the scan completed succeeds, then the update of the store's
    counters (the ninth call to the store) fails: the handler of the
    enclosing [try] marks the same scan failed.  The statuses written to the
    scan are processing, completed, failed, and the row ends as failed.
    And when the vision analysis fails and the write of "failed" fails too,
    the scan stays in processing: it reaches neither final status. *)
Theorem scan_completed_then_failed :
  (exists x st',
      Spec.scan_shelf_ref (Spec.services_with Spec.voice_up) "store-1"
        (Spec.failing_at 8) Spec.one_store = (Raise x, st')
      /\ Db.history "scans" "status" (PInt 1) (Db.journal st')
         = [PStr "processing"; PStr "completed"; PStr "failed"]
      /\ map (fun row => dict_get row "status" PNone) (Db.table st' "scans")
         = [PStr "failed"])
  /\ (exists x st',
         Spec.scan_shelf_ref Spec.services_blind "store-1"
           (Spec.failing_at 2) Spec.one_store = (Raise x, st')
         /\ Db.history "scans" "status" (PInt 1) (Db.journal st')
            = [PStr "processing"]
         /\ map (fun row => dict_get row "status" PNone)
                (Db.table st' "scans")
            = [PStr "processing"]).
Proof.
  split.
  - eexists. eexists. split; [vm_compute; reflexivity|].
    split; vm_compute; reflexivity.
  - eexists. eexists. split; [vm_compute; reflexivity|].
    split; vm_compute; reflexivity.
Qed.

(** ** Frames: what a computation leaves untouched in the store *)

Section Frames.

Variable name : string.

Lemma leaves_refl (st : Db.state) : Spec.leaves name st st.
Proof.
  split; [reflexivity|]. exists []. split; [now rewrite app_nil_r|constructor].
Qed.

Lemma leaves_trans (st1 st2 st3 : Db.state) :
  Spec.leaves name st1 st2 -> Spec.leaves name st2 st3 ->
  Spec.leaves name st1 st3.
Proof.
  intros (T1 & j1 & J1 & F1) (T2 & j2 & J2 & F2). split; [congruence|].
  exists (j1 ++ j2). split.
  - rewrite J2, J1, app_assoc. reflexivity.
  - apply Forall_app. auto.
Qed.

Lemma leaves_same (st st' : Db.state) :
  Db.tables st' = Db.tables st -> Db.journal st' = Db.journal st ->
  Spec.leaves name st st'.
Proof.
  intros T J. split; [unfold Db.table; now rewrite T|].
  exists []. split; [now rewrite app_nil_r|constructor].
Qed.

Lemma frames_ret {A} (a : A) : Spec.frames name (Db.ret a).
Proof. intros e st r st' H. injection H as _ <-. apply leaves_refl. Qed.

Lemma frames_raise {A} (x : exn) : Spec.frames name (@Db.raise A x).
Proof. intros e st r st' H. injection H as _ <-. apply leaves_refl. Qed.

Lemma frames_lift {A} (m : result A) : Spec.frames name (Db.lift m).
Proof. intros e st r st' H. injection H as _ <-. apply leaves_refl. Qed.

Lemma frames_utcnow : Spec.frames name Db.utcnow.
Proof.
  intros e st r st' H. injection H as _ <-. now apply leaves_same.
Qed.

Lemma frames_bind {A B} (m : Db.M A) (k : A -> Db.M B) :
  Spec.frames name m -> (forall a, Spec.frames name (k a)) ->
  Spec.frames name (Db.bind m k).
Proof.
  intros Hm Hk e st r st' H. unfold Db.bind in H.
  destruct (m e st) as [[a|x] st1] eqn:E.
  - eapply leaves_trans; [eapply Hm; exact E | eapply Hk; exact H].
  - injection H as _ <-. eapply Hm; exact E.
Qed.

Lemma frames_try_except {A} (m : Db.M A) (h : exn -> Db.M A) :
  Spec.frames name m -> (forall x, Spec.frames name (h x)) ->
  Spec.frames name (Db.try_except m h).
Proof.
  intros Hm Hh e st r st' H. unfold Db.try_except in H.
  destruct (m e st) as [[a|x] st1] eqn:E.
  - injection H as _ <-. eapply Hm; exact E.
  - eapply leaves_trans; [eapply Hm; exact E | eapply Hh; exact H].
Qed.

(** A call that only reads. *)
Lemma frames_read {A} (f : Db.state -> A) :
  Spec.frames name (Db.call (fun st => (f st, st))).
Proof.
  intros e st r st' H. unfold Db.call in H.
  destruct (Db.fault e (Db.calls st)); injection H as _ <-;
    now apply leaves_same.
Qed.

Lemma frames_select (t : string) (filters : dict) :
  Spec.frames name (Db.select t filters).
Proof. apply (frames_read (fun st => filter _ (Db.table st t))). Qed.

Lemma frames_select_latest (t : string) (filters : dict) (c : string)
  (n : nat) : Spec.frames name (Db.select_latest t filters c n).
Proof.
  apply (frames_read
           (fun st => firstn n (Db.sort_desc c (filter _ (Db.table st t))))).
Qed.

Lemma frames_select_limit (t : string) (filters : dict) (n : nat) :
  Spec.frames name (Db.select_limit t filters n).
Proof.
  apply (frames_read (fun st => firstn n (filter _ (Db.table st t)))).
Qed.

Lemma frames_insert_many (t : string) (rows : list dict) :
  t <> name -> Spec.frames name (Db.insert_many t rows).
Proof.
  intros Hne e st r st' H. unfold Db.insert_many, Db.call in H.
  destruct (Db.fault e (Db.calls st)); injection H as _ <-.
  - now apply leaves_same.
  - split.
    + unfold Db.table. cbn [Db.tables].
      apply rows_of_set_rows_other. congruence.
    + cbn [Db.journal]. eexists. split; [reflexivity|].
      apply Forall_map. apply Forall_forall. intros; assumption.
Qed.

Lemma frames_insert (t : string) (row : dict) :
  t <> name -> Spec.frames name (Db.insert t row).
Proof.
  intros Hne. unfold Db.insert. apply frames_bind.
  - now apply frames_insert_many.
  - intros [|r rs]; [apply frames_raise | apply frames_ret].
Qed.

Lemma frames_update (t : string) (changes filters : dict) :
  t <> name -> Spec.frames name (Db.update t changes filters).
Proof.
  intros Hne e st r st' H. unfold Db.update, Db.call in H.
  destruct (Db.fault e (Db.calls st)); injection H as _ <-.
  - now apply leaves_same.
  - split.
    + unfold Db.table. cbn [Db.tables].
      apply rows_of_set_rows_other. congruence.
    + cbn [Db.journal]. eexists. split; [reflexivity|].
      apply Forall_map. apply Forall_forall. intros; assumption.
Qed.

Lemma frames_for_each {A} (body : A -> Db.M unit) (l : list A) :
  (forall x, Spec.frames name (body x)) ->
  Spec.frames name (Main.for_each body l).
Proof.
  intros Hb. induction l as [|x l IH]; simpl.
  - apply frames_ret.
  - apply frames_bind; [apply Hb | intros _; exact IH].
Qed.

Lemma frames_map_db {A B} (f : A -> Db.M B) (l : list A) :
  (forall x, Spec.frames name (f x)) ->
  Spec.frames name (Main.map_db f l).
Proof.
  intros Hf. induction l as [|x l IH]; simpl.
  - apply frames_ret.
  - apply frames_bind; [apply Hf|]. intros y.
    apply frames_bind; [exact IH|]. intros ys. apply frames_ret.
Qed.

(** Writes to other tables add nothing to the history of a column of
    [name]. *)
Lemma history_other (column : string) (id : pyval) (j : list Db.write) :
  Forall (fun w => Spec.write_table w <> name) j ->
  Db.history name column id j = [].
Proof.
  induction 1 as [|w j Hw _ IH]; simpl; [reflexivity|].
  assert (E : Db.written name column id w = None).
  { destruct w as [t row|t rid changes]; simpl in *;
      (destruct (String.eqb t name) eqn:E;
       [apply String.eqb_eq in E; contradiction | reflexivity]). }
  now rewrite E.
Qed.

Lemma history_app (column : string) (id : pyval) (j1 j2 : list Db.write) :
  Db.history name column id (j1 ++ j2)
  = Db.history name column id j1 ++ Db.history name column id j2.
Proof.
  induction j1 as [|w j1 IH]; simpl; [reflexivity|].
  destruct (Db.written name column id w); simpl; now rewrite IH.
Qed.

End Frames.

Lemma rows_of_set_rows_same (ts : list (string * list dict)) (name : string)
  (rows : list dict) :
  Db.rows_of (Db.set_rows ts name rows) name = rows.
Proof.
  induction ts as [|[n r] ts IH]; simpl.
  - now rewrite String.eqb_refl.
  - destruct (String.eqb n name) eqn:E; simpl; rewrite E; auto.
Qed.

(** ** The voice stage *)

Section VoiceStage.

Import Main.

Variable json_loads : string -> result pyval.
Variable json_dumps : pyval -> string.
Variable py_str : pyval -> string.
Variable set_list : list pyval -> result (list pyval).

Lemma bind_ok {A B} (m : Db.M A) (k : A -> Db.M B) (e : Db.env)
  (st st1 : Db.state) (a : A) :
  m e st = (Ok a, st1) -> Db.bind m k e st = k a e st1.
Proof. intros H. unfold Db.bind. now rewrite H. Qed.

Lemma bind_lift_ok {A B} (a : A) (k : A -> Db.M B) (e : Db.env)
  (st : Db.state) :
  Db.bind (Db.lift (Ok a)) k e st = k a e st.
Proof. reflexivity. Qed.

Lemma bind_utcnow {B} (k : string -> Db.M B) (e : Db.env) (st : Db.state) :
  Db.bind Db.utcnow k e st
  = k (Db.clock e (Db.ticks st)) e
      {| Db.tables := Db.tables st; Db.next_id := Db.next_id st;
         Db.calls := Db.calls st; Db.ticks := S (Db.ticks st);
         Db.journal := Db.journal st |}.
Proof. reflexivity. Qed.

(** The three reasons of the claim make the [try] block raise, whatever
    the text. *)
Lemma synthesis_fails_raises (w : Voice.world) (text : pyval) :
  Spec.synthesis_fails w -> exists x, Voice.voice_try w text = Raise x.
Proof.
  unfold Voice.voice_try.
  intros [(x & ->) | [(code & content & -> & Hcode) | (x & Hup)]].
  - eauto.
  - destruct (code =? 200) eqn:E; [apply Z.eqb_eq in E; contradiction|].
    cbn [negb]. eauto.
  - destruct (Voice.tts w) as [x'|code content]; [eauto|].
    destruct (negb (code =? 200)); [eauto|].
    destruct text; try (eexists; reflexivity).
    destruct (Voice.estimate_seconds _); cbn [Py.bind].
    + rewrite Hup. cbn [Py.bind]. eauto.
    + eauto.
Qed.

(** [generate_hindi_voice] absorbs the failure: it returns the empty
    reference and the duration 0. *)
Lemma generate_hindi_voice_absorbs (w : Voice.world) (text : pyval) :
  Spec.synthesis_fails w ->
  Voice.generate_hindi_voice w text = (EmptyString, 0).
Proof.
  intros H. destruct (synthesis_fails_raises w text H) as (x & E).
  unfold Voice.generate_hindi_voice. now rewrite E.
Qed.

(** The voice stage of [scan_shelf] never raises and leaves the store as
    it is. *)
Lemma voice_stage_total (sv : services) (text : pyval) (e : Db.env)
  (st : Db.state) :
  voice_stage sv text e st
  = (Ok (Voice.generate_hindi_voice (voice_world sv) text), st).
Proof. reflexivity. Qed.

Lemma insert_quiet (t : string) (row : dict) (e : Db.env) (st : Db.state) :
  Spec.never_fails e ->
  Db.insert t row e st
  = (Ok (("id", PInt (Db.next_id st)) :: row),
     {| Db.tables :=
          Db.set_rows (Db.tables st) t
            (Db.table st t ++ [("id", PInt (Db.next_id st)) :: row]);
        Db.next_id := Db.next_id st + 1;
        Db.calls := S (Db.calls st);
        Db.ticks := Db.ticks st;
        Db.journal :=
          Db.journal st
          ++ [Db.Inserted t (("id", PInt (Db.next_id st)) :: row)] |}).
Proof.
  intros Hq. unfold Db.insert, Db.insert_many, Db.bind, Db.call.
  rewrite Hq. reflexivity.
Qed.

Lemma update_quiet (t : string) (changes filters : dict) (e : Db.env)
  (st : Db.state) :
  Spec.never_fails e ->
  Db.update t changes filters e st
  = (Ok tt,
     {| Db.tables :=
          Db.set_rows (Db.tables st) t
            (map (fun r => if Db.matches filters r
                           then Db.apply_changes changes r else r)
                 (Db.table st t));
        Db.next_id := Db.next_id st;
        Db.calls := S (Db.calls st);
        Db.ticks := Db.ticks st;
        Db.journal :=
          Db.journal st
          ++ map (fun r => Db.Updated t (Db.row_id r) changes)
                 (filter (Db.matches filters) (Db.table st t)) |}).
Proof.
  intros Hq. unfold Db.update, Db.call. rewrite Hq. reflexivity.
Qed.

Lemma select_quiet (t : string) (filters : dict) (e : Db.env)
  (st : Db.state) :
  Spec.never_fails e ->
  Db.select t filters e st
  = (Ok (filter (Db.matches filters) (Db.table st t)),
     {| Db.tables := Db.tables st; Db.next_id := Db.next_id st;
        Db.calls := S (Db.calls st); Db.ticks := Db.ticks st;
        Db.journal := Db.journal st |}).
Proof.
  intros Hq. unfold Db.select, Db.call. rewrite Hq. reflexivity.
Qed.

Lemma insert_many_runs (t : string) (rows : list dict) (e : Db.env)
  (st : Db.state) :
  Spec.never_fails e ->
  is_ok (fst (Db.insert_many t rows e st)) = true.
Proof.
  intros Hq. unfold Db.insert_many, Db.call. rewrite Hq. reflexivity.
Qed.

Lemma map_db_runs {A B} (f : A -> Db.M B) (l : list A) (e : Db.env) :
  (forall x st, In x l -> is_ok (fst (f x e st)) = true) ->
  forall st, is_ok (fst (map_db f l e st)) = true.
Proof.
  induction l as [|x l IH]; intros Hf st; simpl.
  - reflexivity.
  - pose proof (Hf x st (or_introl eq_refl)) as H1.
    destruct (f x e st) as [[y|?] st1] eqn:E1; [|discriminate].
    rewrite (bind_ok _ _ _ _ _ _ E1).
    pose proof (IH (fun x st H => Hf x st (or_intror H)) st1) as H2.
    destruct (map_db f l e st1) as [[ys|?] st2] eqn:E2; [|discriminate].
    rewrite (bind_ok _ _ _ _ _ _ E2). reflexivity.
Qed.

(** On a vision result of the documented shape and a store that answers,
    saving the detected products succeeds. *)
Lemma save_products_runs (scan : pyval) (store_id : string)
  (vision_data : dict) (e : Db.env) (st : Db.state) :
  Spec.never_fails e ->
  Spec.detected_products vision_data <> None ->
  fst (save_products scan store_id vision_data e st) = Ok tt.
Proof.
  intros Hq Hshape. unfold save_products, Spec.detected_products in *.
  unfold dict_get, getitem_str.
  destruct (lookup vision_data "products") as [v|]; [|reflexivity].
  destruct v; try congruence.
  destruct (Spec.as_dicts l) as [ps|] eqn:E; [|congruence].
  apply as_dicts_map in E. subst l.
  destruct (truthy (PList (map PDict ps))); [|reflexivity].
  cbv beta iota. rewrite bind_lift_ok. cbn [iter]. rewrite bind_lift_ok.
  pose proof (map_db_runs (product_row scan store_id) (map PDict ps) e) as H1.
  specialize (H1 (fun x st0 Hin =>
                    match proj1 (in_map_iff _ _ _) Hin with
                    | ex_intro _ d (conj Hd _) =>
                        eq_ind (PDict d)
                          (fun x => is_ok (fst (product_row scan store_id x e
                                                  st0)) = true)
                          eq_refl x Hd
                    end) st).
  destruct (map_db _ _ e st) as [[rows|?] st1] eqn:E1; [|discriminate].
  rewrite (bind_ok _ _ _ _ _ _ E1).
  pose proof (insert_many_runs "detected_products" rows e st1 Hq) as H2.
  destruct (Db.insert_many _ _ e st1) as [[data|?] st2] eqn:E2;
    [|discriminate].
  rewrite (bind_ok _ _ _ _ _ _ E2). reflexivity.
Qed.

Lemma save_rounds_runs (scan : pyval) (rs : list Debate.round) (e : Db.env) :
  Spec.never_fails e ->
  forall st, fst (for_each (save_round scan) rs e st) = Ok tt.
Proof.
  intros Hq. induction rs as [|r rs IH]; intros st; simpl.
  - reflexivity.
  - unfold save_round at 1.
    unfold Db.bind at 1. unfold Db.bind at 1. unfold Db.bind at 1.
    cbn [Db.utcnow]. rewrite insert_quiet by exact Hq.
    cbn [Db.ret]. apply IH.
Qed.

(** A best-effort step returns, whatever happens inside it. *)
Lemma swallowed_runs (m : Db.M unit) (e : Db.env) (st : Db.state) :
  fst (Db.try_except m (fun _ => Db.ret tt) e st) = Ok tt.
Proof.
  unfold Db.try_except. destruct (m e st) as [[[]|x] st1]; reflexivity.
Qed.

End VoiceStage.

(** ** A scan whose speech synthesis fails *)

Section VoiceFailure.

Import Main.

Variable json_loads : string -> result pyval.
Variable json_dumps : pyval -> string.
Variable py_str : pyval -> string.
Variable set_list : list pyval -> result (list pyval).

Ltac frame :=
  repeat first
    [ apply frames_ret | apply frames_raise | apply frames_lift
    | apply frames_utcnow | apply frames_select | apply frames_select_latest
    | apply frames_select_limit
    | apply frames_insert; discriminate
    | apply frames_insert_many; discriminate
    | apply frames_update; discriminate
    | apply frames_bind; [|intros ?]
    | apply frames_try_except; [|intros ?]
    | match goal with
      | |- Spec.frames _ (match ?x with _ => _ end) => destruct x
      end ].

Lemma frames_save_products (scan : pyval) (store_id : string)
  (vision_data : dict) :
  Spec.frames "scans" (save_products scan store_id vision_data).
Proof.
  unfold save_products.
  destruct (truthy _); [|apply frames_ret].
  frame. apply frames_map_db. intros p. unfold product_row. frame.
Qed.

Lemma frames_save_rounds (scan : pyval) (rs : list Debate.round) :
  Spec.frames "scans" (for_each (save_round scan) rs).
Proof. apply frames_for_each. intros r. unfold save_round. frame. Qed.

Lemma frames_update_neighborhood (store_id : string) (pincode : pyval)
  (vision_data : dict) :
  Spec.frames "scans"
    (_update_neighborhood json_loads json_dumps set_list store_id pincode
       vision_data).
Proof. unfold _update_neighborhood. frame. Qed.

Lemma swallowed_runs_neighborhood (store_id : string) (pincode : pyval)
  (vision_data : dict) (e : Db.env) (s : Db.state) :
  fst (_update_neighborhood json_loads json_dumps set_list store_id pincode
         vision_data e s) = Ok tt.
Proof. apply swallowed_runs. Qed.

(** A framed step keeps what is known of the [scans] table and extends
    the journal with writes to other tables. *)
Lemma framed_step {A} (m : Db.M A) (e : Db.env) (s s' : Db.state)
  (r : result A) (rows : list dict) (j0 j : list Db.write) :
  Spec.frames "scans" m -> m e s = (r, s') ->
  Db.table s "scans" = rows -> Db.journal s = j0 ++ j ->
  exists j',
    Db.table s' "scans" = rows
    /\ Db.journal s' = j0 ++ (j ++ j')
    /\ Forall (fun w => Spec.write_table w <> "scans") j'.
Proof.
  intros Hm E T J. destruct (Hm _ _ _ _ E) as (T' & j' & J' & F).
  exists j'. split; [congruence|]. split; [|exact F].
  rewrite J', J, app_assoc. reflexivity.
Qed.

Lemma filter_none {A} (f : A -> bool) (l : list A) :
  (forall x, In x l -> f x = false) -> filter f l = [].
Proof.
  induction l as [|x l IH]; intros H; simpl; [reflexivity|].
  rewrite (H x (or_introl eq_refl)). apply IH. intros y Hy. apply H. now right.
Qed.

(** Steps 1 to 3 on a store that answers and knows the shop. *)
Lemma open_scan_runs (sv : services) (store_id : string) (e : Db.env)
  (st : Db.state) (store : dict) (others : list dict) (url : string) :
  Spec.never_fails e ->
  filter (Db.matches [("id", PStr store_id)]) (Db.table st "stores")
  = store :: others ->
  upload_image sv = Ok url ->
  exists row st1,
    open_scan sv store_id e st = (Ok (store, url, PInt (Db.next_id st)), st1)
    /\ row = [("id", PInt (Db.next_id st)); ("store_id", PStr store_id);
              ("image_url", PStr url); ("status", PStr "processing");
              ("created_at", PStr (Db.clock e (Db.ticks st)))]
    /\ Db.table st1 "scans" = Db.table st "scans" ++ [row]
    /\ Db.journal st1 = Db.journal st ++ [Db.Inserted "scans" row].
Proof.
  intros Hq Hstore Hup. unfold open_scan.
  rewrite (bind_ok _ _ _ _ _ _ (select_quiet _ _ e st Hq)).
  rewrite Hstore, Hup, bind_lift_ok, bind_utcnow.
  erewrite bind_ok by (apply insert_quiet; exact Hq).
  cbn [Db.next_id Db.table Db.tables Db.ticks Db.journal getitem_str lookup
       String.eqb Ascii.eqb Bool.eqb].
  rewrite bind_lift_ok. cbn [Db.ret].
  eexists. eexists. split; [reflexivity|]. split; [reflexivity|].
  unfold Db.table. cbn [Db.tables Db.journal].
  split; [apply rows_of_set_rows_same | reflexivity].
Qed.

Lemma utcnow_runs (e : Db.env) (s : Db.state) :
  exists s', Db.utcnow e s = (Ok (Db.clock e (Db.ticks s)), s').
Proof. eexists. reflexivity. Qed.

Lemma insert_spec (t : string) (row : dict) (e : Db.env) (s : Db.state) :
  Spec.never_fails e ->
  exists row' s',
    Db.insert t row e s = (Ok row', s')
    /\ row' = ("id", PInt (Db.next_id s)) :: row
    /\ Db.journal s' = Db.journal s ++ [Db.Inserted t row'].
Proof.
  intros Hq. eexists. eexists. split; [now apply insert_quiet|].
  split; reflexivity.
Qed.

Lemma update_spec (t : string) (changes filters : dict) (e : Db.env)
  (s : Db.state) :
  Spec.never_fails e ->
  exists s',
    Db.update t changes filters e s = (Ok tt, s')
    /\ Db.table s' t
       = map (fun r => if Db.matches filters r
                       then Db.apply_changes changes r else r)
             (Db.table s t)
    /\ Db.journal s'
       = Db.journal s
         ++ map (fun r => Db.Updated t (Db.row_id r) changes)
                (filter (Db.matches filters) (Db.table s t)).
Proof.
  intros Hq. eexists. split; [now apply update_quiet|].
  unfold Db.table. cbn [Db.tables Db.journal].
  split; [apply rows_of_set_rows_same | reflexivity].
Qed.

(** Steps 4 to 9 when the speech synthesis fails and every other step
    succeeds. *)
Lemma run_scan_absorbs (sv : services) (store_id : string) (store : dict)
  (url : string) (n : Z) (e : Db.env) (s1 : Db.state) (old : list dict)
  (created : string) (vision_data : dict) (r : Debate.debate) (health : Z)
  (scans_after : pyval) :
  let row0 := [("id", PInt n); ("store_id", PStr store_id);
               ("image_url", PStr url); ("status", PStr "processing");
               ("created_at", PStr created)] in
  Spec.synthesis_fails (voice_world sv) ->
  Spec.never_fails e ->
  Db.table s1 "scans" = old ++ [row0] ->
  (forall row, In row old -> Db.matches [("id", PInt n)] row = false) ->
  analyze_shelf_image sv = Ok vision_data ->
  Spec.detected_products vision_data <> None ->
  Debate.run_ai_debate json_loads json_dumps py_str (debate_world sv)
    vision_data store (dict_get store "pincode" (PStr EmptyString)) = Ok r ->
  Health._calculate_health_score vision_data = Ok health ->
  add_one (dict_get store "total_scans" (PInt 0)) = Ok scans_after ->
  exists response s' j,
    run_scan json_loads json_dumps py_str set_list sv store_id store url
      (PInt n) e s1 = (Ok response, s')
    /\ scan_id response = PInt n
    /\ voice_note_url response = EmptyString
    /\ Db.journal s' = Db.journal s1 ++ j
    /\ Db.history "scans" "status" (PInt n) j = [PStr "completed"]
    /\ (exists note,
          In (Db.Inserted "voice_notes" note) j
          /\ lookup note "audio_url" = Some (PStr EmptyString)
          /\ lookup note "duration_seconds" = Some (PInt 0))
    /\ (exists row,
          In row (Db.table s' "scans")
          /\ Db.row_id row = PInt n
          /\ lookup row "status" = Some (PStr "completed")
          /\ lookup row "voice_note_url" = Some (PStr EmptyString)).
Proof.
  intros row0 Hfail Hq T1 Hfresh Hvision Hshape Hdebate Hhealth Hcount.
  remember (run_scan json_loads json_dumps py_str set_list sv store_id store
              url (PInt n) e s1) as out eqn:Eout.
  unfold run_scan in Eout.
  rewrite Hvision, bind_lift_ok in Eout.
  (* the detected products *)
  pose proof (save_products_runs (PInt n) store_id vision_data e s1 Hq Hshape)
    as R2.
  destruct (save_products (PInt n) store_id vision_data e s1)
    as [[[]|x2] s2] eqn:E2; [clear R2|discriminate].
  destruct (framed_step _ _ _ _ _ _ (Db.journal s1) []
              (frames_save_products _ _ _) E2 T1
              (eq_sym (app_nil_r _))) as (j2 & T2 & J2 & F2).
  rewrite (bind_ok _ _ _ _ _ _ E2), Hdebate, bind_lift_ok in Eout.
  clear E2.
  (* the debate rounds *)
  pose proof (save_rounds_runs (PInt n) (Debate.rounds r) e Hq s2) as R3.
  destruct (for_each (save_round (PInt n)) (Debate.rounds r) e s2)
    as [[[]|x3] s3] eqn:E3; [clear R3|discriminate].
  destruct (framed_step _ _ _ _ _ _ _ _
              (frames_save_rounds _ _) E3 T2 J2) as (j3 & T3 & J3 & F3).
  rewrite (bind_ok _ _ _ _ _ _ E3) in Eout. clear E3.
  (* the voice stage *)
  cbv zeta in Eout.
  rewrite (bind_ok _ _ _ _ _ _
             (voice_stage_total sv (Debate.final_recommendation r) e s3))
    in Eout.
  rewrite (generate_hindi_voice_absorbs _ _ Hfail) in Eout.
  cbv beta iota in Eout.
  destruct (utcnow_runs e s3) as (s4 & E4).
  destruct (framed_step _ _ _ _ _ _ _ _ (frames_utcnow _) E4 T3 J3)
    as (j4 & T4 & J4 & F4).
  rewrite (bind_ok _ _ _ _ _ _ E4) in Eout. clear E4.
  match type of Eout with
  | context [Db.insert "voice_notes" ?row] =>
      destruct (insert_spec "voice_notes" row e s4 Hq)
        as (note & s5 & E5 & Enote & J5)
  end.
  assert (T5 : Db.table s5 "scans" = old ++ [row0]).
  { destruct (frames_insert "scans" "voice_notes" _ ltac:(discriminate)
                _ _ _ _ E5) as (T & _). congruence. }
  rewrite (bind_ok _ _ _ _ _ _ E5) in Eout. clear E5.
  (* the health score and the completion *)
  rewrite Hhealth, bind_lift_ok in Eout.
  destruct (products_value _ Hshape) as (ps & Eps).
  rewrite Eps in Eout. cbn [len] in Eout.
  rewrite bind_lift_ok in Eout.
  destruct (utcnow_runs e s5) as (s6 & E6).
  destruct (frames_utcnow "scans" _ _ _ _ E6) as (T6 & j6 & J6 & F6).
  rewrite (bind_ok _ _ _ _ _ _ E6) in Eout. clear E6.
  match type of Eout with
  | context [Db.update "scans" ?changes ?filters] =>
      destruct (update_spec "scans" changes filters e s6 Hq)
        as (s7 & E7 & T7 & J7)
  end.
  rewrite (bind_ok _ _ _ _ _ _ E7) in Eout. clear E7.
  rewrite Hcount, bind_lift_ok in Eout.
  destruct (utcnow_runs e s7) as (s8 & E8).
  destruct (frames_utcnow "scans" _ _ _ _ E8) as (T8 & j8 & J8 & F8).
  rewrite (bind_ok _ _ _ _ _ _ E8) in Eout. clear E8.
  match type of Eout with
  | context [Db.update "stores" ?changes ?filters] =>
      destruct (update_spec "stores" changes filters e s8 Hq)
        as (s9 & E9 & _ & _);
      destruct (frames_update "scans" "stores" changes filters
                  ltac:(discriminate) _ _ _ _ E9) as (T9 & j9 & J9 & F9)
  end.
  rewrite (bind_ok _ _ _ _ _ _ E9) in Eout. clear E9.
  (* the neighborhood, best effort *)
  pose proof (swallowed_runs_neighborhood store_id
                (dict_get store "pincode" PNone) vision_data e s9) as R10.
  destruct (_update_neighborhood json_loads json_dumps set_list store_id
              (dict_get store "pincode" PNone) vision_data e s9)
    as [[[]|x10] s10] eqn:E10; [clear R10|discriminate].
  destruct (frames_update_neighborhood _ _ _ _ _ _ _ E10)
    as (T10 & j10 & J10 & F10).
  rewrite (bind_ok _ _ _ _ _ _ E10) in Eout. clear E10.
  cbn [Db.ret] in Eout. subst out.
  (* what the update of the scan row found *)
  assert (Hrow0 : Db.matches [("id", PInt n)] row0 = true).
  { subst row0. cbn. now rewrite Z.eqb_refl. }
  assert (Hhit : filter (Db.matches [("id", PInt n)]) (Db.table s6 "scans")
                 = [row0]).
  { rewrite T6, T5, filter_app, (filter_none _ old Hfresh).
    cbn [filter app]. now rewrite Hrow0. }
  rewrite Hhit in J7. cbn [map] in J7.
  eexists. exists s10. eexists.
  split; [reflexivity|]. split; [reflexivity|]. split; [reflexivity|].
  split; [|split; [|split]].
  - rewrite J10, J9, J8, J7, J6, J5, J4. rewrite <- !app_assoc.
    reflexivity.
  - rewrite !(history_app "scans"). 
    rewrite (history_other "scans" _ _ j2 F2),
      (history_other "scans" _ _ j3 F3), (history_other "scans" _ _ j4 F4),
      (history_other "scans" _ _ j6 F6), (history_other "scans" _ _ j8 F8),
      (history_other "scans" _ _ j9 F9), (history_other "scans" _ _ j10 F10).
    cbn. rewrite Z.eqb_refl. reflexivity.
  - exists note. split.
    + rewrite !in_app_iff. cbn [In]. auto 10.
    + subst note. split; reflexivity.
  - exists (Db.apply_changes
              [("status", PStr "completed");
               ("shelf_health_score", PInt health);
               ("products_detected",
                 PInt (Z.of_nat (List.length (map PDict ps))));
               ("critical_items",
                 dict_get vision_data "critical_count" (PInt 0));
               ("vision_summary",
                 PStr (json_dumps
                         (dict_get vision_data "summary" (PDict []))));
               ("final_recommendation", Debate.final_recommendation r);
               ("voice_note_url", PStr EmptyString);
               ("completed_at", PStr (Db.clock e (Db.ticks s5)))] row0).
    split.
    + rewrite T10, T9, T8, T7, T6, T5. apply in_map_iff. exists row0.
      rewrite Hrow0. split; [reflexivity|].
      apply in_app_iff. right. now left.
    + subst row0. repeat split.
Qed.

(** C7.  If the speech-synthesis stage fails (the provider raises, answers
    with a status other than 200, or the audio upload raises),
    [generate_hindi_voice] absorbs the failure and returns the empty
    reference with duration 0; and a scan all of whose other steps succeed
    (the shop is known, the store answers, the image upload, the vision
    analysis, the debate, the health score and the counter update return)
    is answered with an empty voice reference, records a voice note with
    the empty reference and duration 0, and has the statuses processing then
    completed written to it, never failed. *)
Theorem voice_failure_absorbed (sv : services) (store_id : string)
  (e : Db.env) (st : Db.state) (store : dict) (others : list dict)
  (url : string) (vision_data : dict) (r : Debate.debate) (health : Z)
  (scans_after : pyval)
  (Hfail : Spec.synthesis_fails (voice_world sv))
  (Hquiet : Spec.never_fails e)
  (Hstore : filter (Db.matches [("id", PStr store_id)])
                   (Db.table st "stores") = store :: others)
  (Hfresh : forall row, In row (Db.table st "scans") ->
                        Db.matches [("id", PInt (Db.next_id st))] row = false)
  (Hupload : upload_image sv = Ok url)
  (Hvision : analyze_shelf_image sv = Ok vision_data)
  (Hshape : Spec.detected_products vision_data <> None)
  (Hdebate : Debate.run_ai_debate json_loads json_dumps py_str
               (debate_world sv) vision_data store
               (dict_get store "pincode" (PStr EmptyString)) = Ok r)
  (Hhealth : Health._calculate_health_score vision_data = Ok health)
  (Hcount : add_one (dict_get store "total_scans" (PInt 0))
            = Ok scans_after) :
  (forall text,
      Voice.generate_hindi_voice (voice_world sv) text = (EmptyString, 0))
  /\ exists response st' j,
       scan_shelf json_loads json_dumps py_str set_list sv store_id e st
       = (Ok response, st')
       /\ scan_id response = PInt (Db.next_id st)
       /\ voice_note_url response = EmptyString
       /\ Db.journal st' = Db.journal st ++ j
       /\ Db.history "scans" "status" (scan_id response) j
          = [PStr "processing"; PStr "completed"]
       /\ (exists note,
             In (Db.Inserted "voice_notes" note) j
             /\ lookup note "audio_url" = Some (PStr EmptyString)
             /\ lookup note "duration_seconds" = Some (PInt 0))
       /\ (exists row,
             In row (Db.table st' "scans")
             /\ Db.row_id row = scan_id response
             /\ lookup row "status" = Some (PStr "completed")
             /\ lookup row "voice_note_url" = Some (PStr EmptyString)).
Proof.
  split; [intros text; now apply generate_hindi_voice_absorbs|].
  destruct (open_scan_runs sv store_id e st store others url Hquiet Hstore
              Hupload) as (row & st1 & E1 & Erow & T1 & J1).
  subst row.
  destruct (run_scan_absorbs sv store_id store url (Db.next_id st) e st1
              (Db.table st "scans") (Db.clock e (Db.ticks st)) vision_data r
              health scans_after Hfail Hquiet T1 Hfresh Hvision Hshape Hdebate
              Hhealth Hcount)
    as (response & st' & j & Erun & Hid & Hurl & J & Hhist & Hnote & Hrow).
  exists response, st'. eexists.
  split.
  { unfold scan_shelf. rewrite E1. unfold Db.try_except. now rewrite Erun. }
  split; [exact Hid|]. split; [exact Hurl|].
  split; [rewrite J, J1, <- app_assoc; reflexivity|].
  rewrite Hid. split; [|split].
  - rewrite (history_app "scans"), Hhist. cbn. now rewrite Z.eqb_refl.
  - destruct Hnote as (note & Hin & Ha & Hd). exists note.
    split; [apply in_app_iff; now right | auto].
  - exact Hrow.
Qed.

End VoiceFailure.

(** The synthesizer answers 503 and everything else works: the scan
    completes without a voice reference. *)
Lemma voice_failure_absorbed_witness :
  Spec.synthesis_fails Spec.voice_down
  /\ exists response st',
       Spec.scan_shelf_ref (Spec.services_with Spec.voice_down) "store-1"
         Spec.quiet Spec.one_store = (Ok response, st')
       /\ Main.voice_note_url response = EmptyString
       /\ Db.history "scans" "status" (Main.scan_id response) (Db.journal st')
          = [PStr "processing"; PStr "completed"].
Proof.
  assert (Hfail : Spec.synthesis_fails Spec.voice_down).
  { right. left. exists 503, "Service Unavailable".
    split; [reflexivity | discriminate]. }
  split; [exact Hfail|].
  destruct (Debate.run_ai_debate Json.loads Reference.dumps Reference.str_of
              Spec.world_all_down Spec.ten_products Spec.ramesh_row
              (PStr "110001")) as [r|x] eqn:Hdebate;
    [|vm_compute in Hdebate; discriminate].
  destruct (voice_failure_absorbed Json.loads Reference.dumps
              Reference.str_of Reference.set_list
              (Spec.services_with Spec.voice_down) "store-1" Spec.quiet
              Spec.one_store Spec.ramesh_row [] 
              "https://res.cloudinary.com/shelf.jpg" Spec.ten_products r 76
              (PInt 5))
    as (_ & response & st' & j & Hrun & Hid & Hurl & Hj & Hhist & _).
  - exact Hfail.
  - intros k. reflexivity.
  - reflexivity.
  - intros row [].
  - reflexivity.
  - reflexivity.
  - vm_compute. discriminate.
  - exact Hdebate.
  - vm_compute. reflexivity.
  - reflexivity.
  - exists response, st'. split; [exact Hrun|]. split; [exact Hurl|].
    rewrite Hj. exact Hhist.
Defined.

(** ** The neighborhood aggregator *)

Section Rollup.

Import Aggregation.

Variable json_dumps : pyval -> string.
Variable py_round : spec_float -> Z -> spec_float.

(** Items that can be hashed are counted. *)
Lemma count_items_runs (items : list pyval) :
  Forall (fun v => Hashable.check v = Ok tt) items ->
  forall acc, exists c, count_items acc items = Ok c.
Proof.
  induction 1 as [|v items Hv _ IH]; intros acc; cbn [count_items].
  - eauto.
  - rewrite Hv. cbn [Py.bind]. apply IH.
Qed.



(** A key written by [changes] reads as its last value there; any other
    key reads as before. *)
Lemma lookup_dict_set (d : dict) (k c : string) (v : pyval) :
  lookup (dict_set d k v) c
  = if String.eqb k c then Some v else lookup d c.
Proof.
  induction d as [|[k' v'] d IH]; simpl.
  - reflexivity.
  - destruct (String.eqb k' k) eqn:E; simpl.
    + apply String.eqb_eq in E. subst k'.
      destruct (String.eqb k c); reflexivity.
    + destruct (String.eqb k' c) eqn:E'; [|exact IH].
      destruct (String.eqb k c) eqn:E''; [|reflexivity].
      apply String.eqb_eq in E', E''. subst. now rewrite String.eqb_refl in E.
Qed.








Lemma matches_id_lookup (row row' : dict) (v : pyval) :
  lookup row' "id" = lookup row "id" ->
  Db.matches [("id", v)] row' = Db.matches [("id", v)] row.
Proof. intros H. unfold Db.matches. cbn [forallb fst snd]. now rewrite H. Qed.







End Rollup.



(** ** Phone numbers and postal codes *)

Section PhoneNumbers.

Import Models.

Lemma all_chars_app (p : ascii -> bool) (a b : string) :
  Shapes.all_chars p (a +++ b)
  = Shapes.all_chars p a && Shapes.all_chars p b.
Proof.
  unfold Shapes.all_chars. induction a as [|c a IH]; simpl; [reflexivity|].
  now rewrite IH, andb_assoc.
Qed.

Lemma filter_chars_all (p : ascii -> bool) (s : string) :
  Shapes.all_chars p (filter_chars p s) = true.
Proof.
  unfold Shapes.all_chars. induction s as [|c s IH]; simpl; [reflexivity|].
  destruct (p c) eqn:E; simpl; [now rewrite E|exact IH].
Qed.

Lemma filter_chars_id (p : ascii -> bool) (s : string) :
  Shapes.all_chars p s = true -> filter_chars p s = s.
Proof.
  unfold Shapes.all_chars. induction s as [|c s IH]; simpl; [reflexivity|].
  intros H. apply andb_prop in H. destruct H as [Hc Hs].
  now rewrite Hc, IH.
Qed.

Lemma filter_chars_app (p : ascii -> bool) (a b : string) :
  filter_chars p (a +++ b) = filter_chars p a +++ filter_chars p b.
Proof.
  induction a as [|c a IH]; simpl; [reflexivity|].
  destruct (p c); simpl; now rewrite IH.
Qed.

(** What [\d{n}$] matches: [n] digits, then the end or a last newline. *)
Lemma match_digits_dollar_split (n : nat) (s : string) :
  match_digits_dollar n s = true ->
  exists d t,
    s = d +++ t /\ String.length d = n
    /\ Shapes.all_chars Str.is_digit d = true /\ at_dollar t = true.
Proof.
  revert s. induction n as [|n IH]; intros s H; simpl in H.
  - exists EmptyString, s. repeat split; assumption.
  - destruct s as [|c s]; [discriminate|].
    apply andb_prop in H. destruct H as [Hc H].
    destruct (IH s H) as (d & t & -> & Hl & Hd & Ht).
    exists (String c d), t. repeat split; simpl; try assumption.
    + now rewrite Hl.
    + unfold Shapes.all_chars in *. simpl. now rewrite Hc.
Qed.

Lemma match_digits_dollar_digits (d : string) :
  Shapes.all_chars Str.is_digit d = true ->
  match_digits_dollar (String.length d) d = true.
Proof.
  unfold Shapes.all_chars. induction d as [|c d IH]; simpl; [reflexivity|].
  intros H. apply andb_prop in H. destruct H as [Hc Hd].
  now rewrite Hc, IH.
Qed.

Lemma mobile_digit (c : ascii) :
  ((54 <=? nat_of_ascii c) && (nat_of_ascii c <=? 57))%nat = true ->
  Str.is_digit c = true.
Proof.
  unfold Str.is_digit. intros H. apply andb_prop in H. destruct H as [H1 H2].
  apply Nat.leb_le in H1. apply Nat.leb_le in H2.
  apply andb_true_intro. split; apply Nat.leb_le; lia.
Qed.

(** What [[6-9]\d{9}$] matches. *)
Lemma match_mobile_split (s : string) :
  match_mobile s = true ->
  exists d t,
    s = d +++ t /\ Shapes.is_mobile d = true /\ at_dollar t = true.
Proof.
  destruct s as [|c s]; [discriminate|]. unfold match_mobile. intros H.
  apply andb_prop in H. destruct H as [Hc H].
  destruct (match_digits_dollar_split 9 s H) as (d & t & -> & Hl & Hd & Ht).
  exists (String c d), t. split; [reflexivity|]. split; [|exact Ht].
  unfold Shapes.is_mobile. cbn [String.length]. rewrite Hl.
  cbn [Nat.eqb andb]. rewrite Hc, andb_true_r.
  unfold Shapes.all_chars in *. simpl. now rewrite (mobile_digit c Hc).
Qed.

Lemma match_mobile_mobile (d : string) :
  Shapes.is_mobile d = true -> match_mobile d = true.
Proof.
  unfold Shapes.is_mobile. intros H.
  apply andb_prop in H. destruct H as [H Hc].
  apply andb_prop in H. destruct H as [Hl Hd].
  destruct d as [|c d]; [discriminate|]. unfold match_mobile.
  rewrite Hc. cbn [andb].
  apply Nat.eqb_eq in Hl. simpl in Hl.
  unfold Shapes.all_chars in Hd. simpl in Hd.
  apply andb_prop in Hd. destruct Hd as [_ Hd].
  replace 9%nat with (String.length d) by lia.
  now apply match_digits_dollar_digits.
Qed.

Lemma strip_prefix_split (p s r : string) :
  Str.strip_prefix p s = Some r -> s = p +++ r.
Proof.
  revert s. induction p as [|a p IH]; intros s H; simpl in H.
  - now injection H as ->.
  - destruct s as [|b s]; [discriminate|].
    destruct (Ascii.eqb a b) eqn:E; [|discriminate].
    apply Ascii.eqb_eq in E. subst b. simpl. now rewrite (IH s H).
Qed.

Lemma append_nil_r (s : string) : s +++ EmptyString = s.
Proof. induction s as [|c s IH]; simpl; [reflexivity|now rewrite IH]. Qed.

Lemma strip_prefix_app (p r : string) : Str.strip_prefix p (p +++ r) = Some r.
Proof.
  induction p as [|a p IH]; simpl; [reflexivity|].
  now rewrite Ascii.eqb_refl.
Qed.

(** A text without white space that ends where [$] matches has ended. *)
Lemma at_dollar_clean (a t : string) :
  Shapes.all_chars (fun c => negb (is_separator c)) (a +++ t) = true ->
  at_dollar t = true -> t = EmptyString.
Proof.
  rewrite all_chars_app. intros H Ht. apply andb_prop in H.
  destruct H as [_ H]. unfold at_dollar in Ht. apply orb_prop in Ht.
  destruct Ht as [Ht|Ht]; [now destruct t|].
  apply String.eqb_eq in Ht. subst t. discriminate.
Qed.

Lemma digit_not_separator (c : ascii) :
  Str.is_digit c = true -> negb (is_separator c) = true.
Proof.
  destruct c as [[] [] [] [] [] [] [] []]; vm_compute;
    intros H; first [reflexivity | discriminate H].
Qed.

Lemma digits_not_separators (d : string) :
  Shapes.all_chars Str.is_digit d = true ->
  Shapes.all_chars (fun c => negb (is_separator c)) d = true.
Proof.
  unfold Shapes.all_chars. induction d as [|c d IH]; simpl; [reflexivity|].
  intros H. apply andb_prop in H. destruct H as [Hc Hd].
  now rewrite (IH Hd), (digit_not_separator c Hc).
Qed.

Lemma mobile_digits (d : string) :
  Shapes.is_mobile d = true ->
  String.length d = 10%nat /\ Shapes.all_chars Str.is_digit d = true.
Proof.
  unfold Shapes.is_mobile. intros H.
  apply andb_prop in H. destruct H as [H _].
  apply andb_prop in H. destruct H as [Hl Hd].
  apply Nat.eqb_eq in Hl. now split.
Qed.

(** The canonical form is accepted and returned as it is. *)
Lemma validate_phone_fixes_canonical (d : string) :
  Shapes.is_mobile d = true ->
  validate_phone ("+91" +++ d) = Ok ("+91" +++ d).
Proof.
  intros Hm. destruct (mobile_digits d Hm) as [Hl Hd].
  unfold validate_phone.
  assert (Hc : filter_chars (fun c => negb (is_separator c)) ("+91" +++ d)
               = "+91" +++ d).
  { rewrite filter_chars_app. f_equal.
    apply filter_chars_id. now apply digits_not_separators. }
  rewrite Hc.
  assert (Hp : match_phone ("+91" +++ d) = true).
  { unfold match_phone. rewrite strip_prefix_app.
    now rewrite (match_mobile_mobile d Hm). }
  rewrite Hp. cbn [negb].
  assert (Hg : filter_chars Str.is_digit ("+91" +++ d) = "91" +++ d).
  { rewrite filter_chars_app. f_equal. now apply filter_chars_id. }
  rewrite Hg.
  assert (Hn : String.length ("91" +++ d) = 12%nat) by (simpl; lia).
  rewrite Hn. cbn [Nat.eqb andb]. reflexivity.
Qed.

Lemma append_length (a b : string) :
  String.length (a +++ b) = (String.length a + String.length b)%nat.
Proof. induction a as [|c a IH]; simpl; [reflexivity|now rewrite IH]. Qed.

(** What [validate_phone] returns for a number it accepts. *)
Lemma validate_phone_shape (v r : string) :
  validate_phone v = Ok r ->
  exists d, Shapes.is_mobile d = true /\ r = "+91" +++ d.
Proof.
  intros Haccepted.
  unfold validate_phone in Haccepted.
  set (clean := filter_chars (fun c => negb (is_separator c)) v) in *.
  assert (Hclean : Shapes.all_chars (fun c => negb (is_separator c)) clean
                   = true) by apply filter_chars_all.
  destruct (match_phone clean) eqn:Hp; [|discriminate].
  cbn [negb] in Haccepted.
  assert (Hshape : exists p d,
             clean = p +++ d /\ Shapes.is_mobile d = true
             /\ (p = "+91" \/ p = "91" \/ p = EmptyString)).
  { unfold match_phone in Hp.
    apply orb_prop in Hp. destruct Hp as [Hp|Hp];
      [apply orb_prop in Hp; destruct Hp as [Hp|Hp]|].
    - destruct (Str.strip_prefix "+91" clean) as [r0|] eqn:E; [|discriminate].
      apply strip_prefix_split in E.
      destruct (match_mobile_split r0 Hp) as (d & t & -> & Hm & Ht).
      assert (t = EmptyString).
      { apply (at_dollar_clean ("+91" +++ d) t); [|exact Ht].
        rewrite E in Hclean. exact Hclean. }
      subst t. rewrite append_nil_r in E. exists "+91", d. auto.
    - destruct (Str.strip_prefix "91" clean) as [r0|] eqn:E; [|discriminate].
      apply strip_prefix_split in E.
      destruct (match_mobile_split r0 Hp) as (d & t & -> & Hm & Ht).
      assert (t = EmptyString).
      { apply (at_dollar_clean ("91" +++ d) t); [|exact Ht].
        rewrite E in Hclean. exact Hclean. }
      subst t. rewrite append_nil_r in E. exists "91", d. auto.
    - destruct (match_mobile_split clean Hp) as (d & t & E & Hm & Ht).
      assert (t = EmptyString).
      { apply (at_dollar_clean d t); [|exact Ht]. now rewrite <- E. }
      subst t. rewrite append_nil_r in E. exists EmptyString, d. auto. }
  destruct Hshape as (p & d & E & Hm & Hpre).
  destruct (mobile_digits d Hm) as [Hl Hd].
  exists d. split; [exact Hm|].
  assert (Hr : r = "+91" +++ d).
  { rewrite E in Haccepted. rewrite filter_chars_app in Haccepted.
    rewrite (filter_chars_id _ d Hd) in Haccepted.
    destruct Hpre as [-> | [-> | ->]]; cbn [filter_chars Str.is_digit
      nat_of_ascii Nat.leb andb String.append] in Haccepted;
      simpl filter_chars in Haccepted.
    - cbn [String.length] in Haccepted. simpl String.append in Haccepted.
      cbn [String.length] in Haccepted. rewrite Hl in Haccepted.
      cbn [Nat.eqb andb] in Haccepted. simpl in Haccepted.
      now injection Haccepted as <-.
    - simpl String.append in Haccepted.
      cbn [String.length] in Haccepted. rewrite Hl in Haccepted.
      cbn [Nat.eqb andb] in Haccepted. simpl in Haccepted.
      now injection Haccepted as <-.
    - simpl String.append in Haccepted. rewrite Hl in Haccepted.
      cbn [Nat.eqb] in Haccepted. now injection Haccepted as <-. }
  exact Hr.
Qed.

(** X1.  Every number [validate_phone] accepts is returned in one form:
    [+91] followed by a ten-digit mobile number (ten digits, the first of
    them 6 to 9), whatever separators and prefix it was typed with; the
    branch that returns the input unchanged is never taken on any other
    text.  Validating the result again returns it as it is. *)
Theorem validate_phone_canonical (v r : string)
  (Haccepted : validate_phone v = Ok r) :
  exists d,
    Shapes.is_mobile d = true
    /\ r = "+91" +++ d
    /\ validate_phone r = Ok r.
Proof.
  destruct (validate_phone_shape v r Haccepted) as (d & Hm & ->).
  exists d. split; [exact Hm|]. split; [reflexivity|].
  now apply validate_phone_fixes_canonical.
Qed.

End PhoneNumbers.

(** The number of the examples, typed with a space, is stored as
    [+919876543210]. *)
Lemma validate_phone_canonical_witness :
  Models.validate_phone "98765 43210" = Ok "+919876543210"
  /\ exists d,
       Shapes.is_mobile d = true
       /\ "+919876543210" = "+91" +++ d
       /\ Models.validate_phone "+919876543210" = Ok "+919876543210".
Proof.
  split; [reflexivity|].
  apply (validate_phone_canonical "98765 43210" "+919876543210").
  reflexivity.
Defined.

Section PostalCodes.

Import Models.

(** X2.  A registration whose postal code is anything but six digits, or
    six digits and one final newline, is refused with 422 before the store
    is called: the state is left exactly as it was.  Those two shapes are
    the only ones [validate_pincode] lets through, and it returns them
    unchanged. *)
Theorem post_register_refuses_other_pincodes (body : StoreRegister)
  (e : Db.env) (st : Db.state)
  (Hshape : forall d, Spec.six_digits d = true ->
                      pincode body <> d /\ pincode body <> d +++ Str.nl) :
  validate_pincode (pincode body) = Raise ValueError
  /\ post_register body e st
     = (Raise (HTTPException 422 "validation error"), st).
Proof.
  assert (H : validate_pincode (pincode body) = Raise ValueError).
  { unfold validate_pincode.
    destruct (match_digits_dollar 6 (pincode body)) eqn:E; [|reflexivity].
    assert (Hok : validate_pincode (pincode body) = Ok (pincode body))
      by (unfold validate_pincode; now rewrite E).
    apply validate_pincode_accepts in Hok.
    destruct Hok as (d & Hd & Hv). destruct (Hshape d Hd) as [H1 H2].
    destruct Hv; contradiction. }
  split; [exact H|]. now apply post_register_refuses with (x := ValueError).
Qed.

End PostalCodes.

(** A nine-digit postal code: refused, nothing written. *)
Lemma post_register_refuses_other_pincodes_witness :
  Models.post_register (Spec.registration "110001234") Spec.quiet Db.empty
  = (Raise (HTTPException 422 "validation error"), Db.empty).
Proof.
  apply (post_register_refuses_other_pincodes
           (Spec.registration "110001234") Spec.quiet Db.empty).
  intros d Hd. unfold Spec.six_digits in Hd. apply andb_prop in Hd.
  destruct Hd as [Hl _]. apply Nat.eqb_eq in Hl.
  split; intros E; apply (f_equal String.length) in E;
    cbn [Spec.registration Models.pincode] in E;
    rewrite ?append_length in E; simpl in E; lia.
Defined.

(** ** Registration and login *)

(** A state that differs from [s] in its counters holds the tables of
    [s]. *)
Ltac same_tables :=
  repeat match goal with
    | |- context [Db.table {| Db.tables := Db.tables ?s; Db.next_id := ?n;
                              Db.calls := ?c; Db.ticks := ?t;
                              Db.journal := ?j |} ?name] =>
        change (Db.table {| Db.tables := Db.tables s; Db.next_id := n;
                            Db.calls := c; Db.ticks := t;
                            Db.journal := j |} name)
          with (Db.table s name)
    end.

Section StoreAccounts.

Import Models.

(** One call to the store that the environment lets through. *)
Lemma call_ok {A} (f : Db.state -> A * Db.state) (e : Db.env)
  (st : Db.state) :
  Db.fault e (Db.calls st) = None ->
  Db.call f e st
  = (Ok (fst (f {| Db.tables := Db.tables st; Db.next_id := Db.next_id st;
                   Db.calls := S (Db.calls st); Db.ticks := Db.ticks st;
                   Db.journal := Db.journal st |})),
     snd (f {| Db.tables := Db.tables st; Db.next_id := Db.next_id st;
               Db.calls := S (Db.calls st); Db.ticks := Db.ticks st;
               Db.journal := Db.journal st |})).
Proof.
  intros H. unfold Db.call. rewrite H. now destruct (f _).
Qed.

(** One call to the store that the environment fails: nothing is
    written. *)
Lemma call_fails {A} (f : Db.state -> A * Db.state) (e : Db.env)
  (st : Db.state) (x : exn) :
  Db.fault e (Db.calls st) = Some x ->
  Db.call f e st
  = (Raise x,
     {| Db.tables := Db.tables st; Db.next_id := Db.next_id st;
        Db.calls := S (Db.calls st); Db.ticks := Db.ticks st;
        Db.journal := Db.journal st |}).
Proof. intros H. unfold Db.call. now rewrite H. Qed.

(** X3.  Registering a WhatsApp number that a store already holds is
    refused and writes nothing: when the store answers the lookup the
    refusal is 409, and whatever happens no table changes and no write is
    recorded. *)
Theorem register_store_duplicate (data : StoreRegister) (e : Db.env)
  (st : Db.state)
  (Hheld : filter (Db.matches
                     [("whatsapp_number", PStr (whatsapp_number data))])
                  (Db.table st "stores") <> []) :
  exists x st',
    register_store data e st = (Raise x, st')
    /\ Db.tables st' = Db.tables st
    /\ Db.journal st' = Db.journal st
    /\ Db.calls st' = S (Db.calls st)
    /\ (Db.fault e (Db.calls st) = None ->
        x = HTTPException 409 "WhatsApp number already registered").
Proof.
  unfold register_store, register_try, Db.try_except, Db.bind, Db.select.
  destruct (Db.fault e (Db.calls st)) as [x|] eqn:F.
  - rewrite (call_fails _ _ _ _ F).
    destruct x; (eexists; eexists; split; [reflexivity|]);
      cbn; repeat split; discriminate.
  - rewrite (call_ok _ _ _ F). cbn [fst snd].
    unfold Db.table in *. cbn [Db.tables].
    destruct (filter _ (Db.rows_of (Db.tables st) "stores")) as [|row rows];
      [contradiction|].
    eexists. eexists. split; [reflexivity|]. cbn. auto.
Qed.


Lemma firstn_1_nil {A} (l : list A) : firstn 1 l = [] -> l = [].
Proof. destruct l; [reflexivity|discriminate]. Qed.

Lemma table_set_rows_same (st : Db.state) (name : string) (rows : list dict)
  (n : Z) (c t : nat) (j : list Db.write) :
  Db.table {| Db.tables := Db.set_rows (Db.tables st) name rows;
              Db.next_id := n; Db.calls := c; Db.ticks := t;
              Db.journal := j |} name = rows.
Proof. unfold Db.table. cbn [Db.tables]. apply rows_of_set_rows_same. Qed.

Lemma table_set_rows_other (st : Db.state) (name other : string)
  (rows : list dict) (n : Z) (c t : nat) (j : list Db.write) :
  other <> name ->
  Db.table {| Db.tables := Db.set_rows (Db.tables st) name rows;
              Db.next_id := n; Db.calls := c; Db.ticks := t;
              Db.journal := j |} other = Db.table st other.
Proof.
  intros H. unfold Db.table. cbn [Db.tables].
  now apply rows_of_set_rows_other.
Qed.

(** [_init_neighborhood] never raises.  It leaves every other table alone;
    it writes nothing when the postal code has a row or a call fails, and
    otherwise appends one row, for one store, dated by the clock. *)
Lemma init_neighborhood_runs (id : pyval) (pin town : string) (e : Db.env)
  (st : Db.state) :
  exists st',
    _init_neighborhood id pin town e st = (Ok tt, st')
    /\ (forall name, name <> "neighborhood_demand" ->
                     Db.table st' name = Db.table st name)
    /\ (Db.table st' "neighborhood_demand"
        = Db.table st "neighborhood_demand"
        \/ (filter (Db.matches [("pincode", PStr pin)])
                   (Db.table st "neighborhood_demand") = []
            /\ Db.fault e (Db.calls st) = None
            /\ Db.fault e (S (Db.calls st)) = None
            /\ Db.table st' "neighborhood_demand"
               = Db.table st "neighborhood_demand"
                 ++ [[("id", PInt (Db.next_id st)); ("pincode", PStr pin);
                      ("city", PStr town);
                      ("week_start",
                        PStr (Str.take 10 (Db.clock e (Db.ticks st))));
                      ("total_stores_scanned", PInt 1);
                      ("top_categories", PStr "[]");
                      ("stockout_products", PStr "[]");
                      ("demand_signals", PStr "{}")]]))
    /\ (filter (Db.matches [("pincode", PStr pin)])
               (Db.table st "neighborhood_demand") = [] ->
        Db.fault e (Db.calls st) = None ->
        Db.fault e (S (Db.calls st)) = None ->
        Db.table st' "neighborhood_demand"
        <> Db.table st "neighborhood_demand").
Proof.
  unfold _init_neighborhood, Db.try_except, Db.bind at 1, Db.select_limit.
  destruct (Db.fault e (Db.calls st)) as [x|] eqn:F0.
  - rewrite (call_fails _ _ _ _ F0). eexists. split; [reflexivity|].
    split; [reflexivity|]. split; [now left|]. discriminate.
  - rewrite (call_ok _ _ _ F0). cbn [fst snd].
    same_tables.
    destruct (firstn 1 _) as [|row rows] eqn:E.
    + apply firstn_1_nil in E.
      rewrite bind_utcnow. cbn [Db.ticks Db.tables Db.next_id Db.calls
                                Db.journal].
      unfold Db.bind, Db.insert, Db.insert_many, Db.bind.
      destruct (Db.fault e (S (Db.calls st))) as [x|] eqn:F1.
      * rewrite call_fails with (x := x) by exact F1.
        eexists. split; [reflexivity|]. split; [reflexivity|].
        split; [now left|]. discriminate.
      * rewrite call_ok by exact F1. cbn [fst snd Db.number_rows Db.ret
          Db.next_id Db.tables Db.calls Db.ticks Db.journal].
        eexists. split; [reflexivity|].
        split; [intros name Hn; now apply table_set_rows_other|].
        rewrite table_set_rows_same. same_tables.
        split; [right; auto|].
        intros _ _ _ H. apply (f_equal (@List.length dict)) in H.
        rewrite List.length_app in H. cbn [List.length] in H. lia.
    + eexists. split; [reflexivity|]. split; [reflexivity|].
      split; [now left|]. intros H. rewrite H in E. discriminate.
Qed.

(** The row [register_store] writes for a body. *)
Lemma register_store_runs (data : StoreRegister) (e : Db.env)
  (st : Db.state) :
  filter (Db.matches [("whatsapp_number", PStr (whatsapp_number data))])
         (Db.table st "stores") = [] ->
  Db.fault e (Db.calls st) = None ->
  Db.fault e (S (Db.calls st)) = None ->
  exists st',
    register_store data e st
    = (Ok {| success := true; store_id := PInt (Db.next_id st);
             message :=
               "Store registered successfully! WhatsApp activation incoming.";
             store := Shapes.new_store data (Db.next_id st)
                        (Db.clock e (Db.ticks st)) |}, st')
    /\ Db.table st' "stores"
       = Db.table st "stores"
         ++ [Shapes.new_store data (Db.next_id st) (Db.clock e (Db.ticks st))]
    /\ (forall name, name <> "stores" -> name <> "neighborhood_demand" ->
                     Db.table st' name = Db.table st name)
    /\ (Db.table st' "neighborhood_demand"
        = Db.table st "neighborhood_demand"
        \/ (filter (Db.matches [("pincode", PStr (pincode data))])
                   (Db.table st "neighborhood_demand") = []
            /\ exists row,
                 Db.table st' "neighborhood_demand"
                 = Db.table st "neighborhood_demand" ++ [row]
                 /\ lookup row "pincode" = Some (PStr (pincode data))
                 /\ lookup row "city" = Some (PStr (city data))
                 /\ lookup row "total_stores_scanned" = Some (PInt 1))).
Proof.
  intros Hnone F0 F1.
  unfold register_store, register_try, Db.try_except, Db.bind at 1, Db.select.
  rewrite (call_ok _ _ _ F0). cbn [fst snd].
  same_tables. rewrite Hnone. rewrite bind_utcnow.
  cbn [Db.ticks Db.tables Db.next_id Db.calls Db.journal].
  unfold Db.bind at 1, Db.insert, Db.insert_many, Db.bind at 1.
  rewrite call_ok by exact F1.
  cbn [fst snd Db.number_rows Db.ret Db.next_id Db.tables Db.calls Db.ticks
       Db.journal getitem_str lookup String.eqb Ascii.eqb Bool.eqb].
  rewrite bind_lift_ok.
  match goal with
  | |- context [Db.bind (_init_neighborhood ?i ?p ?c) ?k e ?s] =>
      destruct (init_neighborhood_runs i p c e s)
        as (st' & E & Hother & Hnd & _);
      rewrite (bind_ok _ _ _ _ _ _ E)
  end.
  cbn [Db.ret]. exists st'. split; [reflexivity|].
  split.
  { rewrite Hother by discriminate. rewrite table_set_rows_same.
    now same_tables. }
  split.
  { intros name H1 H2. rewrite (Hother name H2).
    now apply table_set_rows_other. }
  rewrite table_set_rows_other in Hnd by discriminate.
  destruct Hnd as [Hnd | (Hn & _ & _ & Hnd)]; [now left|].
  right. split; [exact Hn|]. eexists. split; [exact Hnd|].
  repeat split.
Qed.


(** A registration that succeeded found the number free and had its two
    calls on [stores] answered. *)
Lemma register_store_inv (data : StoreRegister) (e : Db.env)
  (st st1 : Db.state) (resp : register_response) :
  register_store data e st = (Ok resp, st1) ->
  filter (Db.matches [("whatsapp_number", PStr (whatsapp_number data))])
         (Db.table st "stores") = []
  /\ Db.fault e (Db.calls st) = None
  /\ Db.fault e (S (Db.calls st)) = None.
Proof.
  unfold register_store, register_try, Db.try_except, Db.bind at 1, Db.select.
  destruct (Db.fault e (Db.calls st)) as [x|] eqn:F0.
  { rewrite (call_fails _ _ _ _ F0). destruct x; discriminate. }
  rewrite (call_ok _ _ _ F0). cbn [fst snd]. same_tables.
  destruct (filter _ (Db.table st "stores")) as [|row rows];
    [|discriminate].
  rewrite bind_utcnow.
  cbn [Db.ticks Db.tables Db.next_id Db.calls Db.journal].
  unfold Db.bind at 1, Db.insert, Db.insert_many, Db.bind at 1.
  destruct (Db.fault e (S (Db.calls st))) as [x|] eqn:F1.
  { rewrite call_fails with (x := x) by exact F1. destruct x; discriminate. }
  auto.
Qed.

(** Removing [c] leaves alone a text that does not hold [c]. *)
Lemma remove_all_absent (c : ascii) (s : string) :
  Spec.has_char c s = false ->
  Str.remove_all (String c EmptyString) s = s.
Proof.
  unfold Str.remove_all. induction s as [|x s IH]; simpl; [reflexivity|].
  intros H. apply orb_false_elim in H. destruct H as [Hx Hs].
  unfold Str.starts_with. simpl. rewrite Ascii.eqb_sym, Hx.
  now rewrite IH.
Qed.

Lemma digits_hold_no (c : ascii) (d : string) :
  Str.is_digit c = false ->
  Shapes.all_chars Str.is_digit d = true -> Spec.has_char c d = false.
Proof.
  intros Hc. unfold Shapes.all_chars.
  induction d as [|x d IH]; simpl; [reflexivity|].
  intros H. apply andb_prop in H. destruct H as [Hx Hd].
  rewrite (IH Hd), orb_false_r.
  destruct (Ascii.eqb x c) eqn:E; [|reflexivity].
  apply Ascii.eqb_eq in E. congruence.
Qed.

(** The canonical form of a number holds no space and no hyphen. *)
Lemma canonical_is_clean (d : string) :
  Shapes.all_chars Str.is_digit d = true ->
  Str.remove_all "-" (Str.remove_all " " ("+91" +++ d)) = "+91" +++ d.
Proof.
  intros Hd.
  rewrite (remove_all_absent " "%char), (remove_all_absent "-"%char);
    [reflexivity| |];
    cbn [String.append Spec.has_char Ascii.eqb Bool.eqb orb];
    now apply digits_hold_no.
Qed.

Lemma new_store_number (data : StoreRegister) (id : Z) (now : string) :
  Db.matches [("whatsapp_number", PStr (whatsapp_number data))]
    (Shapes.new_store data id now) = true.
Proof.
  unfold Db.matches, Shapes.new_store, to_dict. simpl.
  now rewrite String.eqb_refl.
Qed.

Lemma filter_app_last {A} (f : A -> bool) (l : list A) (x : A) :
  filter f l = [] -> f x = true -> filter f (l ++ [x]) = [x].
Proof.
  intros Hl Hx. rewrite filter_app, Hl. simpl. now rewrite Hx.
Qed.


(** X4.  A registration of a number no store holds, whose lookup and
    insert on [stores] are answered, succeeds whatever happens afterwards:
    it appends one row to [stores] (the body, status active, no scan yet,
    health score 0, the id the store assigns) and returns it.  The first
    row of its postal code in [neighborhood_demand] is written on a best
    effort: at most one row, for one store, and none when the postal code
    has a row already; no other table changes. *)
Theorem register_store_effect (data : StoreRegister) (e : Db.env)
  (st : Db.state)
  (Hfree : filter (Db.matches
                     [("whatsapp_number", PStr (whatsapp_number data))])
                  (Db.table st "stores") = [])
  (Hlookup : Db.fault e (Db.calls st) = None)
  (Hinsert : Db.fault e (S (Db.calls st)) = None) :
  exists st',
    register_store data e st
    = (Ok {| success := true; store_id := PInt (Db.next_id st);
             message :=
               "Store registered successfully! WhatsApp activation incoming.";
             store := Shapes.new_store data (Db.next_id st)
                        (Db.clock e (Db.ticks st)) |}, st')
    /\ Db.table st' "stores"
       = Db.table st "stores"
         ++ [Shapes.new_store data (Db.next_id st) (Db.clock e (Db.ticks st))]
    /\ (forall name, name <> "stores" -> name <> "neighborhood_demand" ->
                     Db.table st' name = Db.table st name)
    /\ (Db.table st' "neighborhood_demand"
        = Db.table st "neighborhood_demand"
        \/ (filter (Db.matches [("pincode", PStr (pincode data))])
                   (Db.table st "neighborhood_demand") = []
            /\ exists row,
                 Db.table st' "neighborhood_demand"
                 = Db.table st "neighborhood_demand" ++ [row]
                 /\ lookup row "pincode" = Some (PStr (pincode data))
                 /\ lookup row "city" = Some (PStr (city data))
                 /\ lookup row "total_stores_scanned" = Some (PInt 1))).
Proof. now apply register_store_runs. Qed.

(** X5.  Registration and login round-trip on the canonical number only.
    After a registration that succeeded, the stored number is [+91] and ten
    digits, and [login_store] returns the registered row for every text
    that is this number once its spaces and hyphens are removed (the number
    itself is one such text), provided the store answers; login reads and
    writes nothing. *)
Theorem register_then_login (body : StoreRegister) (e e' : Db.env)
  (st st1 : Db.state) (resp : register_response)
  (Hregistered : post_register body e st = (Ok resp, st1))
  (Hanswers : Db.fault e' (Db.calls st1) = None) :
  exists d,
    Shapes.is_mobile d = true
    /\ lookup (store resp) "whatsapp_number" = Some (PStr ("+91" +++ d))
    /\ Str.remove_all "-" (Str.remove_all " " ("+91" +++ d)) = "+91" +++ d
    /\ forall w,
         Str.remove_all "-" (Str.remove_all " " w) = "+91" +++ d ->
         exists st2,
           Endpoints.login_store w e' st1
           = (Ok [("success", PBool true); ("store", PDict (store resp))],
              st2)
           /\ Db.tables st2 = Db.tables st1
           /\ Db.journal st2 = Db.journal st1.
Proof.
  unfold post_register in Hregistered.
  destruct (validate body) as [data|x] eqn:V; [|discriminate].
  unfold validate in V.
  destruct (validate_phone (whatsapp_number body)) as [phone|] eqn:Vp;
    [|discriminate].
  destruct (validate_phone_shape _ _ Vp) as (d & Hm & ->).
  cbn [Py.bind] in V.
  destruct (validate_pincode (pincode body)) as [pin|] eqn:Vq;
    [|discriminate].
  cbn [Py.bind] in V.
  assert (Hnum : whatsapp_number data = "+91" +++ d)
    by (injection V as <-; reflexivity).
  clear V Vp Vq.
  destruct (register_store_inv _ _ _ _ _ Hregistered) as (Hfree & F0 & F1).
  destruct (register_store_runs _ e st Hfree F0 F1)
    as (st1' & E & Hstores & _).
  rewrite E in Hregistered. injection Hregistered as <- <-.
  cbn [store].
  exists d. split; [exact Hm|].
  split.
  { unfold Shapes.new_store, to_dict. simpl. now rewrite Hnum. }
  destruct (mobile_digits d Hm) as [_ Hd].
  split; [now apply canonical_is_clean|].
  intros w Hw.
  unfold Endpoints.login_store, Endpoints.http_errors, Db.try_except,
    Db.bind, Db.select.
  rewrite (call_ok _ _ _ Hanswers). cbn [fst snd]. same_tables.
  rewrite Hw, Hstores, <- Hnum.
  rewrite filter_app_last;
    [|exact Hfree|exact (new_store_number _ _ _)].
  eexists. split; [reflexivity|]. split; reflexivity.
Qed.

(** X6.  [_init_neighborhood] is idempotent and never raises: once it has
    run on a store that answers, the postal code has a row, and running it
    again, for any store and city of that postal code, writes nothing,
    whether the store answers or not. *)
Theorem init_neighborhood_twice (id id' : pyval) (pin town town' : string)
  (e e' : Db.env) (st : Db.state)
  (Hanswers : Spec.never_fails e) :
  exists st1 st2,
    _init_neighborhood id pin town e st = (Ok tt, st1)
    /\ filter (Db.matches [("pincode", PStr pin)])
              (Db.table st1 "neighborhood_demand") <> []
    /\ _init_neighborhood id' pin town' e' st1 = (Ok tt, st2)
    /\ (forall name, Db.table st2 name = Db.table st1 name)
    /\ (forall name, name <> "neighborhood_demand" ->
                     Db.table st1 name = Db.table st name).
Proof.
  destruct (init_neighborhood_runs id pin town e st)
    as (st1 & E1 & Hother1 & Hnd1 & Hchanged).
  destruct (init_neighborhood_runs id' pin town' e' st1)
    as (st2 & E2 & Hother2 & Hnd2 & _).
  exists st1, st2. split; [exact E1|].
  assert (Hrow : filter (Db.matches [("pincode", PStr pin)])
                        (Db.table st1 "neighborhood_demand") <> []).
  { destruct (filter (Db.matches [("pincode", PStr pin)])
                     (Db.table st "neighborhood_demand")) as [|r rs] eqn:F.
    - destruct Hnd1 as [Hsame | (_ & _ & _ & Hnew)].
      + exfalso. apply Hchanged; auto.
      + rewrite Hnew, filter_app, F. simpl.
        rewrite String.eqb_refl. discriminate.
    - destruct Hnd1 as [Hsame | (Hnone & _)]; [|discriminate].
      rewrite Hsame, F. discriminate. }
  split; [exact Hrow|]. split; [exact E2|]. split; [|exact Hother1].
  intros name. destruct (String.eqb name "neighborhood_demand") eqn:N.
  - apply String.eqb_eq in N. subst name.
    destruct Hnd2 as [Hsame | (Hnone & _)]; [exact Hsame|contradiction].
  - apply String.eqb_neq in N. now apply Hother2.
Qed.

End StoreAccounts.

(** Ramesh registers with his number typed with a space and logs in with
    the canonical form of it. *)
Lemma register_store_effect_witness :
  exists st',
    Models.register_store (Spec.registration "110001") Spec.quiet Db.empty
    = (Ok {| Models.success := true; Models.store_id := PInt 1;
             Models.message :=
               "Store registered successfully! WhatsApp activation incoming.";
             Models.store :=
               Shapes.new_store (Spec.registration "110001") 1
                 "2026-03-02T10:00:00.0" |}, st')
    /\ Db.table st' "stores"
       = [Shapes.new_store (Spec.registration "110001") 1
            "2026-03-02T10:00:00.0"].
Proof.
  destruct (register_store_effect (Spec.registration "110001") Spec.quiet
              Db.empty eq_refl eq_refl eq_refl) as (st' & E & T & _).
  exists st'. split; [exact E|exact T].
Defined.

Lemma register_then_login_witness :
  exists resp st1 st2,
    Models.post_register (Spec.registration "110001") Spec.quiet Db.empty
    = (Ok resp, st1)
    /\ Endpoints.login_store "+91 98765-43210" Spec.quiet st1
       = (Ok [("success", PBool true); ("store", PDict (Models.store resp))],
          st2)
    /\ lookup (Models.store resp) "whatsapp_number"
       = Some (PStr "+919876543210").
Proof.
  destruct (Models.post_register (Spec.registration "110001") Spec.quiet
              Db.empty) as [[resp|x] st1] eqn:E;
    [|vm_compute in E; discriminate].
  destruct (register_then_login (Spec.registration "110001") Spec.quiet
              Spec.quiet Db.empty st1 resp E eq_refl)
    as (d & Hm & Hn & _ & Hlogin).
  assert (Hd : d = "9876543210").
  { pose proof E as E'. vm_compute in E'. injection E' as Hresp _.
    rewrite <- Hresp in Hn. cbn in Hn. now injection Hn as <-. }
  subst d.
  destruct (Hlogin "+91 98765-43210" eq_refl) as (st2 & L & _).
  exists resp, st1, st2. split; [reflexivity|]. split; [exact L|exact Hn].
Defined.

Lemma init_neighborhood_twice_witness :
  exists st1 st2,
    Models._init_neighborhood (PInt 1) "110001" "Delhi" Spec.quiet Db.empty
    = (Ok tt, st1)
    /\ Models._init_neighborhood (PInt 2) "110001" "New Delhi"
         (Spec.failing_at 3) st1 = (Ok tt, st2)
    /\ Db.table st2 "neighborhood_demand"
       = Db.table st1 "neighborhood_demand".
Proof.
  destruct (init_neighborhood_twice (PInt 1) (PInt 2) "110001" "Delhi"
              "New Delhi" Spec.quiet (Spec.failing_at 3) Db.empty
              (fun _ => eq_refl))
    as (st1 & st2 & E1 & _ & E2 & T & _).
  exists st1, st2. split; [exact E1|]. split; [exact E2|]. apply T.
Defined.

Lemma register_store_duplicate_witness :
  exists st',
    Models.register_store Shapes.ramesh_validated Spec.quiet
      Shapes.ramesh_on_file
    = (Raise (HTTPException 409 "WhatsApp number already registered"), st')
    /\ Db.tables st' = Db.tables Shapes.ramesh_on_file.
Proof.
  destruct (register_store_duplicate Shapes.ramesh_validated Spec.quiet
              Shapes.ramesh_on_file) as (x & st' & E & T & _ & _ & Hx).
  - vm_compute. discriminate.
  - rewrite (Hx eq_refl) in E. exists st'. split; [exact E|exact T].
Defined.

(** ** The alerts of the dashboard *)

Section Alerts.

Import Endpoints.

Variable py_str : pyval -> string.

(** On a row, the [if]/[elif] chain returns: no alert, or one alert about
    the row's name. *)
Lemma alert_of_row (row : dict) (name : pyval) :
  alert_of py_str (PDict row) name = Ok []
  \/ exists a,
       alert_of py_str (PDict row) name = Ok [a]
       /\ Shapes.alert_product a = name.
Proof.
  unfold alert_of. cbn [get Py.bind].
  destruct (eq_str (dict_get row "stock_level" (PStr "ok")) "critical").
  { right. eexists. split; reflexivity. }
  destruct (eq_str (dict_get row "stock_level" (PStr "ok")) "low").
  { right. eexists. split; reflexivity. }
  destruct (negb (truthy (dict_get row "facing_correct" (PBool true)))).
  { right. eexists. split; reflexivity. }
  now left.
Qed.

(** [name in seen] on texts. *)
Lemma mem_text (s : string) (seen : list pyval) :
  Hashable.mem (PStr s) seen
  = Ok (existsb (Hashable.eqb (PStr s)) seen).
Proof. reflexivity. Qed.

Lemma eqb_text (s : string) (x : pyval) :
  Hashable.eqb (PStr s) x = true <-> x = PStr s.
Proof.
  destruct x; simpl; split; intros H; try discriminate.
  - apply String.eqb_eq in H. now subst.
  - injection H as ->. apply String.eqb_refl.
Qed.

Lemma known_text (s : string) (seen : list pyval) :
  existsb (Hashable.eqb (PStr s)) seen = true <-> In (PStr s) seen.
Proof.
  rewrite existsb_exists. split.
  - intros (x & Hin & Hx). apply eqb_text in Hx. now subst.
  - intros H. exists (PStr s). split; [exact H|]. now apply eqb_text.
Qed.

(** The loop, from the names [seen]: it returns; every alert is the alert
    of the first row of its name, a name not seen before; no two alerts
    share a name; and the first row of a new name has its alert in the
    list. *)
Lemma alerts_from_rows (rows : list dict) :
  Shapes.text_names rows ->
  forall seen,
  exists alerts,
    alerts_from py_str seen (map PDict rows) = Ok alerts
    /\ (List.length alerts <= List.length rows)%nat
    /\ NoDup (map Shapes.alert_product alerts)
    /\ (forall a, In a alerts -> ~ In (Shapes.alert_product a) seen)
    /\ (forall a, In a alerts ->
          exists before row after,
            rows = before ++ row :: after
            /\ (forall r, In r before ->
                          Shapes.name_of r <> Shapes.name_of row)
            /\ alert_of py_str (PDict row) (Shapes.name_of row) = Ok [a])
    /\ (forall before row after a,
          rows = before ++ row :: after ->
          (forall r, In r before -> Shapes.name_of r <> Shapes.name_of row) ->
          ~ In (Shapes.name_of row) seen ->
          alert_of py_str (PDict row) (Shapes.name_of row) = Ok [a] ->
          In a alerts).
Proof.
  induction 1 as [|row rows (s & Hs) Hrows IH]; intros seen.
  - exists []. split; [reflexivity|]. split; [simpl; lia|].
    split; [constructor|]. split; [intros a []|]. split; [intros a []|].
    intros [|? ?] ? ? ? E; discriminate E.
  - cbn [map alerts_from get Py.bind]. fold (Shapes.name_of row).
    rewrite Hs, mem_text. cbn [Py.bind].
    destruct (existsb (Hashable.eqb (PStr s)) seen) eqn:K.
    + (* a name seen before: the row is skipped *)
      apply known_text in K.
      destruct (IH seen) as (alerts & E & Hlen & Hnd & Hnew & Hsound & Hcompl).
      exists alerts. split; [exact E|]. split; [simpl; lia|].
      split; [exact Hnd|]. split; [exact Hnew|]. split.
      * intros a Ha. destruct (Hsound a Ha)
          as (before & r & after & -> & Hfirst & Ea).
        exists (row :: before), r, after. split; [reflexivity|].
        split; [|exact Ea].
        intros r' [<-|Hr']; [|now apply Hfirst].
        intros Heq. apply (Hnew a Ha).
        destruct (alert_of_row r (Shapes.name_of r)) as [E0|(a' & E1 & Hp)];
          [congruence|].
        assert (a' = a) by congruence. subst a'.
        rewrite Hp, <- Heq, Hs. exact K.
      * intros before r after a Hsplit Hfirst Hfresh Ea.
        destruct before as [|r0 before].
        -- injection Hsplit as <- <-. rewrite Hs in Hfresh. contradiction.
        -- injection Hsplit as <- ->.
           apply (Hcompl before r after a eq_refl); try assumption.
           intros r' Hr'. apply Hfirst. now right.
    + (* a new name *)
      assert (Hfresh : ~ In (PStr s) seen).
      { intros Hin. apply known_text in Hin. congruence. }
      destruct (IH (PStr s :: seen))
        as (alerts & E & Hlen & Hnd & Hnew & Hsound & Hcompl).
      rewrite E.
      assert (Hlater : forall a, In a alerts ->
                Shapes.alert_product a <> PStr s
                /\ ~ In (Shapes.alert_product a) seen).
      { intros a Ha. pose proof (Hnew a Ha) as Hn. split.
        - intros Heq. apply Hn. left. now symmetry.
        - intros Hin. apply Hn. now right. }
      assert (Hsound' : forall a, In a alerts ->
                exists before r after,
                  row :: rows = before ++ r :: after
                  /\ (forall r', In r' before ->
                        Shapes.name_of r' <> Shapes.name_of r)
                  /\ alert_of py_str (PDict r) (Shapes.name_of r) = Ok [a]).
      { intros a Ha. destruct (Hsound a Ha)
          as (before & r & after & -> & Hfirst & Ea).
        exists (row :: before), r, after. split; [reflexivity|].
        split; [|exact Ea].
        intros r' [<-|Hr']; [|now apply Hfirst].
        intros Heq. destruct (Hlater a Ha) as [Hne _]. apply Hne.
        destruct (alert_of_row r (Shapes.name_of r)) as [E0|(a' & E1 & Hp)];
          [congruence|].
        assert (a' = a) by congruence. subst a'.
        now rewrite Hp, <- Heq. }
      destruct (alert_of_row row (PStr s)) as [E0|(a0 & E0 & Hp0)];
        rewrite E0; cbn [Py.bind app].
      * exists alerts. split; [reflexivity|]. split; [simpl; lia|].
        split; [exact Hnd|].
        split; [intros a Ha; now apply Hlater|].
        split; [exact Hsound'|].
        intros before r after a Hsplit Hfirst Hfr Ea.
        destruct before as [|r0 before].
        -- injection Hsplit as <- <-. rewrite Hs in Ea. congruence.
        -- injection Hsplit as <- ->.
           apply (Hcompl before r after a eq_refl); try assumption.
           ++ intros r' Hr'. apply Hfirst. now right.
           ++ intros [Heq|Hin]; [|contradiction].
              apply (Hfirst row (or_introl eq_refl)). congruence.
      * exists (a0 :: alerts). split; [reflexivity|].
        split; [simpl; lia|].
        split.
        { cbn [map]. constructor; [|exact Hnd].
          rewrite Hp0. intros Hin. apply in_map_iff in Hin.
          destruct Hin as (a & Heq & Ha).
          destruct (Hlater a Ha) as [Hne _]. contradiction. }
        split.
        { intros a [<-|Ha]; [now rewrite Hp0|now apply Hlater]. }
        split.
        { intros a [<-|Ha]; [|now apply Hsound'].
          exists [], row, rows. split; [reflexivity|].
          split; [intros r []|]. now rewrite Hs. }
        intros before r after a Hsplit Hfirst Hfr Ea.
        destruct before as [|r0 before].
        -- injection Hsplit as <- <-. rewrite Hs in Ea. left. congruence.
        -- injection Hsplit as <- ->. right.
           apply (Hcompl before r after a eq_refl); try assumption.
           ++ intros r' Hr'. apply Hfirst. now right.
           ++ intros [Heq|Hin]; [|contradiction].
              apply (Hfirst row (or_introl eq_refl)). congruence.
Qed.

Lemma firstn_NoDup {A} (n : nat) (l : list A) : NoDup l -> NoDup (firstn n l).
Proof.
  intros H. revert n. induction H as [|x l Hx Hl IH]; intros [|n]; simpl;
    try constructor.
  - intros Hin. apply Hx. revert Hin. clear.
    revert n. induction l as [|y l IH]; intros [|n]; simpl; try tauto.
    intros [->|H]; [now left|right; eauto].
  - apply IH.
Qed.

Lemma firstn_In {A} (n : nat) (l : list A) (x : A) :
  In x (firstn n l) -> In x l.
Proof.
  revert n. induction l as [|y l IH]; intros [|n]; simpl; try tauto.
  intros [->|H]; [now left|right; eauto].
Qed.

(** X7.  On rows named by texts, [_build_alerts] returns at most 15
    alerts, no two of them about the same product, and each of them is the
    alert that the first row of its product raises: critical, low stock or
    wrong facing.  Later rows of a product never raise an alert. *)
Theorem build_alerts_sound (rows : list dict)
  (Hnames : Shapes.text_names rows) :
  exists alerts,
    _build_alerts py_str (map PDict rows) = Ok alerts
    /\ (List.length alerts <= 15)%nat
    /\ NoDup (map Shapes.alert_product alerts)
    /\ forall a, In a alerts ->
         exists before row after,
           rows = before ++ row :: after
           /\ (forall r, In r before ->
                         Shapes.name_of r <> Shapes.name_of row)
           /\ alert_of py_str (PDict row) (Shapes.name_of row) = Ok [a]
           /\ Shapes.alert_product a = Shapes.name_of row
           /\ (eq_str (dict_get row "stock_level" (PStr "ok")) "critical"
               = true
               \/ eq_str (dict_get row "stock_level" (PStr "ok")) "low" = true
               \/ truthy (dict_get row "facing_correct" (PBool true))
                  = false).
Proof.
  destruct (alerts_from_rows rows Hnames [])
    as (alerts & E & _ & Hnd & _ & Hsound & _).
  exists (firstn 15 alerts). unfold _build_alerts. rewrite E.
  split; [reflexivity|]. split; [apply firstn_le_length|].
  split; [rewrite <- firstn_map; now apply firstn_NoDup|].
  intros a Ha. apply firstn_In in Ha.
  destruct (Hsound a Ha) as (before & row & after & Hsplit & Hfirst & Ea).
  exists before, row, after. split; [exact Hsplit|]. split; [exact Hfirst|].
  split; [exact Ea|].
  destruct (alert_of_row row (Shapes.name_of row)) as [E0|(a' & E1 & Hp)];
    [congruence|].
  assert (a' = a) by congruence. subst a'. split; [exact Hp|].
  clear - Ea. unfold alert_of in Ea. cbn [get Py.bind] in Ea.
  destruct (eq_str (dict_get row "stock_level" (PStr "ok")) "critical");
    [now left|].
  destruct (eq_str (dict_get row "stock_level" (PStr "ok")) "low");
    [now right; left|].
  destruct (truthy (dict_get row "facing_correct" (PBool true)));
    [discriminate|now right; right].
Qed.

(** X8.  With at most 15 rows nothing is cut off: the first row of every
    product that is critical, low on stock or wrongly faced has its alert
    in the list. *)
Theorem build_alerts_complete (rows : list dict)
  (Hnames : Shapes.text_names rows)
  (Hfew : (List.length rows <= 15)%nat) :
  exists alerts,
    _build_alerts py_str (map PDict rows) = Ok alerts
    /\ forall before row after a,
         rows = before ++ row :: after ->
         (forall r, In r before -> Shapes.name_of r <> Shapes.name_of row) ->
         alert_of py_str (PDict row) (Shapes.name_of row) = Ok [a] ->
         In a alerts.
Proof.
  destruct (alerts_from_rows rows Hnames [])
    as (alerts & E & Hlen & _ & _ & _ & Hcompl).
  exists alerts. unfold _build_alerts. rewrite E. cbn [Py.bind].
  rewrite firstn_all2 by lia. split; [reflexivity|].
  intros before row after a Hsplit Hfirst Ea.
  apply (Hcompl before row after a Hsplit Hfirst); [intros []|exact Ea].
Qed.

End Alerts.

(** Salt out of stock and noodles facing the wrong way; the second row of
    salt and the biscuits raise nothing. *)
Lemma build_alerts_sound_witness :
  Shapes.text_names Shapes.four_rows
  /\ exists alerts,
       Endpoints._build_alerts Reference.str_of
         (map PDict Shapes.four_rows) = Ok alerts
       /\ map Shapes.alert_product alerts = [PStr "Tata Salt"; PStr "Maggi"]
       /\ map Shapes.alert_type alerts = [PStr "critical"; PStr "info"].
Proof.
  assert (H : Shapes.text_names Shapes.four_rows).
  { repeat constructor; eexists; reflexivity. }
  split; [exact H|].
  destruct (build_alerts_sound Reference.str_of Shapes.four_rows H)
    as (alerts & E & _).
  exists alerts. split; [exact E|].
  vm_compute in E. injection E as <-. split; reflexivity.
Defined.

Lemma build_alerts_complete_witness :
  exists alerts,
    Endpoints._build_alerts Reference.str_of (map PDict Shapes.four_rows)
    = Ok alerts
    /\ In (Endpoints.alert "info" "Maggi — Incorrect shelf facing"
             (PStr "Maggi")) alerts.
Proof.
  destruct (build_alerts_complete Reference.str_of Shapes.four_rows)
    as (alerts & E & H).
  - repeat constructor; eexists; reflexivity.
  - simpl. lia.
  - exists alerts. split; [exact E|].
    apply (H [Shapes.detected_row "Tata Salt" "critical" true;
              Shapes.detected_row "Tata Salt" "ok" true]
             (Shapes.detected_row "Maggi" "ok" false)
             [Shapes.detected_row "Parle-G" "ok" true]).
    + reflexivity.
    + intros r [<-|[<-|[]]]; discriminate.
    + reflexivity.
Defined.

(** ** Counters and the most common keys *)

Section Counting.

(** A [Counter] over some equality of keys that, on texts, is equality of
    texts. *)
Variable eqb : pyval -> pyval -> bool.
Variable bump : pyval -> list (pyval * Z) -> list (pyval * Z).

Hypothesis eqb_texts :
  forall s t, eqb (PStr s) (PStr t) = String.eqb s t.
Hypothesis bump_nil : forall k, bump k [] = [(k, 1)].
Hypothesis bump_cons :
  forall k k' n c,
    bump k ((k', n) :: c)
    = if eqb k' k then (k', n + 1) :: c else (k', n) :: bump k c.

Lemma tallies_ext (c : list (pyval * Z)) (occ occ' : string -> Z) :
  (forall s, s <> EmptyString -> occ s = occ' s) ->
  Shapes.tallies eqb c occ -> Shapes.tallies eqb c occ'.
Proof.
  intros Hext (H1 & H2 & H3). split; [exact H1|]. split; [exact H2|].
  intros s Hs. rewrite <- Hext by exact Hs. now apply H3.
Qed.

Lemma count_of_bump_same (s : string) (c : list (pyval * Z)) :
  Shapes.count_of eqb (PStr s) (bump (PStr s) c)
  = Shapes.count_of eqb (PStr s) c + 1.
Proof.
  induction c as [|[k' n] c IH].
  - rewrite bump_nil. simpl. now rewrite eqb_texts, String.eqb_refl.
  - rewrite bump_cons. simpl.
    destruct (eqb k' (PStr s)) eqn:E; simpl; rewrite E; [reflexivity|].
    exact IH.
Qed.

Lemma count_of_bump_other (s t : string) (c : list (pyval * Z)) :
  Forall (fun kv => Shapes.is_text (fst kv) = true) c ->
  s <> t ->
  Shapes.count_of eqb (PStr t) (bump (PStr s) c)
  = Shapes.count_of eqb (PStr t) c.
Proof.
  intros Hc Hne. induction Hc as [|[k' n] c Hk Hc IH].
  - rewrite bump_nil. simpl. rewrite eqb_texts.
    apply String.eqb_neq in Hne. now rewrite Hne.
  - rewrite bump_cons. simpl in Hk. destruct k' as [| | | |u| |];
      try discriminate.
    rewrite eqb_texts. simpl. rewrite eqb_texts.
    destruct (String.eqb u s) eqn:E; simpl; rewrite eqb_texts.
    + apply String.eqb_eq in E. subst u.
      apply String.eqb_neq in Hne. now rewrite Hne.
    + destruct (String.eqb u t); [reflexivity|exact IH].
Qed.

Lemma keys_bump (k x : pyval) (c : list (pyval * Z)) :
  In x (map fst (bump k c)) -> x = k \/ In x (map fst c).
Proof.
  induction c as [|[k' n] c IH].
  - rewrite bump_nil. simpl. intros [<-|[]]. now left.
  - rewrite bump_cons. destruct (eqb k' k); simpl.
    + intros [<-|H]; right; [now left|now right].
    + intros [<-|H]; [right; now left|].
      destruct (IH H) as [->|H']; [now left|right; now right].
Qed.

Lemma bump_NoDup (s : string) (c : list (pyval * Z)) :
  Forall (fun kv => Shapes.is_text (fst kv) = true) c ->
  NoDup (map fst c) -> NoDup (map fst (bump (PStr s) c)).
Proof.
  intros Hc. induction Hc as [|[k' n] c Hk Hc IH]; intros Hnd.
  - rewrite bump_nil. simpl. constructor; [intros []|constructor].
  - rewrite bump_cons. simpl in Hk, Hnd. inversion Hnd as [|? ? Hx Hnd'].
    subst. destruct k' as [| | | |u| |]; try discriminate.
    rewrite eqb_texts. destruct (String.eqb u s) eqn:E; simpl.
    + now constructor.
    + constructor; [|now apply IH].
      intros Hin. apply keys_bump in Hin. destruct Hin as [Heq|Hin].
      * injection Heq as ->. now rewrite String.eqb_refl in E.
      * contradiction.
Qed.

Lemma bump_entries (s : string) (c : list (pyval * Z))
  (P : pyval * Z -> Prop) :
  P (PStr s, 1) ->
  (forall k n, P (k, n) -> P (k, n + 1)) ->
  Forall P c -> Forall P (bump (PStr s) c).
Proof.
  intros H1 Hinc Hc. induction Hc as [|[k' n] c Hk Hc IH].
  - rewrite bump_nil. now constructor.
  - rewrite bump_cons. destruct (eqb k' (PStr s)).
    + constructor; [now apply Hinc|exact Hc].
    + now constructor.
Qed.

(** Counting one more occurrence of the non-empty text [s]. *)
Lemma tallies_bump (s : string) (c : list (pyval * Z)) (occ : string -> Z) :
  s <> EmptyString ->
  Shapes.tallies eqb c occ ->
  Shapes.tallies eqb (bump (PStr s) c)
    (fun t => if String.eqb t s then occ t + 1 else occ t).
Proof.
  intros Hs (Hkeys & Hnd & Hocc).
  assert (Htext : Forall (fun kv => Shapes.is_text (fst kv) = true) c).
  { eapply Forall_impl; [|exact Hkeys].
    intros [k n] ((u & Hu & _) & _). simpl in *. now subst. }
  split; [|split].
  - apply bump_entries.
    + split; [exists s; auto|simpl; lia].
    + intros k n [Hk Hn]. split; [exact Hk|simpl in *; lia].
    + exact Hkeys.
  - now apply bump_NoDup.
  - intros t Ht. destruct (String.eqb t s) eqn:E.
    + apply String.eqb_eq in E. subst t.
      rewrite count_of_bump_same. now rewrite Hocc.
    + apply String.eqb_neq in E.
      rewrite count_of_bump_other by auto. now apply Hocc.
Qed.

(** In a tally, an entry holds the count of its key, and a key that was
    counted has its entry. *)
Lemma tallies_entry (c : list (pyval * Z)) (occ : string -> Z) (k : pyval)
  (n : Z) :
  Shapes.tallies eqb c occ -> In (k, n) c ->
  exists s, k = PStr s /\ s <> EmptyString /\ n = occ s /\ 1 <= n.
Proof.
  intros (Hkeys & Hnd & Hocc) Hin.
  pose proof (proj1 (Forall_forall _ _) Hkeys _ Hin) as ((s & Hk & Hs) & Hn).
  simpl in Hk, Hn. subst k. exists s. repeat split; try assumption.
  rewrite <- (Hocc s Hs). clear Hocc.
  induction c as [|[k' n'] c IH]; [destruct Hin|].
  simpl in Hnd. inversion Hnd as [|? ? Hx Hnd']. subst.
  inversion Hkeys as [|? ? ((u & Hu & _) & _) Hkeys']. subst.
  simpl in Hu. subst k'. simpl. rewrite eqb_texts.
  destruct Hin as [Heq|Hin].
  - injection Heq as -> ->. now rewrite String.eqb_refl.
  - destruct (String.eqb u s) eqn:E.
    + apply String.eqb_eq in E. subst u. exfalso. apply Hx.
      apply in_map_iff. exists (PStr s, n). auto.
    + now apply IH.
Qed.

Lemma tallies_counted (c : list (pyval * Z)) (occ : string -> Z)
  (s : string) :
  Shapes.tallies eqb c occ -> s <> EmptyString -> 1 <= occ s ->
  In (PStr s, occ s) c.
Proof.
  intros (Hkeys & _ & Hocc) Hs Hpos. rewrite <- (Hocc s Hs) in *.
  clear Hocc. induction c as [|[k' n'] c IH]; [simpl in Hpos; lia|].
  inversion Hkeys as [|? ? ((u & Hu & _) & _) Hkeys']. subst.
  simpl in Hu. subst k'. simpl in *. rewrite eqb_texts in *.
  destruct (String.eqb u s) eqn:E.
  - apply String.eqb_eq in E. subst u. now left.
  - right. now apply IH.
Qed.

End Counting.

Section MostCommon.

Import Aggregation.

Lemma insert_by_count_In (x y : pyval * Z) (l : list (pyval * Z)) :
  In y (insert_by_count x l) <-> y = x \/ In y l.
Proof.
  induction l as [|z l IH]; simpl.
  - intuition.
  - destruct (snd x <=? snd z); simpl; [rewrite IH|]; intuition.
Qed.

Lemma insert_by_count_ranked (x : pyval * Z) (l : list (pyval * Z)) :
  Shapes.ranked l -> Shapes.ranked (insert_by_count x l).
Proof.
  induction l as [|z l IH]; simpl.
  - intros _. split; [intros y []|exact I].
  - intros [Hz Hl]. destruct (snd x <=? snd z) eqn:E.
    + apply Z.leb_le in E. simpl. split; [|now apply IH].
      intros y Hy. apply insert_by_count_In in Hy.
      destruct Hy as [->|Hy]; [exact E|now apply Hz].
    + apply Z.leb_gt in E. simpl. split; [|now split].
      intros y [<-|Hy]; [lia|]. specialize (Hz y Hy). lia.
Qed.

Lemma insert_by_count_keys (x : pyval * Z) (l : list (pyval * Z)) :
  ~ In (fst x) (map fst l) -> NoDup (map fst l) ->
  NoDup (map fst (insert_by_count x l)).
Proof.
  induction l as [|z l IH]; simpl; intros Hx Hnd.
  - constructor; [intros []|constructor].
  - inversion Hnd as [|? ? Hz Hnd']. subst.
    destruct (snd x <=? snd z); simpl.
    + constructor; [|apply IH; tauto].
      intros Hin. apply in_map_iff in Hin.
      destruct Hin as (y & Hy & Hin). apply insert_by_count_In in Hin.
      destruct Hin as [->|Hin]; [apply Hx; left; congruence|].
      apply Hz. rewrite <- Hy. now apply in_map.
    + constructor; [exact Hx|exact Hnd].
Qed.

(** The sort behind [most_common]. *)
Lemma by_count_sorted (c acc : list (pyval * Z)) :
  Shapes.ranked acc ->
  NoDup (map fst acc) -> NoDup (map fst c) ->
  (forall k, In k (map fst c) -> ~ In k (map fst acc)) ->
  let sorted := fold_left (fun acc x => insert_by_count x acc) c acc in
  Shapes.ranked sorted
  /\ NoDup (map fst sorted)
  /\ forall y, In y sorted <-> In y c \/ In y acc.
Proof.
  revert acc. induction c as [|x c IH]; intros acc Hr Hna Hnc Hd; simpl.
  - split; [exact Hr|]. split; [exact Hna|]. intuition.
  - simpl in Hnc. inversion Hnc as [|? ? Hx Hnc']. subst.
    destruct (IH (insert_by_count x acc)) as (H1 & H2 & H3).
    + now apply insert_by_count_ranked.
    + apply insert_by_count_keys; [|exact Hna]. apply Hd. now left.
    + exact Hnc'.
    + intros k Hk Hin. apply in_map_iff in Hin.
      destruct Hin as (y & Hy & Hin). apply insert_by_count_In in Hin.
      destruct Hin as [->|Hin].
      * now subst.
      * apply (Hd k); [now right|]. rewrite <- Hy. now apply in_map.
    + split; [exact H1|]. split; [exact H2|].
      intros y. rewrite H3, insert_by_count_In. intuition.
Qed.

Lemma firstn_ranked (n : nat) (l : list (pyval * Z)) :
  Shapes.ranked l -> Shapes.ranked (firstn n l).
Proof.
  revert n. induction l as [|x l IH]; intros [|n]; simpl; try tauto.
  intros [Hx Hl]. split; [|now apply IH].
  intros y Hy. apply Hx. revert Hy. clear.
  revert n. induction l as [|z l IH]; intros [|n]; simpl; try tauto.
  intros [->|H]; [now left|right; eauto].
Qed.

(** What is cut off counts no more than what is kept. *)
Lemma firstn_top (n : nat) (l : list (pyval * Z)) (x y : pyval * Z) :
  Shapes.ranked l ->
  In x (firstn n l) -> In y l -> ~ In y (firstn n l) -> snd y <= snd x.
Proof.
  revert n. induction l as [|a l IH]; intros [|n]; simpl; try tauto.
  intros [Ha Hl] Hx Hy Hny.
  destruct Hy as [->|Hy]; [tauto|].
  destruct Hx as [<-|Hx]; [now apply Ha|].
  apply (IH n); tauto.
Qed.

Lemma firstn_cut {A} (n : nat) (l : list A) (y : A) :
  In y l -> ~ In y (firstn n l) -> List.length (firstn n l) = n.
Proof.
  intros Hy Hny. destruct (Nat.le_gt_cases (List.length l) n) as [H|H].
  - rewrite firstn_all2 in Hny by exact H. contradiction.
  - apply firstn_length_le. lia.
Qed.

(** [most_common n] of a counter with distinct keys: at most [n] entries
    of the counter, in descending order of count, keys distinct, and what
    it leaves out counts no more than anything it keeps. *)
Lemma most_common_top (n : nat) (c : list (pyval * Z)) :
  NoDup (map fst c) ->
  (List.length (most_common n c) <= n)%nat
  /\ Shapes.ranked (most_common n c)
  /\ NoDup (map fst (most_common n c))
  /\ (forall y, In y (most_common n c) -> In y c)
  /\ (forall y, In y c -> ~ In y (most_common n c) ->
        List.length (most_common n c) = n
        /\ forall x, In x (most_common n c) -> snd y <= snd x).
Proof.
  intros Hnd. unfold most_common.
  destruct (by_count_sorted c [] I (NoDup_nil _) Hnd (fun _ _ H => H))
    as (Hr & Hk & Hin). cbv zeta in *.
  set (sorted := fold_left (fun acc x => insert_by_count x acc) c []) in *.
  split; [apply firstn_le_length|].
  split; [now apply firstn_ranked|].
  split; [rewrite <- firstn_map; now apply firstn_NoDup|].
  split.
  - intros y Hy. apply firstn_In in Hy. apply Hin in Hy.
    now destruct Hy as [Hy|[]].
  - intros y Hy Hny. assert (Hs : In y sorted) by (apply Hin; now left).
    split; [now apply (firstn_cut n sorted y)|].
    intros x Hx. now apply (firstn_top n sorted x y).
Qed.

Lemma descending_cons (a b : Z) (rest : list Z) :
  Shapes.descending (a :: b :: rest)
  = (b <=? a) && Shapes.descending (b :: rest).
Proof. reflexivity. Qed.

Lemma ranked_descending (l : list (pyval * Z)) (f : pyval * Z -> pyval)
  (g : pyval -> Z) :
  (forall kv, g (f kv) = snd kv) ->
  Shapes.ranked l -> Shapes.descending (map g (map f l)) = true.
Proof.
  intros Hg. induction l as [|x l IH]; [reflexivity|].
  intros [Hx Hl]. destruct l as [|y l]; [reflexivity|].
  cbn [map] in *. rewrite descending_cons.
  apply andb_true_intro. split.
  - rewrite !Hg. apply Z.leb_le. apply Hx. now left.
  - apply IH. exact Hl.
Qed.

End MostCommon.

(** ** The popular products of a neighborhood *)

Section Popular.

Import Neighborhood.

Lemma occurrences_snoc (s : string) (done : list dict) (row : dict) :
  Shapes.occurrences s (done ++ [row])
  = Shapes.occurrences s done
    + (if eq_str (dict_get row "product_name" PNone) s then 1 else 0).
Proof.
  unfold Shapes.occurrences. rewrite filter_app, List.length_app. simpl.
  destruct (eq_str (dict_get row "product_name" PNone) s); simpl; lia.
Qed.

(** The counter of [_aggregate_products] tallies the rows by name. *)
Lemma count_names_rows (rows : list dict) :
  Shapes.optional_names rows = true ->
  forall c done,
    Shapes.tallies Hashable.eqb c (fun s => Shapes.occurrences s done) ->
    exists c',
      count_names c (map PDict rows) = Ok c'
      /\ Shapes.tallies Hashable.eqb c'
           (fun s => Shapes.occurrences s (done ++ rows)).
Proof.
  unfold Shapes.optional_names.
  induction rows as [|row rows IH]; intros Hnames c done Hc.
  - exists c. split; [reflexivity|]. now rewrite app_nil_r.
  - cbn [forallb] in Hnames. apply andb_prop in Hnames.
    destruct Hnames as [Hrow Hrows].
    cbn [map count_names get Py.bind].
    replace (done ++ row :: rows) with ((done ++ [row]) ++ rows)
      by (rewrite <- app_assoc; reflexivity).
    destruct (dict_get row "product_name" PNone) as [| | | |u| |] eqn:E;
      try discriminate.
    + cbn [truthy]. apply IH; [exact Hrows|].
      apply (tallies_ext Hashable.eqb c (fun s => Shapes.occurrences s done)); [|exact Hc].
      intros s _. rewrite occurrences_snoc, E. simpl. lia.
    + cbn [truthy]. destruct u as [|a u]; cbn [Str.is_empty negb].
      * apply IH; [exact Hrows|].
        apply (tallies_ext Hashable.eqb c (fun s => Shapes.occurrences s done));
          [|exact Hc].
        intros s Hs. rewrite occurrences_snoc, E. simpl.
        destruct s; [contradiction|]. simpl. lia.
      * cbn [Hashable.check Py.bind]. apply IH; [exact Hrows|].
        apply (tallies_ext Hashable.eqb _
                 (fun t => if String.eqb t (String a u)
                           then Shapes.occurrences t done + 1
                           else Shapes.occurrences t done)).
        -- intros s _. rewrite occurrences_snoc, E. cbn [eq_str].
           rewrite (String.eqb_sym s). destruct (String.eqb _ s); lia.
        -- apply (tallies_bump Hashable.eqb Hashable.bump); try reflexivity;
             [discriminate|exact Hc].
Qed.

Lemma eqb_text_r (x : pyval) (s : string) :
  Hashable.eqb x (PStr s) = true -> x = PStr s.
Proof.
  destruct x; simpl; try discriminate.
  - unfold Hashable.same_int. destruct (Hashable.float_as_Z f); discriminate.
  - intros H. apply String.eqb_eq in H. now subst.
Qed.

Lemma tallies_nothing :
  Shapes.tallies Hashable.eqb [] (fun s => Shapes.occurrences s []).
Proof.
  split; [constructor|]. split; [constructor|]. reflexivity.
Qed.

(** [_aggregate_products] returns the ten most common of a tally of the
    rows. *)
Lemma aggregate_products_runs (rows : list dict) :
  Shapes.optional_names rows = true ->
  exists c,
    Shapes.tallies Hashable.eqb c (fun s => Shapes.occurrences s rows)
    /\ _aggregate_products (map PDict rows)
       = Ok (map (fun kv => PDict [("product", fst kv);
                                   ("scan_count", PInt (snd kv))])
                 (Aggregation.most_common 10 c)).
Proof.
  intros H.
  destruct (count_names_rows rows H [] [] tallies_nothing) as (c & E & Hc).
  exists c. split; [exact Hc|]. unfold _aggregate_products. now rewrite E.
Qed.

(** X9.  On rows named by texts (or not named), [_aggregate_products]
    returns at most ten entries, one per product, in descending order of
    count, each holding a non-empty product name and the number of rows
    that carry this name, which is at least 1.  Rows without a name, or
    with an empty one, are not counted. *)
Theorem aggregate_products_counts (rows : list dict)
  (Hnames : Shapes.optional_names rows = true) :
  exists out,
    _aggregate_products (map PDict rows) = Ok out
    /\ (List.length out <= 10)%nat
    /\ Shapes.descending (map Shapes.scan_count out) = true
    /\ NoDup (map Shapes.popular_product out)
    /\ forall entry, In entry out ->
         exists s,
           s <> EmptyString
           /\ entry = Shapes.popular s (Shapes.occurrences s rows)
           /\ 1 <= Shapes.occurrences s rows.
Proof.
  destruct (aggregate_products_runs rows Hnames) as (c & Hc & E).
  destruct (most_common_top 10 c (proj1 (proj2 Hc)))
    as (Hlen & Hr & Hnd & Hin & _).
  eexists. split; [exact E|]. split; [now rewrite length_map|].
  split; [now apply ranked_descending|].
  split; [now rewrite map_map|].
  intros entry He. apply in_map_iff in He.
  destruct He as ([k n] & <- & He). apply Hin in He.
  destruct (tallies_entry Hashable.eqb (fun _ _ => eq_refl) c _ k n Hc He)
    as (s & -> & Hs & -> & Hpos).
  exists s. split; [exact Hs|]. split; [reflexivity|exact Hpos].
Qed.

(** X10.  The ten are the most common: a product that appears in some
    row and is left out of the result appears in no more rows than any
    product of the result, and then the result holds exactly ten
    entries. *)
Theorem aggregate_products_top (rows : list dict) (s : string)
  (Hnames : Shapes.optional_names rows = true)
  (Hnamed : s <> EmptyString)
  (Hseen : 1 <= Shapes.occurrences s rows) :
  exists out,
    _aggregate_products (map PDict rows) = Ok out
    /\ (In (Shapes.popular s (Shapes.occurrences s rows)) out
        \/ (List.length out = 10%nat
            /\ forall entry, In entry out ->
                 Shapes.occurrences s rows <= Shapes.scan_count entry)).
Proof.
  destruct (aggregate_products_runs rows Hnames) as (c & Hc & E).
  destruct (most_common_top 10 c (proj1 (proj2 Hc)))
    as (_ & _ & _ & Hkept & Hout).
  pose proof (tallies_counted Hashable.eqb (fun _ _ => eq_refl) c _ s Hc
                Hnamed Hseen) as Hin.
  eexists. split; [exact E|].
  set (y := (PStr s, Shapes.occurrences s rows)) in *.
  assert (Hdec : In y (Aggregation.most_common 10 c)
                 \/ ~ In y (Aggregation.most_common 10 c)).
  { destruct (existsb (fun kv => Hashable.eqb (fst kv) (PStr s))
                      (Aggregation.most_common 10 c)) eqn:Ex.
    - left. apply existsb_exists in Ex. destruct Ex as ([k n] & Hkn & Ek).
      apply eqb_text_r in Ek. simpl in Ek. subst k.
      pose proof (Hkept _ Hkn) as Hc'.
      destruct (tallies_entry Hashable.eqb (fun _ _ => eq_refl) c _ _ n Hc Hc')
        as (s' & Hs' & _ & -> & _).
      injection Hs' as <-. exact Hkn.
    - right. intros Hy.
      assert (Ex' : existsb (fun kv => Hashable.eqb (fst kv) (PStr s))
                            (Aggregation.most_common 10 c) = true).
      { apply existsb_exists. exists y. split; [exact Hy|].
        apply String.eqb_refl. }
      congruence. }
  destruct Hdec as [Hy|Hy].
  - left. apply in_map_iff. exists y. split; [reflexivity|exact Hy].
  - right. destruct (Hout y Hin Hy) as [Hlen Htop].
    split; [now rewrite length_map|].
    intros entry He. apply in_map_iff in He.
    destruct He as ([k n] & <- & He). apply (Htop _ He).
Qed.

End Popular.

(** Salt in three rows, noodles in one; the row without a name does not
    count. *)
Lemma aggregate_products_counts_witness :
  Neighborhood._aggregate_products (map PDict Shapes.five_rows)
  = Ok [Shapes.popular "Tata Salt" 3; Shapes.popular "Maggi" 1]
  /\ exists out,
       Neighborhood._aggregate_products (map PDict Shapes.five_rows) = Ok out
       /\ (List.length out <= 10)%nat
       /\ Shapes.descending (map Shapes.scan_count out) = true.
Proof.
  split; [reflexivity|].
  destruct (aggregate_products_counts Shapes.five_rows eq_refl)
    as (out & E & Hlen & Hdesc & _).
  exists out. auto.
Defined.

Lemma aggregate_products_top_witness :
  exists out,
    Neighborhood._aggregate_products (map PDict Shapes.five_rows) = Ok out
    /\ In (Shapes.popular "Maggi" 1) out.
Proof.
  destruct (aggregate_products_top Shapes.five_rows "Maggi" eq_refl)
    as (out & E & [Hin|[Hlen _]]).
  - discriminate.
  - vm_compute. discriminate.
  - exists out. split; [exact E|exact Hin].
  - exfalso. vm_compute in E. injection E as <-. discriminate Hlen.
Defined.

(** ** The aggregates of the nightly rollup *)

Section Aggregates.

Import Aggregation.

Variable py_round : spec_float -> Z -> spec_float.

(** The [Counter] of the rollup tallies texts. *)
Lemma counter_tallies (items : list pyval) :
  Shapes.texts items ->
  forall acc occ,
    Shapes.tallies Hashable.eqb acc occ ->
    exists c,
      count_items acc items = Ok c
      /\ Shapes.tallies Hashable.eqb c
           (fun s => occ s + Shapes.count_text s items).
Proof.
  induction 1 as [|v items (u & -> & Hu) Hitems IH]; intros acc occ Hacc.
  - exists acc. split; [reflexivity|].
    apply (tallies_ext Hashable.eqb acc occ); [|exact Hacc].
    intros s _. unfold Shapes.count_text. simpl. lia.
  - cbn [count_items Hashable.check Py.bind].
    destruct (IH (Hashable.bump (PStr u) acc)
                (fun s => if String.eqb s u then occ s + 1 else occ s))
      as (c & Ec & Hc).
    { apply (tallies_bump Hashable.eqb Hashable.bump); try reflexivity;
        assumption. }
    exists c. split; [exact Ec|].
    apply (tallies_ext Hashable.eqb _
             (fun s => (if String.eqb s u then occ s + 1 else occ s)
                       + Shapes.count_text s items)); [|exact Hc].
    intros s _. unfold Shapes.count_text. cbn [filter eq_str].
    rewrite (String.eqb_sym s).
    destruct (String.eqb u s); cbn [List.length]; lia.
Qed.

Lemma Counter_tallies (items : list pyval) :
  Shapes.texts items ->
  exists c,
    Counter items = Ok c
    /\ Shapes.tallies Hashable.eqb c (fun s => Shapes.count_text s items).
Proof.
  intros H. unfold Counter.
  destruct (counter_tallies items H [] (fun _ => 0)) as (c & Ec & Hc).
  { split; [constructor|]. split; [constructor|]. reflexivity. }
  exists c. split; [exact Ec|].
  apply (tallies_ext Hashable.eqb _
           (fun s => 0 + Shapes.count_text s items)); [intros; lia|].
  exact Hc.
Qed.

Lemma most_common_entries (n : nat) (items : list pyval) :
  Shapes.texts items ->
  exists c,
    Counter items = Ok c
    /\ (List.length (most_common n c) <= n)%nat
    /\ Shapes.ranked (most_common n c)
    /\ NoDup (map fst (most_common n c))
    /\ forall kv, In kv (most_common n c) ->
         exists s,
           s <> EmptyString
           /\ kv = (PStr s, Shapes.count_text s items)
           /\ 1 <= Shapes.count_text s items.
Proof.
  intros H. destruct (Counter_tallies items H) as (c & Ec & Hc).
  exists c. split; [exact Ec|].
  destruct (most_common_top n c (proj1 (proj2 Hc)))
    as (Hlen & Hr & Hnd & Hin & _).
  split; [exact Hlen|]. split; [exact Hr|]. split; [exact Hnd|].
  intros [k m] Hkv. apply Hin in Hkv.
  destruct (tallies_entry Hashable.eqb (fun _ _ => eq_refl) _ _ k m Hc Hkv)
    as (s & -> & Hs & -> & Hpos).
  exists s. auto.
Qed.

(** Counting adds at most one key for each item. *)
Lemma count_items_bounds (items : list pyval) :
  forall acc c,
    count_items acc items = Ok c ->
    (List.length acc <= List.length c
     <= List.length acc + List.length items)%nat.
Proof.
  induction items as [|v items IH]; intros acc c H; cbn [count_items] in H.
  - injection H as <-. cbn [List.length]. lia.
  - destruct (Hashable.check v); [|discriminate]. cbn [Py.bind] in H.
    apply IH in H. cbn [List.length].
    assert (Hb : forall k a,
               (List.length a <= List.length (Hashable.bump k a)
                <= S (List.length a))%nat).
    { intros k tally.
      induction tally as [|[k' m] tally IHt]; cbn [Hashable.bump].
      - cbn [List.length]. lia.
      - destruct (Hashable.eqb k' k); cbn [List.length]; lia. }
    specialize (Hb v acc). lia.
Qed.

Lemma filter_texts (f : product -> bool) (g : product -> pyval)
  (l : list product) :
  Forall (fun p => f p = true -> exists s, g p = PStr s /\ s <> EmptyString)
         l ->
  Shapes.texts (map g (filter f l)).
Proof.
  induction 1 as [|p l Hp Hl IH]; simpl; [constructor|].
  destruct (f p) eqn:E; [|exact IH]. constructor; [now apply Hp|exact IH].
Qed.

(** X11.  Over a non-empty window whose product names are scalars, those
    of the critical rows non-empty texts, and whose categories are texts or
    NULL, the aggregates of the rollup are computed and are: the
    categories, at most 8, and the products out of stock, at most 10, each
    with the number of rows that carry it and without
    repetition; the number of rows scanned; the number of distinct names,
    which is at most that; and as top stock-outs the first five products
    of the stock-out list. *)
Theorem aggregates_shape (all_products : list product)
  (Hwindow : all_products <> [])
  (Hscalars : Forall (fun p => Hashable.check (product_name p) = Ok tt)
                     all_products)
  (Hnames : Forall (fun p => eq_str (stock_level p) "critical" = true ->
                             exists s, product_name p = PStr s
                                       /\ s <> EmptyString) all_products)
  (Hcategories : Forall (fun p => Shapes.is_text_or_null (category p) = true)
                        all_products) :
  let stockouts :=
    map product_name
      (filter (fun p => eq_str (stock_level p) "critical") all_products) in
  let categories :=
    map category (filter (fun p => truthy (category p)) all_products) in
  exists cats outs signals unique,
    aggregates py_round all_products
    = Ok (PList cats, PList outs, PDict signals)
    /\ (List.length cats <= 8)%nat
    /\ (List.length outs <= 10)%nat
    /\ NoDup cats /\ NoDup outs
    /\ (forall entry, In entry cats ->
          exists s,
            s <> EmptyString
            /\ entry = PDict [("category", PStr s);
                              ("count",
                                PInt (Shapes.count_text s categories))]
            /\ 1 <= Shapes.count_text s categories)
    /\ (forall entry, In entry outs ->
          exists s,
            s <> EmptyString
            /\ entry = PDict [("product", PStr s);
                              ("times_critical",
                                PInt (Shapes.count_text s stockouts))]
            /\ 1 <= Shapes.count_text s stockouts)
    /\ lookup signals "total_products_scanned"
       = Some (PInt (Z.of_nat (List.length all_products)))
    /\ lookup signals "unique_products" = Some (PInt unique)
    /\ 0 <= unique <= Z.of_nat (List.length all_products)
    /\ lookup signals "top_stockouts"
       = Some (PList (map Shapes.popular_product (firstn 5 outs))).
Proof.
  intros stockouts categories.
  assert (Hs : Shapes.texts stockouts).
  { apply filter_texts. exact Hnames. }
  assert (Hc : Shapes.texts categories).
  { apply filter_texts. eapply Forall_impl; [|exact Hcategories].
    intros p Hp Ht. cbv beta in Hp.
    destruct (category p) as [| | | |u| |]; try discriminate.
    exists u. split; [reflexivity|]. intros ->. discriminate. }
  destruct (most_common_entries 10 stockouts Hs)
    as (c1 & Ec1 & Hl1 & Hr1 & Hn1 & He1).
  destruct (most_common_entries 8 categories Hc)
    as (c2 & Ec2 & Hl2 & Hr2 & Hn2 & He2).
  assert (Hall : Forall (fun v => Hashable.check v = Ok tt)
                        (map product_name all_products)).
  { apply Forall_map. exact Hscalars. }
  destruct (count_items_runs _ Hall []) as (c3 & Ec3).
  pose proof (count_items_bounds _ _ _ Ec3) as Hb3.
  rewrite length_map in Hb3. cbn [List.length] in Hb3.
  destruct all_products as [|p l]; [contradiction|].
  unfold aggregates. fold stockouts. fold categories.
  rewrite Ec1. cbn [Py.bind]. rewrite Ec2. cbn [Py.bind].
  unfold distinct, Counter at 1. rewrite Ec3. cbn [Py.bind].
  unfold rate.
  assert (H : forall a, exists f,
             Float64.int_truediv a (count (p :: l)) = Ok f).
  { intros a. unfold count. cbn [List.length].
    destruct (Z.of_nat (S (List.length l))) eqn:E; try lia.
    unfold Float64.int_truediv. destruct a; eauto.
    - destruct (SFdiv_core_binary _ _ _ _ _ _) as [[q e'] lc]. eauto.
    - destruct (SFdiv_core_binary _ _ _ _ _ _) as [[q e'] lc]. eauto. }
  destruct (H (count stockouts)) as (f1 & ->).
  destruct (H (count (map product_name
                        (filter (fun p => eq_str (stock_level p) "low")
                                (p :: l))))) as (f2 & ->).
  cbn [Py.bind].
  eexists. eexists. eexists. eexists. split; [reflexivity|].
  split; [now rewrite length_map|]. split; [now rewrite length_map|].
  assert (Hinj : forall (f : pyval * Z -> pyval) (mc : list (pyval * Z)),
             (forall kv, Shapes.first_value (f kv) = fst kv) ->
             NoDup (map fst mc) -> NoDup (map f mc)).
  { intros f mc Hf Hnd. apply (NoDup_map_inv Shapes.first_value).
    rewrite map_map. erewrite map_ext; [exact Hnd|]. exact Hf. }
  split; [apply Hinj; [reflexivity|exact Hn2]|].
  split; [apply Hinj; [reflexivity|exact Hn1]|].
  split.
  { intros entry He. apply in_map_iff in He. destruct He as (kv & <- & He).
    destruct (He2 kv He) as (s & Hs' & -> & Hpos). exists s. auto. }
  split.
  { intros entry He. apply in_map_iff in He. destruct He as (kv & <- & He).
    destruct (He1 kv He) as (s & Hs' & -> & Hpos). exists s. auto. }
  split; [reflexivity|]. split; [reflexivity|]. split; [lia|].
  cbn [lookup String.eqb Ascii.eqb Bool.eqb]. do 2 f_equal.
  rewrite firstn_map, map_map. reflexivity.
Qed.

End Aggregates.

(** Salt is out of stock in two rows of four. *)
Lemma aggregates_shape_witness :
  exists cats outs signals,
    Aggregation.aggregates Reference.round_whole Shapes.window_with_stockouts
    = Ok (PList cats, PList outs, PDict signals)
    /\ outs = [PDict [("product", PStr "Tata Salt");
                      ("times_critical", PInt 2)]]
    /\ cats = [PDict [("category", PStr "Staples"); ("count", PInt 2)];
               PDict [("category", PStr "Snacks"); ("count", PInt 1)];
               PDict [("category", PStr "Biscuits"); ("count", PInt 1)]]
    /\ lookup signals "top_stockouts" = Some (PList [PStr "Tata Salt"]).
Proof.
  destruct (aggregates_shape Reference.round_whole
              Shapes.window_with_stockouts)
    as (cats & outs & signals & unique & E & _).
  - discriminate.
  - repeat constructor.
  - repeat constructor; intros _; eexists; split;
      first [reflexivity | discriminate].
  - repeat constructor.
  - exists cats, outs, signals. split; [exact E|].
    vm_compute in E. injection E as <- <- <-.
    split; [reflexivity|]. split; reflexivity.
Defined.

(** ** The shelf analysis *)

Section ShelfAnalysis.

Import Vision.

Variable json_loads : string -> result pyval.
Variable json_dumps : pyval -> string.
Variable py_str : pyval -> string.

(** X12.  When the reply of the vision model, cleaned of its fences,
    parses to an object, [analyze_shelf_image] returns that object with
    [image_url] set to the address of the uploaded image (an [image_url] of
    the reply is overwritten) and every other key as the reply gave it.
    When the reply parses only through its braces, after a decode error,
    the object is returned as the braces gave it: [image_url] is not
    set on that path. *)
Theorem analyze_shelf_image_sets_image_url (text image_url : string) :
  (forall reply,
      json_loads (Debate.clean text) = Ok (PDict reply) ->
      exists vision_data,
        analyze_shelf_image json_loads (Ok text) image_url
        = Ok (PDict vision_data)
        /\ lookup vision_data "image_url" = Some (PStr image_url)
        /\ forall k, k <> "image_url" ->
                     lookup vision_data k = lookup reply k)
  /\ (forall inner rescued,
        json_loads (Debate.clean text) = Raise JSONDecodeError ->
        Str.re_search_braces (Debate.clean text) = Some inner ->
        json_loads inner = Ok rescued ->
        analyze_shelf_image json_loads (Ok text) image_url = Ok rescued).
Proof.
  split.
  - intros reply E. unfold analyze_shelf_image. rewrite E.
    eexists. split; [reflexivity|]. split.
    + rewrite lookup_dict_set. now rewrite String.eqb_refl.
    + intros k Hk. rewrite lookup_dict_set.
      destruct (String.eqb "image_url" k) eqn:Ek; [|reflexivity].
      apply String.eqb_eq in Ek. congruence.
  - intros inner rescued E1 E2 E3. unfold analyze_shelf_image, rescue.
    now rewrite E1, E2, E3.
Qed.

(** The fallback structure has the documented shape, with nothing in
    it. *)
Lemma fallback_vision_shape (image_url : string) :
  Spec.detected_products (_fallback_vision_data image_url) = Some []
  /\ Spec.urgent_items (_fallback_vision_data image_url) = Some [].
Proof. split; reflexivity. Qed.

(** X13.  A reply that [json.loads] refuses, as a whole and in its
    braces, does not fail the analysis: [analyze_shelf_image] returns the
    fallback structure, with the address of the image.  The pipeline runs
    on it: the health score is 0, no product row is saved, and the debate
    returns its three rounds and a recommendation, whatever the providers
    do. *)
Theorem analyze_shelf_image_falls_back (reply : result string)
  (image_url : string) (w : Debate.world) (store_info : dict)
  (pincode scan : pyval) (store_id : string) (e : Db.env) (st : Db.state)
  (Hrefused :
     reply = Raise JSONDecodeError
     \/ exists text,
          reply = Ok text
          /\ json_loads (Debate.clean text) = Raise JSONDecodeError
          /\ forall inner,
               Str.re_search_braces (Debate.clean text) = Some inner ->
               exists x, json_loads inner = Raise x) :
  analyze_shelf_image json_loads reply image_url
  = Ok (PDict (_fallback_vision_data image_url))
  /\ lookup (_fallback_vision_data image_url) "image_url"
     = Some (PStr image_url)
  /\ Health._calculate_health_score (_fallback_vision_data image_url) = Ok 0
  /\ Main.save_products scan store_id (_fallback_vision_data image_url) e st
     = (Ok tt, st)
  /\ exists r,
       Debate.run_ai_debate json_loads json_dumps py_str w
         (_fallback_vision_data image_url) store_info pincode = Ok r
       /\ map Debate.round_type (Debate.rounds r)
          = ["presenter"; "critic"; "decider"]
       /\ truthy (Debate.final_recommendation r) = true.
Proof.
  split.
  { destruct Hrefused as [->|(text & -> & E & Hinner)]; [reflexivity|].
    unfold analyze_shelf_image, rescue. rewrite E.
    destruct (Str.re_search_braces (Debate.clean text)) as [inner|] eqn:B;
      [|reflexivity].
    destruct (Hinner inner eq_refl) as (x & ->). reflexivity. }
  split; [reflexivity|]. split; [reflexivity|]. split; [reflexivity|].
  destruct (fallback_vision_shape image_url) as [Hp Hu].
  destruct (run_ai_debate_returns json_loads json_dumps py_str w
              (_fallback_vision_data image_url) store_info pincode)
    as (r & E & Hr & Ht & _).
  - rewrite Hp. discriminate.
  - rewrite Hu. discriminate.
  - exists r. auto.
Qed.

End ShelfAnalysis.

(** A reply wrapped in prose is rescued through its braces and comes back
    without an [image_url]; a reply that is an object gets one. *)
Lemma analyze_shelf_image_sets_image_url_witness :
  Vision.analyze_shelf_image Json.loads (Ok Shapes.noisy_reply)
    "https://res.cloudinary.com/shelf.jpg"
  = Ok (PDict [("products", PList [])])
  /\ Vision.analyze_shelf_image Json.loads (Ok Spec.fenced_reply)
       "https://res.cloudinary.com/shelf.jpg"
     = Ok (PDict [("a", PInt 1);
                  ("image_url", PStr "https://res.cloudinary.com/shelf.jpg")]).
Proof.
  destruct (analyze_shelf_image_sets_image_url Json.loads
              Shapes.noisy_reply "https://res.cloudinary.com/shelf.jpg")
    as [_ H].
  split.
  - apply (H ("{" +++ Str.dq +++ "products" +++ Str.dq +++ ": []}"));
      vm_compute; reflexivity.
  - vm_compute. reflexivity.
Defined.

(** A reply without any brace. *)
Lemma analyze_shelf_image_falls_back_witness :
  Vision.analyze_shelf_image Json.loads (Ok "I cannot see a shelf.")
    "https://res.cloudinary.com/shelf.jpg"
  = Ok (PDict (Vision._fallback_vision_data
                 "https://res.cloudinary.com/shelf.jpg")).
Proof.
  apply (analyze_shelf_image_falls_back Json.loads Reference.dumps
           Reference.str_of (Ok "I cannot see a shelf.")
           "https://res.cloudinary.com/shelf.jpg" Spec.world_all_down
           Spec.ramesh (PStr "110001") (PInt 1) "store-1" Spec.quiet
           Db.empty).
  right. exists "I cannot see a shelf.". split; [reflexivity|].
  split; [vm_compute; reflexivity|].
  intros inner H. vm_compute in H. discriminate.
Defined.

(** ** The webhook on text messages *)

Section TextMessages.

Import Webhook.


End TextMessages.


(** ** The scan pipeline when it cannot run *)

Section ScanFailures.

Import Main.

Variable json_loads : string -> result pyval.
Variable json_dumps : pyval -> string.
Variable py_str : pyval -> string.
Variable set_list : list pyval -> result (list pyval).

(** X15.  A scan for a store id that no row of [stores] carries is
    refused and leaves no trace: no table changes, no write is recorded,
    one call is made.  When the store answers the lookup the refusal is
    404; when the lookup itself fails it is 500, or the HTTP error the
    lookup raised. *)
Theorem scan_shelf_unknown_store (sv : services) (store_id : string)
  (e : Db.env) (st : Db.state)
  (Hunknown : filter (Db.matches [("id", PStr store_id)])
                     (Db.table st "stores") = []) :
  exists x st',
    scan_shelf json_loads json_dumps py_str set_list sv store_id e st
    = (Raise x, st')
    /\ Db.tables st' = Db.tables st
    /\ Db.journal st' = Db.journal st
    /\ Db.calls st' = S (Db.calls st)
    /\ (Db.fault e (Db.calls st) = None ->
        x = HTTPException 404 "Store not found")
    /\ (forall y, Db.fault e (Db.calls st) = Some y ->
          x = match y with
              | HTTPException _ _ => y
              | _ => HTTPException 500
                       ("Scan pipeline failed: " +++ message y)
              end).
Proof.
  unfold scan_shelf, open_scan, Db.bind at 1, Db.select.
  destruct (Db.fault e (Db.calls st)) as [y|] eqn:F.
  - rewrite (call_fails _ _ _ _ F).
    destruct y; (eexists; eexists; split; [reflexivity|]);
      cbn [Db.tables Db.journal Db.calls];
      (split; [reflexivity|]); (split; [reflexivity|]);
      (split; [reflexivity|]); (split; [discriminate|]);
      intros y Hy; injection Hy as <-; reflexivity.
  - rewrite (call_ok _ _ _ F). cbn [fst snd]. same_tables. rewrite Hunknown.
    eexists. eexists. split; [reflexivity|].
    cbn [Db.tables Db.journal Db.calls].
    split; [reflexivity|]. split; [reflexivity|]. split; [reflexivity|].
    split; [reflexivity|]. discriminate.
Qed.

(** X16.  When the vision analysis raises, on a store that answers, the
    scan that was opened is marked failed and the request is answered 500
    with the message of the exception: the statuses written to the scan are
    processing, then failed; its row holds the error message; no row of any
    other table is written. *)
Theorem scan_shelf_marks_failed (sv : services) (store_id : string)
  (e : Db.env) (st : Db.state) (store : dict) (others : list dict)
  (url : string) (x : exn)
  (Hquiet : Spec.never_fails e)
  (Hstore : filter (Db.matches [("id", PStr store_id)])
                   (Db.table st "stores") = store :: others)
  (Hfresh : forall row, In row (Db.table st "scans") ->
                        Db.matches [("id", PInt (Db.next_id st))] row = false)
  (Hupload : upload_image sv = Ok url)
  (Hvision : analyze_shelf_image sv = Raise x)
  (Hnot_http : forall code detail, x <> HTTPException code detail) :
  exists st' row,
    scan_shelf json_loads json_dumps py_str set_list sv store_id e st
    = (Raise (HTTPException 500 ("Scan pipeline failed: " +++ message x)),
       st')
    /\ Db.table st' "scans" = Db.table st "scans" ++ [row]
    /\ lookup row "id" = Some (PInt (Db.next_id st))
    /\ lookup row "status" = Some (PStr "failed")
    /\ lookup row "error_message" = Some (PStr (message x))
    /\ (exists j,
          Db.journal st' = Db.journal st ++ j
          /\ Db.history "scans" "status" (PInt (Db.next_id st)) j
             = [PStr "processing"; PStr "failed"])
    /\ forall name, name <> "scans" -> Db.table st' name = Db.table st name.
Proof.
  destruct (open_scan_runs sv store_id e st store others url Hquiet Hstore
              Hupload) as (row & st1 & E1 & Erow & T1 & J1).
  assert (Hother1 : forall name, name <> "scans" ->
                      Db.table st1 name = Db.table st name).
  { intros name Hn.
    assert (F : Spec.frames name (open_scan sv store_id)).
    { unfold open_scan. apply frames_bind; [apply frames_select|].
      intros [|s ss]; [apply frames_raise|].
      apply frames_bind; [apply frames_lift|]. intros u.
      apply frames_bind; [apply frames_utcnow|]. intros now.
      apply frames_bind; [apply frames_insert; congruence|]. intros r.
      apply frames_bind; [apply frames_lift|]. intros i. apply frames_ret. }
    exact (proj1 (F _ _ _ _ E1)). }
  unfold scan_shelf. rewrite E1. unfold Db.try_except.
  assert (Erun : run_scan json_loads json_dumps py_str set_list sv store_id
                   store url (PInt (Db.next_id st)) e st1 = (Raise x, st1)).
  { unfold run_scan. unfold Db.bind at 1, Db.lift. now rewrite Hvision. }
  rewrite Erun.
  assert (Eon : on_error (Some (PInt (Db.next_id st))) x
                = mark_failed (PInt (Db.next_id st)) x).
  { destruct x; try reflexivity. exfalso. eapply Hnot_http. reflexivity. }
  rewrite Eon. unfold mark_failed, Db.try_except.
  unfold Db.bind at 1.
  destruct (update_spec "scans"
              [("status", PStr "failed");
               ("error_message", PStr (message x))]
              [("id", PInt (Db.next_id st))] e st1 Hquiet)
    as (st2 & E2 & T2 & J2).
  rewrite E2. cbn [Db.raise].
  assert (Hhit : Db.matches [("id", PInt (Db.next_id st))] row = true).
  { subst row. cbn. now rewrite Z.eqb_refl. }
  assert (Hmap : map (fun r => if Db.matches [("id", PInt (Db.next_id st))] r
                               then Db.apply_changes
                                      [("status", PStr "failed");
                                       ("error_message", PStr (message x))] r
                               else r) (Db.table st "scans")
                 = Db.table st "scans").
  { clear - Hfresh. induction (Db.table st "scans") as [|r l IH];
      [reflexivity|]. cbn [map].
    rewrite (Hfresh r (or_introl eq_refl)). f_equal.
    apply IH. intros r' Hr'. apply Hfresh. now right. }
  exists st2. eexists. split; [reflexivity|].
  split.
  { rewrite T2, T1, map_app, Hmap. cbn [map]. rewrite Hhit. reflexivity. }
  subst row. split; [reflexivity|]. split; [reflexivity|].
  split; [reflexivity|]. split.
  - eexists. split.
    + rewrite J2, J1, <- app_assoc. reflexivity.
    + rewrite T1, filter_app, (filter_none _ _ Hfresh).
      cbn [app filter]. rewrite Hhit. cbn [map app Db.history Db.written].
      cbn. now rewrite !Z.eqb_refl.
  - intros name Hn. rewrite <- (Hother1 name Hn).
    assert (F : Spec.frames name
                  (Db.update "scans"
                     [("status", PStr "failed");
                      ("error_message", PStr (message x))]
                     [("id", PInt (Db.next_id st))])).
    { apply frames_update. congruence. }
    exact (proj1 (F _ _ _ _ E2)).
Qed.

End ScanFailures.

(** A scan for a store that is not on file. *)
Lemma scan_shelf_unknown_store_witness :
  exists st',
    Spec.scan_shelf_ref (Spec.services_with Spec.voice_up) "store-9"
      Spec.quiet Spec.one_store
    = (Raise (HTTPException 404 "Store not found"), st')
    /\ Db.tables st' = Db.tables Spec.one_store.
Proof.
  destruct (scan_shelf_unknown_store Json.loads Reference.dumps
              Reference.str_of Reference.set_list
              (Spec.services_with Spec.voice_up) "store-9" Spec.quiet
              Spec.one_store eq_refl)
    as (x & st' & E & T & _ & _ & Hx & _).
  rewrite (Hx eq_refl) in E. exists st'. split; [exact E|exact T].
Defined.

(** The vision analysis raises on Ramesh's photo. *)
Lemma scan_shelf_marks_failed_witness :
  exists st',
    Spec.scan_shelf_ref Spec.services_blind "store-1" Spec.quiet
      Spec.one_store
    = (Raise (HTTPException 500 "Scan pipeline failed: vision failed"), st')
    /\ map (fun row => dict_get row "status" PNone) (Db.table st' "scans")
       = [PStr "failed"].
Proof.
  destruct (scan_shelf_marks_failed Json.loads Reference.dumps
              Reference.str_of Reference.set_list Spec.services_blind
              "store-1" Spec.quiet Spec.one_store Spec.ramesh_row []
              "https://res.cloudinary.com/shelf.jpg"
              (ExternalError "vision failed"))
    as (st' & row & E & T & _ & Hs & _).
  - intros n. reflexivity.
  - reflexivity.
  - intros row [].
  - reflexivity.
  - reflexivity.
  - discriminate.
  - exists st'. split; [exact E|]. rewrite T. cbn [Db.table Spec.one_store
      Db.tables Db.rows_of String.eqb Ascii.eqb Bool.eqb app map].
    unfold dict_get. now rewrite Hs.
Defined.

(** ** What a completed scan persists *)

(** Frames through the control structure of a store computation. *)
Ltac frames_of name :=
  repeat first
    [ apply frames_ret | apply frames_raise | apply frames_lift
    | apply frames_utcnow | apply frames_select | apply frames_select_latest
    | apply frames_select_limit
    | apply frames_insert; congruence
    | apply frames_insert_many; congruence
    | apply frames_update; congruence
    | apply frames_bind; [|intros ?]
    | apply frames_try_except; [|intros ?]
    | apply frames_for_each; intros ?
    | apply frames_map_db; intros ?
    | match goal with
      | |- Spec.frames _ (match ?x with _ => _ end) => destruct x
      | |- Spec.frames _ (if ?x then _ else _) => destruct x
      end ].

Section CompletedScan.

Import Main.

Variable json_loads : string -> result pyval.
Variable json_dumps : pyval -> string.
Variable py_str : pyval -> string.
Variable set_list : list pyval -> result (list pyval).

Lemma save_products_frames (name : string) (scan : pyval)
  (store_id : string) (vision_data : dict) :
  name <> "detected_products" ->
  Spec.frames name (save_products scan store_id vision_data).
Proof. intros H. unfold save_products, product_row. frames_of name. Qed.

Lemma save_rounds_frames (name : string) (scan : pyval)
  (rs : list Debate.round) :
  name <> "debate_rounds" ->
  Spec.frames name (for_each (save_round scan) rs).
Proof. intros H. unfold save_round. frames_of name. Qed.

Lemma update_neighborhood_frames (name : string) (store_id : string)
  (pincode : pyval) (vision_data : dict) :
  name <> "neighborhood_demand" ->
  Spec.frames name
    (_update_neighborhood json_loads json_dumps set_list store_id pincode
       vision_data).
Proof. intros H. unfold _update_neighborhood. frames_of name. Qed.

Lemma products_of_shape (vision_data : dict) (ps : list dict) :
  Spec.detected_products vision_data = Some ps ->
  dict_get vision_data "products" (PList []) = PList (map PDict ps).
Proof.
  unfold Spec.detected_products, dict_get.
  destruct (lookup vision_data "products") as [v|].
  - destruct v; try discriminate. intros H. f_equal. now apply as_dicts_map.
  - intros H. injection H as <-. reflexivity.
Qed.

(** The three stages come back in order from a debate that returned. *)
Lemma run_ai_debate_rounds (w : Debate.world) (vision_data store_info : dict)
  (pincode : pyval) (r : Debate.debate) :
  Debate.run_ai_debate json_loads json_dumps py_str w vision_data store_info
    pincode = Ok r ->
  map Debate.round_type (Debate.rounds r)
  = ["presenter"; "critic"; "decider"].
Proof.
  unfold Debate.run_ai_debate. intros H.
  destruct (Debate.run_presenter _ _ _ _) as [p|]; [|discriminate].
  cbn [Py.bind] in H.
  destruct (Debate.run_decider _ _ _ _ _) as [d|]; [|discriminate].
  cbn [Py.bind] in H.
  match type of H with
  | Py.bind ?m _ = _ => destruct m as [h1|]; [|discriminate]
  end.
  cbn [Py.bind] in H.
  match type of H with
  | Py.bind ?m _ = _ => destruct m as [h2|]; [|discriminate]
  end.
  cbn [Py.bind] in H. injection H as <-. reflexivity.
Qed.

(** Saving the rounds appends one row of [debate_rounds] for each, in
    order, under the id of the scan. *)
Lemma save_rounds_rows (scan : pyval) (rs : list Debate.round) (e : Db.env) :
  Spec.never_fails e ->
  forall st,
  exists st' rows,
    for_each (save_round scan) rs e st = (Ok tt, st')
    /\ Db.table st' "debate_rounds" = Db.table st "debate_rounds" ++ rows
    /\ map (fun row => lookup row "agent_type") rows
       = map (fun r => Some (PStr (Debate.round_type r))) rs
    /\ map (fun row => lookup row "agent_name") rows
       = map (fun r => Some (PStr (Debate.round_agent r))) rs
    /\ Forall (fun row => lookup row "scan_id" = Some scan) rows.
Proof.
  intros Hq. induction rs as [|r rs IH]; intros st.
  - exists st, []. split; [reflexivity|]. rewrite app_nil_r.
    repeat split. constructor.
  - cbn [for_each]. unfold save_round at 1.
    unfold Db.bind at 1. unfold Db.bind at 1. unfold Db.bind at 1.
    cbn [Db.utcnow]. rewrite insert_quiet by exact Hq. cbn [Db.ret].
    match goal with
    | |- context [for_each _ rs e ?s] =>
        destruct (IH s) as (st' & rows & E & T & Ht & Hn & Hs)
    end.
    rewrite E. eexists. eexists. split; [reflexivity|].
    rewrite T, table_set_rows_same. same_tables.
    rewrite <- app_assoc. split; [reflexivity|].
    cbn [map app lookup String.eqb Ascii.eqb Bool.eqb].
    split; [now rewrite Ht|]. split; [now rewrite Hn|].
    constructor; [reflexivity|exact Hs].
Qed.

(** A step that leaves a table hands it on as it was. *)
Lemma left_alone {A} (name : string) (m : Db.M A) (e : Db.env)
  (s s' : Db.state) (r : result A) :
  Spec.frames name m -> m e s = (r, s') ->
  Db.table s' name = Db.table s name.
Proof. intros F E. exact (proj1 (F _ _ _ _ E)). Qed.

(** X17.  A scan all of whose steps succeed, on a store that answers,
    persists exactly three debate rounds under its id, those of the
    presenter, the critic and the decider in this order, and one voice
    note that carries the recommendation and the voice reference of the
    response; the response reports the three rounds, the health score and
    the number of detected products. *)
Theorem scan_shelf_persists (sv : services) (store_id : string)
  (e : Db.env) (st : Db.state) (store : dict) (others : list dict)
  (url : string) (vision_data : dict) (ps : list dict) (r : Debate.debate)
  (health : Z) (scans_after : pyval)
  (Hquiet : Spec.never_fails e)
  (Hstore : filter (Db.matches [("id", PStr store_id)])
                   (Db.table st "stores") = store :: others)
  (Hupload : upload_image sv = Ok url)
  (Hvision : analyze_shelf_image sv = Ok vision_data)
  (Hshape : Spec.detected_products vision_data = Some ps)
  (Hdebate : Debate.run_ai_debate json_loads json_dumps py_str
               (debate_world sv) vision_data store
               (dict_get store "pincode" (PStr EmptyString)) = Ok r)
  (Hhealth : Health._calculate_health_score vision_data = Ok health)
  (Hcount : add_one (dict_get store "total_scans" (PInt 0))
            = Ok scans_after) :
  exists response st' rounds note,
    scan_shelf json_loads json_dumps py_str set_list sv store_id e st
    = (Ok response, st')
    /\ scan_id response = PInt (Db.next_id st)
    /\ debate_rounds response = Debate.rounds r
    /\ final_recommendation response = Debate.final_recommendation r
    /\ voice_note_url response
       = fst (Voice.generate_hindi_voice (voice_world sv)
                (Debate.final_recommendation r))
    /\ shelf_health_score response = health
    /\ products_detected response = Z.of_nat (List.length ps)
    /\ Db.table st' "debate_rounds" = Db.table st "debate_rounds" ++ rounds
    /\ map (fun row => lookup row "agent_type") rounds
       = [Some (PStr "presenter"); Some (PStr "critic");
          Some (PStr "decider")]
    /\ Forall (fun row => lookup row "scan_id" = Some (scan_id response))
              rounds
    /\ Db.table st' "voice_notes" = Db.table st "voice_notes" ++ [note]
    /\ lookup note "scan_id" = Some (scan_id response)
    /\ lookup note "audio_url" = Some (PStr (voice_note_url response))
    /\ lookup note "duration_seconds"
       = Some (PInt (snd (Voice.generate_hindi_voice (voice_world sv)
                            (Debate.final_recommendation r))))
    /\ lookup note "text_content" = Some (final_recommendation response).
Proof.
  destruct (open_scan_runs sv store_id e st store others url Hquiet Hstore
              Hupload) as (row & st1 & E1 & _ & _ & _).
  assert (F1 : forall name, name <> "scans" ->
                 Db.table st1 name = Db.table st name).
  { intros name Hn. apply (left_alone name (open_scan sv store_id) e st st1
                             (Ok (store, url, PInt (Db.next_id st))));
      [|exact E1].
    unfold open_scan. frames_of name. }
  unfold scan_shelf. rewrite E1. unfold Db.try_except.
  set (n := Db.next_id st) in *.
  remember (run_scan json_loads json_dumps py_str set_list sv store_id store
              url (PInt n) e st1) as out eqn:Eout.
  unfold run_scan in Eout.
  rewrite Hvision, bind_lift_ok in Eout.
  assert (Hshape' : Spec.detected_products vision_data <> None)
    by (rewrite Hshape; discriminate).
  (* the detected products *)
  pose proof (save_products_runs (PInt n) store_id vision_data e st1 Hquiet
                Hshape') as R2.
  destruct (save_products (PInt n) store_id vision_data e st1)
    as [[[]|x2] s2] eqn:E2; [clear R2|discriminate].
  rewrite (bind_ok _ _ _ _ _ _ E2), Hdebate, bind_lift_ok in Eout.
  (* the debate rounds *)
  destruct (save_rounds_rows (PInt n) (Debate.rounds r) e Hquiet s2)
    as (s3 & rounds & E3 & T3 & Htypes & _ & Hscan).
  rewrite (bind_ok _ _ _ _ _ _ E3) in Eout.
  (* the voice stage *)
  cbv zeta in Eout.
  rewrite (bind_ok _ _ _ _ _ _
             (voice_stage_total sv (Debate.final_recommendation r) e s3))
    in Eout.
  destruct (Voice.generate_hindi_voice (voice_world sv)
              (Debate.final_recommendation r)) as [voice_url duration].
  cbv beta iota in Eout.
  destruct (utcnow_runs e s3) as (s4 & E4).
  rewrite (bind_ok _ _ _ _ _ _ E4) in Eout.
  match type of Eout with
  | context [Db.insert "voice_notes" ?row] =>
      set (note := row) in *;
      pose proof (insert_quiet "voice_notes" note e s4 Hquiet) as E5
  end.
  match type of E5 with
  | _ = (_, ?s) => set (s5 := s) in *
  end.
  rewrite (bind_ok _ _ _ _ _ _ E5) in Eout.
  (* the health score and the completion *)
  rewrite Hhealth, bind_lift_ok in Eout.
  rewrite (products_of_shape _ _ Hshape) in Eout. cbn [len] in Eout.
  rewrite bind_lift_ok in Eout.
  destruct (utcnow_runs e s5) as (s6 & E6).
  rewrite (bind_ok _ _ _ _ _ _ E6) in Eout.
  match type of Eout with
  | context [Db.update "scans" ?changes ?filters] =>
      destruct (update_spec "scans" changes filters e s6 Hquiet)
        as (s7 & E7 & _ & _);
      pose proof (fun name (H : name <> "scans") =>
                    left_alone name _ e s6 s7 _
                      (frames_update name "scans" changes filters
                         (fun E => H (eq_sym E))) E7) as F7
  end.
  rewrite (bind_ok _ _ _ _ _ _ E7) in Eout.
  rewrite Hcount, bind_lift_ok in Eout.
  destruct (utcnow_runs e s7) as (s8 & E8).
  rewrite (bind_ok _ _ _ _ _ _ E8) in Eout.
  match type of Eout with
  | context [Db.update "stores" ?changes ?filters] =>
      destruct (update_spec "stores" changes filters e s8 Hquiet)
        as (s9 & E9 & _ & _);
      pose proof (fun name (H : name <> "stores") =>
                    left_alone name _ e s8 s9 _
                      (frames_update name "stores" changes filters
                         (fun E => H (eq_sym E))) E9) as F9
  end.
  rewrite (bind_ok _ _ _ _ _ _ E9) in Eout.
  (* the neighborhood, best effort *)
  pose proof (swallowed_runs_neighborhood json_loads json_dumps set_list
                store_id (dict_get store "pincode" PNone) vision_data e s9)
    as R10.
  destruct (_update_neighborhood json_loads json_dumps set_list store_id
              (dict_get store "pincode" PNone) vision_data e s9)
    as [[[]|x10] s10] eqn:E10; [clear R10|discriminate].
  pose proof (fun name (H : name <> "neighborhood_demand") =>
                left_alone name _ e s9 s10 _
                  (update_neighborhood_frames name store_id _ vision_data H)
                  E10) as F10.
  rewrite (bind_ok _ _ _ _ _ _ E10) in Eout.
  cbn [Db.ret] in Eout. subst out.
  (* the tables, step by step *)
  assert (T4 : forall name, Db.table s4 name = Db.table s3 name).
  { intros name. injection E4 as <-. reflexivity. }
  assert (T6 : forall name, Db.table s6 name = Db.table s5 name).
  { intros name. injection E6 as <-. reflexivity. }
  assert (T8 : forall name, Db.table s8 name = Db.table s7 name).
  { intros name. injection E8 as <-. reflexivity. }
  assert (T2r : Db.table s2 "debate_rounds" = Db.table st "debate_rounds").
  { rewrite (left_alone "debate_rounds" _ e st1 s2 _
               (save_products_frames "debate_rounds" _ _ _
                  ltac:(discriminate)) E2).
    apply F1. discriminate. }
  assert (T3v : Db.table s3 "voice_notes" = Db.table st "voice_notes").
  { rewrite (left_alone "voice_notes" _ e s2 s3 _
               (save_rounds_frames "voice_notes" _ _ ltac:(discriminate))
               E3).
    rewrite (left_alone "voice_notes" _ e st1 s2 _
               (save_products_frames "voice_notes" _ _ _
                  ltac:(discriminate)) E2).
    apply F1. discriminate. }
  eexists. exists s10. exists rounds.
  exists (("id", PInt (Db.next_id s4)) :: note).
  split; [reflexivity|].
  cbn [scan_id debate_rounds final_recommendation voice_note_url
       shelf_health_score products_detected fst snd].
  split; [reflexivity|]. split; [reflexivity|]. split; [reflexivity|].
  split; [reflexivity|]. split; [reflexivity|].
  split; [now rewrite length_map|].
  split.
  { rewrite F10, F9, T8, F7, T6 by discriminate. subst s5.
    rewrite table_set_rows_other by discriminate.
    now rewrite T4, T3, T2r. }
  split.
  { rewrite Htypes,
      <- (map_map Debate.round_type (fun t => Some (PStr t))),
      (run_ai_debate_rounds _ _ _ _ _ Hdebate). reflexivity. }
  split; [exact Hscan|].
  split.
  { rewrite F10, F9, T8, F7, T6 by discriminate. subst s5.
    rewrite table_set_rows_same. now rewrite T4, T3v. }
  repeat split.
Qed.

End CompletedScan.

(** Ramesh's scan with every provider of the debate down and the voice
    synthesis up: three rounds on file, and the voice note. *)
Lemma scan_shelf_persists_witness :
  exists response st',
    Spec.scan_shelf_ref (Spec.services_with Spec.voice_up) "store-1"
      Spec.quiet Spec.one_store = (Ok response, st')
    /\ map (fun row => dict_get row "agent_type" PNone)
           (Db.table st' "debate_rounds")
       = [PStr "presenter"; PStr "critic"; PStr "decider"]
    /\ Main.voice_note_url response = "https://res.cloudinary.com/voice.mp3"
    /\ Main.products_detected response = 10.
Proof.
  destruct (Debate.run_ai_debate Json.loads Reference.dumps Reference.str_of
              Spec.world_all_down Spec.ten_products Spec.ramesh_row
              (PStr "110001")) as [r|x] eqn:Hdebate;
    [|vm_compute in Hdebate; discriminate].
  destruct (scan_shelf_persists Json.loads Reference.dumps Reference.str_of
              Reference.set_list (Spec.services_with Spec.voice_up)
              "store-1" Spec.quiet Spec.one_store Spec.ramesh_row []
              "https://res.cloudinary.com/shelf.jpg" Spec.ten_products
              (repeat (Spec.shelf_item "ok" true) 7
               ++ repeat (Spec.shelf_item "low" true) 2
               ++ [Spec.shelf_item "critical" false])
              r 76 (PInt 5))
    as (response & st' & rounds & note & E & _ & _ & _ & Hv & _ & Hn & T
        & Ht & _).
  - intros k. reflexivity.
  - reflexivity.
  - reflexivity.
  - reflexivity.
  - reflexivity.
  - exact Hdebate.
  - vm_compute. reflexivity.
  - reflexivity.
  - exists response, st'. split; [exact E|]. split.
    + rewrite T. cbn [Db.table Spec.one_store Db.tables Db.rows_of
        String.eqb Ascii.eqb Bool.eqb app].
      destruct rounds as [|r1 [|r2 [|r3 [|r4 rest]]]]; try discriminate Ht.
      cbn [map] in *. injection Ht as H1 H2 H3. unfold dict_get.
      now rewrite H1, H2, H3.
    + split; [|exact Hn]. rewrite Hv.
      vm_compute in Hdebate. injection Hdebate as <-. vm_compute. reflexivity.
Defined.

(** ** Steps of the store, and the best-effort writers *)

Section Steps.

(** A relation between states that holds when nothing is written and
    composes. *)
Variable R : Db.state -> Db.state -> Prop.

Hypothesis R_untouched : forall st st', Shapes.untouched st st' -> R st st'.
Hypothesis R_trans : forall a b c, R a b -> R b c -> R a c.

Lemma R_refl (st : Db.state) : R st st.
Proof. apply R_untouched. split; reflexivity. Qed.

Lemma steps_ret {A} (a : A) : Shapes.steps R (Db.ret a).
Proof. intros e st r st' H. injection H as _ <-. apply R_refl. Qed.

Lemma steps_raise {A} (x : exn) : Shapes.steps R (@Db.raise A x).
Proof. intros e st r st' H. injection H as _ <-. apply R_refl. Qed.

Lemma steps_lift {A} (m : result A) : Shapes.steps R (Db.lift m).
Proof. intros e st r st' H. injection H as _ <-. apply R_refl. Qed.

Lemma steps_utcnow : Shapes.steps R Db.utcnow.
Proof.
  intros e st r st' H. injection H as _ <-. apply R_untouched.
  split; reflexivity.
Qed.

Lemma steps_bind {A B} (m : Db.M A) (k : A -> Db.M B) :
  Shapes.steps R m -> (forall a, Shapes.steps R (k a)) ->
  Shapes.steps R (Db.bind m k).
Proof.
  intros Hm Hk e st r st' H. unfold Db.bind in H.
  destruct (m e st) as [[a|x] st1] eqn:E.
  - eapply R_trans; [eapply Hm; exact E | eapply Hk; exact H].
  - injection H as _ <-. eapply Hm; exact E.
Qed.

Lemma steps_try_except {A} (m : Db.M A) (h : exn -> Db.M A) :
  Shapes.steps R m -> (forall x, Shapes.steps R (h x)) ->
  Shapes.steps R (Db.try_except m h).
Proof.
  intros Hm Hh e st r st' H. unfold Db.try_except in H.
  destruct (m e st) as [[a|x] st1] eqn:E.
  - injection H as _ <-. eapply Hm; exact E.
  - eapply R_trans; [eapply Hm; exact E | eapply Hh; exact H].
Qed.

(** One call to the store: it fails and writes nothing, or takes the
    effect [f]. *)
Lemma steps_call {A} (f : Db.state -> A * Db.state) :
  (forall st,
      R st (snd (f {| Db.tables := Db.tables st; Db.next_id := Db.next_id st;
                      Db.calls := S (Db.calls st); Db.ticks := Db.ticks st;
                      Db.journal := Db.journal st |}))) ->
  Shapes.steps R (Db.call f).
Proof.
  intros Hf e st r st' H. unfold Db.call in H.
  destruct (Db.fault e (Db.calls st)).
  - injection H as _ <-. apply R_untouched. split; reflexivity.
  - specialize (Hf st). destruct (f _) as [a st2]. injection H as _ <-.
    exact Hf.
Qed.

Lemma steps_read {A} (f : Db.state -> A) :
  Shapes.steps R (Db.call (fun st => (f st, st))).
Proof.
  apply steps_call. intros st. apply R_untouched. split; reflexivity.
Qed.

Lemma steps_select (t : string) (filters : dict) :
  Shapes.steps R (Db.select t filters).
Proof. apply (steps_read (fun st => filter _ (Db.table st t))). Qed.

Lemma steps_select_latest (t : string) (filters : dict) (c : string)
  (n : nat) : Shapes.steps R (Db.select_latest t filters c n).
Proof.
  apply (steps_read
           (fun st => firstn n (Db.sort_desc c (filter _ (Db.table st t))))).
Qed.

Lemma steps_select_limit (t : string) (filters : dict) (n : nat) :
  Shapes.steps R (Db.select_limit t filters n).
Proof.
  apply (steps_read (fun st => firstn n (filter _ (Db.table st t)))).
Qed.

Lemma steps_for_each {A} (body : A -> Db.M unit) (l : list A) :
  (forall x, Shapes.steps R (body x)) ->
  Shapes.steps R (Main.for_each body l).
Proof.
  intros Hb. induction l as [|x l IH]; simpl.
  - apply steps_ret.
  - apply steps_bind; [apply Hb | intros _; exact IH].
Qed.

Lemma steps_map_db {A B} (f : A -> Db.M B) (l : list A) :
  (forall x, Shapes.steps R (f x)) ->
  Shapes.steps R (Main.map_db f l).
Proof.
  intros Hf. induction l as [|x l IH]; simpl.
  - apply steps_ret.
  - apply steps_bind; [apply Hf|]. intros y.
    apply steps_bind; [exact IH|]. intros ys. apply steps_ret.
Qed.

End Steps.

Section UpdatesOnly.

Lemma updates_only_untouched (st st' : Db.state) :
  Shapes.untouched st st' -> Shapes.updates_only st st'.
Proof.
  intros [T J]. split.
  - intros name. unfold Db.table. now rewrite T.
  - exists []. split; [now rewrite app_nil_r|constructor].
Qed.

Lemma updates_only_trans (a b c : Db.state) :
  Shapes.updates_only a b -> Shapes.updates_only b c ->
  Shapes.updates_only a c.
Proof.
  intros (L1 & j1 & J1 & F1) (L2 & j2 & J2 & F2). split.
  - intros name. now rewrite L2, L1.
  - exists (j1 ++ j2). split; [now rewrite J2, J1, app_assoc|].
    apply Forall_app. auto.
Qed.

Lemma steps_update (t : string) (changes filters : dict) :
  Shapes.steps Shapes.updates_only (Db.update t changes filters).
Proof.
  apply steps_call; [exact updates_only_untouched|].
  intros st. cbn [snd]. split.
  - intros name. destruct (String.eqb name t) eqn:E.
    + apply String.eqb_eq in E. subst name.
      rewrite table_set_rows_same. same_tables. apply length_map.
    + apply String.eqb_neq in E.
      rewrite table_set_rows_other by exact E. now same_tables.
  - cbn [Db.journal]. eexists. split; [reflexivity|].
    apply Forall_map. apply Forall_forall. intros r _. exact I.
Qed.

End UpdatesOnly.

(** Steps that only update, through the control structure. *)
Ltac updates :=
  repeat first
    [ apply (steps_ret _ updates_only_untouched)
    | apply (steps_raise _ updates_only_untouched)
    | apply (steps_lift _ updates_only_untouched)
    | apply (steps_utcnow _ updates_only_untouched)
    | apply (steps_select _ updates_only_untouched)
    | apply (steps_select_latest _ updates_only_untouched)
    | apply (steps_select_limit _ updates_only_untouched)
    | apply steps_update
    | apply (steps_bind _ updates_only_trans); [|intros ?]
    | apply (steps_try_except _ updates_only_trans); [|intros ?]
    | match goal with
      | |- Shapes.steps _ (match ?x with _ => _ end) => destruct x
      | |- Shapes.steps _ (if ?x then _ else _) => destruct x
      end ].

Section BestEffort.

Import Main.

Variable json_loads : string -> result pyval.
Variable json_dumps : pyval -> string.
Variable py_round : spec_float -> Z -> spec_float.
Variable set_list : list pyval -> result (list pyval).

(** X18.  [_update_neighborhood] is best effort.  It never raises,
    whatever the vision data holds and however the store behaves; it
    changes no table but [neighborhood_demand]; it never adds or removes a
    row, there or anywhere: every write it makes is an update in place; and
    without a postal code it does nothing at all, not even a call. *)
Theorem update_neighborhood_best_effort (store_id : string) (pincode : pyval)
  (vision_data : dict) (e : Db.env) (st : Db.state) :
  exists st',
    _update_neighborhood json_loads json_dumps set_list store_id pincode
      vision_data e st = (Ok tt, st')
    /\ (forall name, name <> "neighborhood_demand" ->
                     Db.table st' name = Db.table st name)
    /\ Shapes.updates_only st st'
    /\ (truthy pincode = false -> st' = st).
Proof.
  pose proof (swallowed_runs_neighborhood json_loads json_dumps set_list
                store_id pincode vision_data e st) as Hruns.
  destruct (_update_neighborhood json_loads json_dumps set_list store_id
              pincode vision_data e st) as [[[]|x] st'] eqn:E;
    [|discriminate].
  exists st'. split; [reflexivity|]. split; [|split].
  - intros name Hn.
    exact (left_alone name _ e st st' _
             (update_neighborhood_frames json_loads json_dumps set_list
                name store_id pincode vision_data Hn) E).
  - revert E. generalize (Ok tt : result unit).
    generalize e st st'. intros e0 s0 s1 r0 E0.
    assert (F : Shapes.steps Shapes.updates_only
                  (_update_neighborhood json_loads json_dumps set_list
                     store_id pincode vision_data)).
    { unfold _update_neighborhood. updates. }
    exact (F _ _ _ _ E0).
  - intros Hp. unfold _update_neighborhood, Db.try_except in E.
    rewrite Hp in E. cbn [negb Db.ret] in E. now injection E as <-.
Qed.

(** X19.  [_aggregate_pincode] is best effort.  It never raises; it
    changes no table but [neighborhood_demand]; and there it writes at most
    once: nothing (an empty window, or a call that failed), or one new row
    for the key when the key had none, or an update in place that keeps the
    number of rows when the key had a row. *)
Theorem aggregate_pincode_best_effort (window_rows : list Aggregation.product)
  (pincode city : string) (store_ids : list string) (week_start : string)
  (e : Db.env) (st : Db.state) :
  exists st',
    Aggregation._aggregate_pincode json_dumps py_round window_rows pincode
      city store_ids week_start e st = (Ok tt, st')
    /\ (forall name, name <> "neighborhood_demand" ->
                     Db.table st' name = Db.table st name)
    /\ (Db.table st' "neighborhood_demand"
        = Db.table st "neighborhood_demand"
        \/ (Aggregation.rows_for st pincode week_start = []
            /\ exists row,
                 Db.table st' "neighborhood_demand"
                 = Db.table st "neighborhood_demand" ++ [row]
                 /\ lookup row "pincode" = Some (PStr pincode)
                 /\ lookup row "week_start" = Some (PStr week_start))
        \/ (Aggregation.rows_for st pincode week_start <> []
            /\ List.length (Db.table st' "neighborhood_demand")
               = List.length (Db.table st "neighborhood_demand"))).
Proof.
  pose proof (swallowed_runs
                (Aggregation.aggregate_try json_dumps py_round window_rows
                   pincode city store_ids week_start) e st) as Hruns.
  fold (Aggregation._aggregate_pincode json_dumps py_round window_rows
          pincode city store_ids week_start) in Hruns.
  destruct (Aggregation._aggregate_pincode json_dumps py_round window_rows
              pincode city store_ids week_start e st) as [[[]|x] st'] eqn:E;
    [|discriminate].
  exists st'. split; [reflexivity|]. split.
  { intros name Hn.
    apply (left_alone name _ e st st' _) with (2 := E).
    unfold Aggregation._aggregate_pincode, Aggregation.aggregate_try.
    apply frames_try_except; [|intros ?; apply frames_ret].
    apply frames_bind; [apply frames_utcnow|]. intros _.
    apply frames_bind; [apply (frames_read name (fun _ => window_rows))|].
    intros [|p l]; [apply frames_ret|].
    frames_of name. }
  unfold Aggregation._aggregate_pincode, Aggregation.aggregate_try,
    Db.try_except in E.
  rewrite bind_utcnow in E. unfold Db.bind at 1 in E.
  destruct (Db.fault e (Db.calls st)) as [x|] eqn:F0.
  { rewrite call_fails with (x := x) in E by exact F0.
    injection E as <-. now left. }
  rewrite call_ok in E by exact F0. cbn [fst snd] in E.
  destruct window_rows as [|p l]; [injection E as <-; now left|].
  destruct (Aggregation.aggregates py_round (p :: l)) as [agg|x] eqn:Ea.
  2:{ unfold Db.bind at 1, Db.lift in E. injection E as <-. now left. }
  rewrite bind_lift_ok in E. unfold Db.bind at 1, Db.select in E.
  cbn [Db.calls] in E.
  destruct (Db.fault e (S (Db.calls st))) as [x|] eqn:F1.
  { rewrite call_fails with (x := x) in E by exact F1.
    injection E as <-. now left. }
  rewrite call_ok in E by exact F1. cbn [fst snd] in E.
  rewrite bind_utcnow in E.
  cbn [Db.ticks Db.tables Db.next_id Db.calls Db.journal] in E.
  revert E. same_tables.
  change (filter _ (Db.table st "neighborhood_demand"))
    with (Aggregation.rows_for st pincode week_start).
  destruct (Aggregation.rows_for st pincode week_start) as [|row0 rows0]
    eqn:Ek; intros E.
  - (* no row for the key: insert *)
    rewrite bind_utcnow in E.
    cbn [Db.ticks Db.tables Db.next_id Db.calls Db.journal] in E.
    unfold Db.bind at 1, Db.insert, Db.insert_many, Db.bind at 1 in E.
    destruct (Db.fault e (S (S (Db.calls st)))) as [x|] eqn:F2.
    { rewrite call_fails with (x := x) in E by exact F2.
      injection E as <-. now left. }
    rewrite call_ok in E by exact F2.
    cbn [fst snd Db.number_rows Db.ret Db.next_id Db.tables Db.calls
         Db.ticks Db.journal] in E.
    injection E as <-. right. left. split; [reflexivity|].
    eexists. rewrite table_set_rows_same. same_tables.
    split; [reflexivity|]. destruct agg as [[top so] ds]. split; reflexivity.
  - (* a row for the key: update in place *)
    right. right. split; [discriminate|].
    destruct (getitem_str (PDict row0) "id") as [id|x] eqn:Ei.
    2:{ unfold Db.bind at 1, Db.lift in E. injection E as <-. reflexivity. }
    rewrite bind_lift_ok in E.
    revert E.
    match goal with
    | |- context [Db.update ?t ?changes ?filters e ?s] =>
        destruct (Db.update t changes filters e s) as [r s2] eqn:Eu;
        pose proof (steps_update _ _ _ _ _ _ _ Eu) as (Hlen & _)
    end.
    intros E.
    assert (s2 = st')
      by (destruct r as [[]|x]; cbv beta iota delta [Db.ret] in E;
          congruence).
    subst s2. rewrite Hlen. now same_tables.
Qed.

End BestEffort.

(** Two products in an empty table: one row for the key. *)
Lemma aggregate_pincode_best_effort_witness :
  exists st' row,
    Spec.aggregate_ref Spec.week_of_products Spec.quiet Db.empty
    = (Ok tt, st')
    /\ Db.table st' "neighborhood_demand" = [row]
    /\ lookup row "pincode" = Some (PStr "110001").
Proof.
  destruct (aggregate_pincode_best_effort Reference.dumps
              Reference.round_whole Spec.week_of_products "110001" "Delhi"
              ["store-1"] "2026-03-02" Spec.quiet Db.empty)
    as (st' & E & _ & [H|[(_ & row & T & Hp & _)|(H & _)]]).
  - exfalso. vm_compute in E. injection E as <-. discriminate H.
  - exists st', row. split; [exact E|]. split; [exact T|exact Hp].
  - exfalso. apply H. reflexivity.
Defined.

(** ** The pipeline behind the webhook *)

Section PipelineSteps.

Import Pipeline.

Lemma bind_db_ok {A B} (m : Db.M A) (k : A -> M B) (e : env) (st : state)
  (a : A) (s : Db.state) :
  m (store_env e) (store st) = (Ok a, s) ->
  bind (db m) k e st = k a e {| store := s; sent := sent st |}.
Proof. intros H. unfold bind, db. now rewrite H. Qed.


Lemma bind_db_raise {A B} (m : Db.M A) (k : A -> M B) (e : env) (st : state)
  (x : exn) (s : Db.state) :
  m (store_env e) (store st) = (Raise x, s) ->
  bind (db m) k e st = (Raise x, {| store := s; sent := sent st |}).
Proof. intros H. unfold bind, db. now rewrite H. Qed.

Lemma bind_lifted_ok {A B} (a : A) (k : A -> M B) (e : env) (st : state) :
  bind (lift (Ok a)) k e st = k a e st.
Proof. reflexivity. Qed.

Lemma bind_lifted_raise {A B} (x : exn) (k : A -> M B) (e : env)
  (st : state) :
  bind (lift (Raise x)) k e st = (Raise x, st).
Proof. reflexivity. Qed.

(** *** Steps that send nothing *)

Lemma silent_ret {A} (a : A) : Shapes.silent (ret a).
Proof. intros e st r st' H. now injection H as _ <-. Qed.

Lemma silent_lift {A} (m : result A) : Shapes.silent (lift m).
Proof. intros e st r st' H. now injection H as _ <-. Qed.

Lemma silent_db {A} (m : Db.M A) : Shapes.silent (db m).
Proof.
  intros e st r st' H. unfold db in H.
  destruct (m (store_env e) (store st)) as [r1 s]. now injection H as _ <-.
Qed.

Lemma silent_bind {A B} (m : M A) (k : A -> M B) :
  Shapes.silent m -> (forall a, Shapes.silent (k a)) ->
  Shapes.silent (bind m k).
Proof.
  intros Hm Hk e st r st' H. unfold bind in H.
  destruct (m e st) as [[a|x] st1] eqn:E.
  - rewrite (Hk _ _ _ _ _ H). exact (Hm _ _ _ _ E).
  - injection H as _ <-. exact (Hm _ _ _ _ E).
Qed.

(** *** Steps that send one message *)

Section OneMessage.

Variable P : message -> Prop.

Lemma one_message_post (msg : message) :
  P msg -> Shapes.one_message P (post msg).
Proof.
  intros Hp e st r st' H. right. exists msg. unfold post in H.
  injection H as _ <-. split; [reflexivity|exact Hp].
Qed.

Lemma one_message_after {A B} (m : M A) (k : A -> M B) :
  Shapes.silent m -> (forall a, Shapes.one_message P (k a)) ->
  Shapes.one_message P (bind m k).
Proof.
  intros Hm Hk e st r st' H. unfold bind in H.
  destruct (m e st) as [[a|x] st1] eqn:E.
  - rewrite <- (Hm _ _ _ _ E). exact (Hk _ _ _ _ _ H).
  - injection H as <- <-. left. split; [exact (Hm _ _ _ _ E)|].
    now exists x.
Qed.

Lemma one_message_then {A B} (m : M A) (k : A -> M B) :
  Shapes.one_message P m -> (forall a, Shapes.silent (k a)) ->
  Shapes.one_message P (bind m k).
Proof.
  intros Hm Hk e st r st' H. unfold bind in H.
  destruct (m e st) as [[a|x] st1] eqn:E.
  - destruct (Hm _ _ _ _ E) as [(_ & y & Hy)|(msg & Hs & Hp)];
      [discriminate|].
    right. exists msg. rewrite (Hk _ _ _ _ _ H). now split.
  - injection H as <- <-.
    destruct (Hm _ _ _ _ E) as [(Hs & _)|Hs]; [left|now right].
    split; [exact Hs|now exists x].
Qed.

End OneMessage.

(** *** Steps of the store under the pipeline *)

Section StoreSteps.

Variable R : Db.state -> Db.state -> Prop.

Hypothesis R_untouched : forall st st', Shapes.untouched st st' -> R st st'.
Hypothesis R_trans : forall a b c, R a b -> R b c -> R a c.







End StoreSteps.

(** *** The status of a scan *)







End PipelineSteps.

(** Steps that send nothing, through the control structure. *)
Ltac silence :=
  repeat first
    [ apply silent_ret | apply silent_lift | apply silent_db
    | apply silent_bind; [|intros ?]
    | match goal with
      | |- Shapes.silent (match ?x with _ => _ end) => destruct x
      | |- Shapes.silent (if ?x then _ else _) => destruct x
      end ].

Section WhatsAppPipeline.

Import Pipeline WhatsApp.

Variable json_loads : string -> result pyval.
Variable json_dumps : pyval -> string.
Variable py_str : pyval -> string.
Variable set_list : list pyval -> result (list pyval).





(** The body hands over one message at most, from the service's number
    to the sender; when it returns, it has handed over one. *)
Lemma pipeline_try_one_message (w : world)
  (from_number media_url media_type : string) :
  Shapes.one_message (Shapes.between w from_number)
    (pipeline_try json_loads json_dumps py_str set_list w from_number
       media_url media_type).
Proof.
  unfold pipeline_try, send_whatsapp_text, send_whatsapp_media. cbv zeta.
  apply one_message_after; [silence|]. intros [|store rows].
  { apply one_message_post. split; reflexivity. }
  repeat first
    [ apply one_message_after; [solve [silence]|intros ?]
    | match goal with
      | |- Shapes.one_message _ (match ?x with _ => _ end) => destruct x
      end ].
  apply one_message_then; [|intros ?; silence].
  destruct (negb _).
  - apply one_message_post. split; reflexivity.
  - apply one_message_after; [silence|]. intros short.
    apply one_message_post. split; reflexivity.
Qed.

(** The handler: one apology, whether or not the request goes through. *)
Lemma apology_runs (w : world) (from_number : string) (e : env)
  (st : state) :
  try_except
    (send_whatsapp_text from_number apology
       (TWILIO_WHATSAPP_NUMBER (twilio w)))
    (fun _ => ret tt) e st
  = (Ok tt,
     {| store := store st;
        sent := sent st ++ [Shapes.text_to w from_number apology] |}).
Proof.
  unfold try_except, send_whatsapp_text, post.
  destruct (send_fault e (List.length (sent st))); reflexivity.
Qed.

(** X21.  With both credentials of the message API set, a run of the
    pipeline never raises and always answers the sender: it hands the
    message API one message, or two, from the service's number to the
    sender, and a second one is always the apology.  Without one of the
    credentials the run does nothing: no call to the store, no message. *)
Theorem pipeline_always_answers (w : world)
  (from_number media_url media_type : string) (e : env) (st : state) :
  (Shapes.configured w ->
   exists st' first rest,
     _run_whatsapp_pipeline json_loads json_dumps py_str set_list w
       from_number media_url media_type e st = (Ok tt, st')
     /\ sent st' = sent st ++ first :: rest
     /\ Shapes.between w from_number first
     /\ (rest = [] \/ rest = [Shapes.text_to w from_number apology]))
  /\ (~ Shapes.configured w ->
      _run_whatsapp_pipeline json_loads json_dumps py_str set_list w
        from_number media_url media_type e st = (Ok tt, st)).
Proof.
  unfold _run_whatsapp_pipeline, Shapes.configured. cbv zeta. split.
  - intros [-> ->]. cbn [orb].
    unfold try_except at 1.
    destruct (pipeline_try json_loads json_dumps py_str set_list w
                from_number media_url media_type e st)
      as [[[]|x] st1] eqn:E;
      destruct (pipeline_try_one_message _ _ _ _ _ _ _ _ E)
        as [(Hs & y & Hy)|(msg & Hs & Hp)]; try discriminate.
    + exists st1, msg, []. repeat split; try apply Hp; auto.
    + rewrite apology_runs. eexists. eexists. exists []. cbn [sent].
      rewrite Hs. repeat split; auto.
    + rewrite apology_runs. eexists. exists msg. eexists. cbn [sent].
      rewrite Hs, <- app_assoc. repeat split; try apply Hp; auto.
  - intros Hn.
    destruct (Str.is_empty (TWILIO_ACCOUNT_SID (twilio w))); [reflexivity|].
    destruct (Str.is_empty (TWILIO_AUTH_TOKEN (twilio w))); [reflexivity|].
    exfalso. apply Hn. split; reflexivity.
Qed.

Lemma matches_number (a : string) (row : dict) :
  Db.matches [("whatsapp_number", PStr a)] row = true ->
  lookup row "whatsapp_number" = Some (PStr a).
Proof.
  unfold Db.matches. cbn [forallb fst snd].
  destruct (lookup row "whatsapp_number") as [v|]; [|discriminate].
  destruct v; cbn [Db.scalar_eqb]; try discriminate.
  rewrite andb_true_r. intros H. apply String.eqb_eq in H. now subst.
Qed.

Lemma unregistered_none (from_number : string) (s : Db.state) :
  Shapes.unregistered from_number s -> Shapes.stores_of from_number s = [].
Proof.
  unfold Shapes.unregistered, Shapes.stores_of.
  induction 1 as [|row rows [H1 H2] _ IH]; [reflexivity|].
  cbn [filter]. unfold or_ at 1.
  rewrite (proj1 (not_true_iff_false _)
             (fun E => H1 (matches_number _ _ E))).
  rewrite (proj1 (not_true_iff_false _)
             (fun E => H2 (matches_number _ _ E))).
  exact IH.
Qed.

(** The lookup of the sender, when the store answers it. *)
Lemma select_by_number_runs (from_number : string) (e : Db.env)
  (s : Db.state) :
  Db.fault e (Db.calls s) = None ->
  select_by_number from_number ("+" +++ lstrip_plus from_number) e s
  = (Ok (Shapes.stores_of from_number s),
     {| Db.tables := Db.tables s; Db.next_id := Db.next_id s;
        Db.calls := S (Db.calls s); Db.ticks := Db.ticks s;
        Db.journal := Db.journal s |}).
Proof.
  intros H. unfold select_by_number, Db.call. now rewrite H.
Qed.

(** X22.  A sender no store is registered for, neither under the number
    as it came nor under it with one plus in front, is asked to register
    and nothing else happens: the run makes the one call that looks the
    sender up, writes nothing, and hands the message API the registration
    prompt, followed by the apology only if that request raised. *)
Theorem pipeline_unregistered_sender (w : world)
  (from_number media_url media_type : string) (e : env) (st : state)
  (Hcreds : Shapes.configured w)
  (Hanswers : Db.fault (store_env e) (Db.calls (store st)) = None)
  (Hunknown : Shapes.unregistered from_number (store st)) :
  exists st',
    _run_whatsapp_pipeline json_loads json_dumps py_str set_list w
      from_number media_url media_type e st = (Ok tt, st')
    /\ Db.tables (store st') = Db.tables (store st)
    /\ Db.journal (store st') = Db.journal (store st)
    /\ Db.calls (store st') = S (Db.calls (store st))
    /\ sent st'
       = sent st
         ++ Shapes.text_to w from_number registration_prompt
            :: match send_fault e (List.length (sent st)) with
               | Some _ => [Shapes.text_to w from_number apology]
               | None => []
               end.
Proof.
  destruct Hcreds as [Hsid Htoken].
  unfold _run_whatsapp_pipeline. cbv zeta. rewrite Hsid, Htoken. cbn [orb].
  unfold try_except at 1, pipeline_try. cbv zeta.
  rewrite (bind_db_ok _ _ _ _ _ _
             (select_by_number_runs from_number _ _ Hanswers)).
  rewrite (unregistered_none _ _ Hunknown).
  unfold send_whatsapp_text at 1, post at 1. cbn [sent store].
  fold (Shapes.text_to w from_number registration_prompt).
  destruct (send_fault e (List.length (sent st))) as [x|].
  - rewrite apology_runs. eexists. split; [reflexivity|]. cbn [store sent].
    rewrite <- app_assoc. repeat split.
  - eexists. split; [reflexivity|]. repeat split.
Qed.


(** X23.  Unlike the scan endpoint, the pipeline does not record a
    failure on the scan.  For a registered sender whose image was
    downloaded and uploaded, on a store that answers, a vision analysis
    that raises leaves exactly two writes behind, the new scan row and the
    log of the image, and the scan row keeps the status [processing]; the
    sender gets the apology and nothing else. *)
Theorem pipeline_leaves_scan_processing (w : world)
  (from_number media_url media_type : string) (e : env) (st : state)
  (shop : dict) (others : list dict) (store_id : pyval)
  (image_bytes url : string) (x : exn)
  (Hcreds : Shapes.configured w)
  (Hquiet : Spec.never_fails (store_env e))
  (Hstore : Shapes.stores_of from_number (store st) = shop :: others)
  (Hid : lookup shop "id" = Some store_id)
  (Hdownload : download_media w = Ok image_bytes)
  (Hupload : Main.upload_image (services w) = Ok url)
  (Hvision : Main.analyze_shelf_image (services w) = Raise x) :
  exists st' scan note,
    _run_whatsapp_pipeline json_loads json_dumps py_str set_list w
      from_number media_url media_type e st = (Ok tt, st')
    /\ sent st' = sent st ++ [Shapes.text_to w from_number apology]
    /\ Db.journal (store st')
       = Db.journal (store st)
         ++ [Db.Inserted "scans" scan;
             Db.Inserted "whatsapp_messages" note]
    /\ Db.table (store st') "scans" = Db.table (store st) "scans" ++ [scan]
    /\ lookup scan "id" = Some (PInt (Db.next_id (store st)))
    /\ lookup scan "store_id" = Some store_id
    /\ lookup scan "status" = Some (PStr "processing").
Proof.
  destruct Hcreds as [Hsid Htoken].
  unfold _run_whatsapp_pipeline. cbv zeta. rewrite Hsid, Htoken. cbn [orb].
  unfold try_except at 1, pipeline_try. cbv zeta.
  rewrite (bind_db_ok _ _ _ _ _ _
             (select_by_number_runs from_number _ _ (Hquiet _))).
  rewrite Hstore. cbn [getitem_str]. rewrite Hid, bind_lifted_ok.
  rewrite Hdownload, bind_lifted_ok, Hupload, bind_lifted_ok.
  rewrite (bind_db_ok Db.utcnow _ _ _ _ _ eq_refl).
  rewrite (bind_db_ok _ _ _ _ _ _ (insert_quiet _ _ _ _ Hquiet)).
  cbn [getitem_str lookup String.eqb Ascii.eqb Bool.eqb].
  rewrite bind_lifted_ok.
  rewrite (bind_db_ok Db.utcnow _ _ _ _ _ eq_refl).
  rewrite (bind_db_ok _ _ _ _ _ _ (insert_quiet _ _ _ _ Hquiet)).
  rewrite Hvision, bind_lifted_raise, apology_runs.
  eexists. eexists. eexists. split; [reflexivity|].
  cbn [store sent Db.tables Db.journal Db.next_id Db.calls Db.ticks].
  rewrite <- app_assoc.
  split; [reflexivity|]. split; [reflexivity|].
  split.
  { unfold Db.table. cbn [Db.tables].
    rewrite rows_of_set_rows_other by discriminate.
    now rewrite rows_of_set_rows_same. }
  repeat split.
Qed.






End WhatsAppPipeline.

(** A run that cannot deliver anything still returns, after two
    attempts: the vision analysis raises for Ramesh's image, and every
    request to the message API raises too. *)
Lemma pipeline_always_answers_witness :
  exists st' first rest,
    Shapes.pipeline_ref (Shapes.sandbox Spec.services_blind) "+919876543210"
      Shapes.undeliverable (Shapes.fresh Shapes.ramesh_on_file)
    = (Ok tt, st')
    /\ Pipeline.sent st' = first :: rest
    /\ Shapes.between (Shapes.sandbox Spec.services_blind) "+919876543210"
         first.
Proof.
  destruct (proj1 (pipeline_always_answers Json.loads Reference.dumps
                     Reference.str_of Reference.set_list
                     (Shapes.sandbox Spec.services_blind) "+919876543210"
                     "https://api.twilio.com/media/1" "image/jpeg"
                     Shapes.undeliverable
                     (Shapes.fresh Shapes.ramesh_on_file))
              (conj eq_refl eq_refl))
    as (st' & first & rest & E & Hs & Hb & _).
  exists st', first, rest. split; [exact E|]. split; [exact Hs|exact Hb].
Defined.

(** A number nobody registered writes to a store that holds Ramesh. *)
Lemma pipeline_unregistered_sender_witness :
  exists st',
    Shapes.pipeline_ref (Shapes.sandbox Spec.services_blind) "+919999999999"
      Shapes.delivering (Shapes.fresh Shapes.ramesh_on_file)
    = (Ok tt, st')
    /\ Db.tables (Pipeline.store st') = Db.tables Shapes.ramesh_on_file
    /\ map Pipeline.Body (Pipeline.sent st')
       = [Pipeline.registration_prompt].
Proof.
  destruct (pipeline_unregistered_sender Json.loads Reference.dumps
              Reference.str_of Reference.set_list
              (Shapes.sandbox Spec.services_blind) "+919999999999"
              "https://api.twilio.com/media/1" "image/jpeg"
              Shapes.delivering (Shapes.fresh Shapes.ramesh_on_file))
    as (st' & E & T & _ & _ & Hs).
  - split; reflexivity.
  - reflexivity.
  - constructor; [|constructor]. split; discriminate.
  - exists st'. split; [exact E|]. split; [exact T|]. rewrite Hs.
    reflexivity.
Defined.

(** Ramesh sends an image the vision analysis fails on. *)
Lemma pipeline_leaves_scan_processing_witness :
  exists st',
    Shapes.pipeline_ref (Shapes.sandbox Spec.services_blind) "+919876543210"
      Shapes.delivering (Shapes.fresh Shapes.ramesh_on_file)
    = (Ok tt, st')
    /\ map Pipeline.Body (Pipeline.sent st') = [Pipeline.apology]
    /\ map (fun row => dict_get row "status" PNone)
           (Db.table (Pipeline.store st') "scans")
       = [PStr "processing"].
Proof.
  destruct (pipeline_leaves_scan_processing Json.loads Reference.dumps
              Reference.str_of Reference.set_list
              (Shapes.sandbox Spec.services_blind) "+919876543210"
              "https://api.twilio.com/media/1" "image/jpeg"
              Shapes.delivering (Shapes.fresh Shapes.ramesh_on_file)
              (Shapes.new_store Shapes.ramesh_validated 1
                 "2026-03-01T09:00:00")
              [] (PInt 1) "jpeg" "https://res.cloudinary.com/shelf.jpg"
              (ExternalError "vision failed"))
    as (st' & scan & note & E & Hs & _ & T & _ & _ & Hst).
  - split; reflexivity.
  - intros k. reflexivity.
  - reflexivity.
  - reflexivity.
  - reflexivity.
  - reflexivity.
  - reflexivity.
  - exists st'. split; [exact E|]. rewrite Hs, T. split; [reflexivity|].
    cbn [Shapes.fresh Pipeline.store Shapes.ramesh_on_file Db.table
         Db.tables Db.rows_of String.eqb Ascii.eqb Bool.eqb app map].
    unfold dict_get. now rewrite Hst.
Defined.


(** ** Readers of the store *)

Section Readers.

Lemma untouched_id (st st' : Db.state) :
  Shapes.untouched st st' -> Shapes.untouched st st'.
Proof. exact (fun H => H). Qed.

Lemma untouched_trans (a b c : Db.state) :
  Shapes.untouched a b -> Shapes.untouched b c -> Shapes.untouched a c.
Proof. intros [T1 J1] [T2 J2]. split; congruence. Qed.

Lemma firstn_length_le {A} (n : nat) (l : list A) :
  (List.length (firstn n l) <= n)%nat.
Proof. rewrite length_firstn. apply Nat.le_min_l. Qed.

(** X25.  [get_neighborhood_data] never raises and never writes.  It
    answers with the postal code it was asked about and either an [error]
    text, which is what any failure of the store or of the counting turns
    into, or the report: at most four demand rows, the stores of the
    postal code, and at most ten popular products. *)
Theorem get_neighborhood_data_reports (pincode : string) (e : Db.env)
  (st : Db.state) :
  exists d st',
    Neighborhood.get_neighborhood_data pincode e st = (Ok d, st')
    /\ Shapes.untouched st st'
    /\ ((exists x,
           d = [("pincode", PStr pincode); ("error", PStr (message x))])
        \/ (exists demand stores popular,
              d = [("pincode", PStr pincode);
                   ("demand_trends", PList demand);
                   ("stores", PList stores);
                   ("popular_products", PList popular)]
              /\ (List.length demand <= 4)%nat
              /\ (List.length popular <= 10)%nat))
    /\ (forall x, Db.fault e (Db.calls st) = Some x ->
          d = [("pincode", PStr pincode); ("error", PStr (message x))]).
Proof.
  assert (F : Shapes.steps Shapes.untouched
                (Neighborhood.get_neighborhood_data pincode)).
  { unfold Neighborhood.get_neighborhood_data.
    repeat first
      [ apply (steps_ret _ untouched_id)
      | apply (steps_lift _ untouched_id)
      | apply (steps_select _ untouched_id)
      | apply (steps_select_latest _ untouched_id)
      | apply (steps_bind _ untouched_trans); [|intros ?]
      | apply (steps_try_except _ untouched_trans); [|intros ?] ]. }
  destruct (Neighborhood.get_neighborhood_data pincode e st) as [r st']
    eqn:E.
  pose proof (F _ _ _ _ E) as Hu.
  unfold Neighborhood.get_neighborhood_data, Db.try_except in E.
  unfold Db.bind at 1, Db.select_latest in E.
  destruct (Db.fault e (Db.calls st)) as [x0|] eqn:F0.
  { rewrite call_fails with (x := x0) in E by exact F0.
    cbn [Db.ret] in E. injection E as <- <-. eexists. eexists.
    split; [reflexivity|]. split; [exact Hu|].
    split; [left; now exists x0|].
    intros x Hx. now injection Hx as <-. }
  rewrite call_ok in E by exact F0. cbn [fst snd] in E.
  match type of E with
  | context [firstn 4 ?l] => set (demand := firstn 4 l) in *
  end.
  assert (Hd : (List.length (map PDict demand) <= 4)%nat).
  { rewrite length_map. apply firstn_length_le. }
  unfold Db.bind at 1, Db.select in E.
  match type of E with
  | context [Db.call ?f e ?s] =>
      destruct (Db.fault e (Db.calls s)) as [x1|] eqn:F1;
      [rewrite call_fails with (x := x1) in E by exact F1
      |rewrite call_ok in E by exact F1]
  end.
  { cbn [Db.ret] in E. injection E as <- <-. eexists. eexists.
    split; [reflexivity|]. split; [exact Hu|].
    split; [left; now exists x1|]. intros x Hx. discriminate. }
  cbn [fst snd] in E.
  unfold Db.bind at 1 in E.
  match type of E with
  | context [Db.call ?f e ?s] =>
      destruct (Db.fault e (Db.calls s)) as [x2|] eqn:F2;
      [rewrite call_fails with (x := x2) in E by exact F2
      |rewrite call_ok in E by exact F2]
  end.
  { cbn [Db.ret] in E. injection E as <- <-. eexists. eexists.
    split; [reflexivity|]. split; [exact Hu|].
    split; [left; now exists x2|]. intros x Hx. discriminate. }
  cbn [fst snd] in E.
  unfold Db.bind at 1, Db.lift in E.
  match type of E with
  | context [Neighborhood._aggregate_products ?l] =>
      destruct (Neighborhood._aggregate_products l) as [popular|x3] eqn:Ea
  end.
  2:{ cbn [Db.ret] in E. injection E as <- <-. eexists. eexists.
      split; [reflexivity|]. split; [exact Hu|].
      split; [left; now exists x3|]. intros x Hx. discriminate. }
  cbn [Db.ret] in E. injection E as <- <-. eexists. eexists.
  split; [reflexivity|]. split; [exact Hu|].
  split; [|intros x Hx; discriminate].
  right. eexists. eexists. exists popular. split; [reflexivity|].
  split; [exact Hd|].
  unfold Neighborhood._aggregate_products in Ea.
  destruct (Neighborhood.count_names [] _) as [counts|]; [|discriminate].
  cbn [Py.bind] in Ea. injection Ea as <-. rewrite length_map.
  unfold Aggregation.most_common. apply firstn_length_le.
Qed.

(** X26.  [login_store] finds a store by the number with spaces and
    dashes removed, and by nothing else.  On a store that answers, it
    returns the first row of [stores] whose number is that text, and
    raises 404 exactly when no row carries it; it never writes. *)
Theorem login_store_by_clean_number (whatsapp : string) (e : Db.env)
  (st : Db.state) (Hanswers : Db.fault e (Db.calls st) = None) :
  let clean := Shapes.login_number whatsapp in
  let out := Endpoints.login_store whatsapp e st in
  Shapes.untouched st (snd out)
  /\ (fst out = Raise (HTTPException 404 "Store not found")
      <-> forall row, In row (Db.table st "stores") ->
                      lookup row "whatsapp_number" <> Some (PStr clean))
  /\ (forall x, fst out = Raise x ->
                x = HTTPException 404 "Store not found")
  /\ (forall d, fst out = Ok d ->
        exists before row after,
          Db.table st "stores" = before ++ row :: after
          /\ lookup row "whatsapp_number" = Some (PStr clean)
          /\ (forall r, In r before ->
                lookup r "whatsapp_number" <> Some (PStr clean))
          /\ d = [("success", PBool true); ("store", PDict row)]).
Proof.
  cbv zeta. unfold Endpoints.login_store, Endpoints.http_errors,
    Db.try_except, Db.bind, Db.select.
  fold (Shapes.login_number whatsapp).
  set (clean := Shapes.login_number whatsapp).
  rewrite call_ok by exact Hanswers. cbn [fst snd].
  same_tables.
  assert (Hm : forall row,
             Db.matches [("whatsapp_number", PStr clean)] row = true
             <-> lookup row "whatsapp_number" = Some (PStr clean)).
  { intros row. split; [apply matches_number|].
    intros H. unfold Db.matches. cbn [forallb fst snd]. rewrite H.
    cbn [Db.scalar_eqb]. now rewrite String.eqb_refl. }
  assert (Hsplit : forall rows,
             match filter (Db.matches [("whatsapp_number", PStr clean)]) rows
             with
             | [] => forall row, In row rows ->
                       lookup row "whatsapp_number" <> Some (PStr clean)
             | row :: _ =>
                 exists before after,
                   rows = before ++ row :: after
                   /\ lookup row "whatsapp_number" = Some (PStr clean)
                   /\ forall r, In r before ->
                        lookup r "whatsapp_number" <> Some (PStr clean)
             end).
  { induction rows as [|r rows IH]; [intros row []|].
    cbn [filter].
    destruct (Db.matches [("whatsapp_number", PStr clean)] r) eqn:Er.
    - exists [], rows. split; [reflexivity|].
      split; [now apply Hm|intros ? []].
    - assert (Hr : lookup r "whatsapp_number" <> Some (PStr clean)).
      { intros H. apply Hm in H. congruence. }
      destruct (filter _ rows) as [|row found].
      + intros row [<-|Hin]; [exact Hr|now apply IH].
      + destruct IH as (before & after & -> & Hrow & Hb).
        exists (r :: before), after. split; [reflexivity|].
        split; [exact Hrow|]. intros r' [<-|Hin]; [exact Hr|now apply Hb]. }
  specialize (Hsplit (Db.table st "stores")).
  destruct (filter _ (Db.table st "stores")) as [|row found];
    cbn [Db.raise Db.ret fst snd].
  - split; [split; reflexivity|]. split; [split; auto|].
    split; [intros x H; now injection H as <-|discriminate].
  - destruct Hsplit as (before & after & Hrows & Hrow & Hb).
    split; [split; reflexivity|]. split.
    { split; [discriminate|]. intros H. exfalso.
      apply (H row); [|exact Hrow]. rewrite Hrows.
      apply in_app_iff. right. now left. }
    split; [discriminate|]. intros d H. injection H as <-.
    exists before, row, after. auto.
Qed.

End Readers.

(** The number as Ramesh would type it does not log him in: the store
    holds it in its canonical form. *)
Lemma login_store_by_clean_number_witness :
  fst (Endpoints.login_store "98765-43210" Spec.quiet Shapes.ramesh_on_file)
  = Raise (HTTPException 404 "Store not found")
  /\ exists d,
       fst (Endpoints.login_store "+91 98765-43210" Spec.quiet
              Shapes.ramesh_on_file) = Ok d.
Proof.
  split.
  - apply (proj1 (proj2 (login_store_by_clean_number "98765-43210"
                           Spec.quiet Shapes.ramesh_on_file eq_refl))).
    intros row [<-|[]]. vm_compute. discriminate.
  - eexists. vm_compute. reflexivity.
Defined.

(** ** The fallbacks of the debate and of the voice *)

Section Fallbacks.

(** X27.  The local summary of the presenter orders the first five
    products that are out of stock or low, in shelf order, six units
    each, and no other product: on a vision result whose products are a
    list of mappings it returns, with one restock entry for each of those
    products, carrying its name and its stock level. *)
Theorem fallback_presenter_first_five (vision_data : dict) (ps : list dict)
  (Hshape : Spec.detected_products vision_data = Some ps) :
  exists restocks,
    Debate._fallback_presenter vision_data
    = Ok (PDict [("priority_restocks", PList restocks);
                 ("confidence_score", PInt 58);
                 ("reasoning", PStr "Fallback — check Gemini API key")])
    /\ map (fun r => (Shapes.field "product" r,
                      Shapes.field "current_stock" r)) restocks
       = map (fun d => (Shapes.shown_name d, dict_get d "stock_level" PNone))
             (firstn 5 (filter Shapes.needs_restock ps))
    /\ (List.length restocks <= 5)%nat
    /\ Forall (fun r => Shapes.field "units_to_order" r = PInt 6) restocks.
Proof.
  unfold Debate._fallback_presenter.
  rewrite (products_of_shape _ _ Hshape). cbn [iter Py.bind].
  rewrite (filterM_dicts Debate.is_urgent Shapes.needs_restock)
    by reflexivity.
  cbn [Py.bind]. rewrite firstn_map.
  rewrite (mapM_dicts Debate.restock_entry
             (fun d =>
                PDict [("product", Shapes.shown_name d);
                       ("current_stock", dict_get d "stock_level" PNone);
                       ("units_to_order", PInt 6);
                       ("reason", PStr "Low stock");
                       ("estimated_cost_inr", PInt 150)])) by reflexivity.
  cbn [Py.bind]. eexists. split; [reflexivity|].
  split; [now rewrite map_map|].
  split; [rewrite length_map; apply firstn_length_le|].
  apply Forall_map. apply Forall_forall. intros d _. reflexivity.
Qed.

(** X28.  A voice note is absent or at least five seconds long:
    [generate_hindi_voice] returns the empty reference with the duration
    0, or the reference the audio upload gave with a duration of five
    seconds or more, and the latter only for a text, a response 200 of
    the synthesizer and an upload that succeeded. *)
Theorem generate_hindi_voice_duration (w : Voice.world) (hindi_text : pyval) :
  Voice.generate_hindi_voice w hindi_text = (EmptyString, 0)
  \/ exists text content,
       hindi_text = PStr text
       /\ Voice.tts w = Voice.TtsResponse 200 content
       /\ Voice.upload_audio w
          = Ok (fst (Voice.generate_hindi_voice w hindi_text))
       /\ 5 <= snd (Voice.generate_hindi_voice w hindi_text).
Proof.
  unfold Voice.generate_hindi_voice, Voice.voice_try.
  destruct (Voice.tts w) as [x|code content]; [now left|].
  destruct (code =? 200) eqn:Ec; cbn [negb]; [|now left].
  apply Z.eqb_eq in Ec. subst code.
  destruct hindi_text; try (now left).
  unfold Voice.estimate_seconds.
  destruct (Float64.int_truediv _ 150) as [q|]; [|now left].
  cbn [Py.bind].
  destruct (Float64.to_int _) as [n|]; [|now left]. cbn [Py.bind].
  destruct (Voice.upload_audio w) as [audio_url|]; [|now left].
  cbn [Py.bind]. right. exists s, content. cbn [fst snd].
  repeat split. apply Z.le_max_l.
Qed.

End Fallbacks.

(** Of six low products the summary orders the first five. *)
Lemma fallback_presenter_first_five_witness :
  exists restocks,
    Debate._fallback_presenter Shapes.six_low
    = Ok (PDict [("priority_restocks", PList restocks);
                 ("confidence_score", PInt 58);
                 ("reasoning", PStr "Fallback — check Gemini API key")])
    /\ map (Shapes.field "product") restocks
       = [PStr "Salt"; PStr "Sugar"; PStr "Tea"; PStr "Rice"; PStr "Soap"].
Proof.
  destruct (fallback_presenter_first_five Shapes.six_low
              (map (fun n => [("name", PStr n); ("stock_level", PStr "low")])
                   ["Salt"; "Sugar"; "Tea"; "Rice"; "Soap"; "Oil"])
              eq_refl) as (restocks & E & Hm & _).
  exists restocks. split; [exact E|].
  rewrite <- (map_map (fun r => (Shapes.field "product" r,
                                 Shapes.field "current_stock" r)) fst).
  rewrite Hm. reflexivity.
Defined.
